(** * aerospike-mapper-go: the tag-driven encode/decode engine

    A shallow embedding of [mapper.go] and [reflect_utils.go].  The Go
    program works through package [reflect]; the embedding therefore
    starts with a model of the part of [reflect] the mapper calls
    (kinds, types, values with their addressable/read-only flags, and
    the panics those calls raise), followed by the mapper's own
    functions, each translated statement by statement.

    Conventions.
    - A Go [any] is a [GoValue]; the nil interface is [VInvalid], which
      is also what [reflect.ValueOf(nil)] gives.
    - A [reflect.Value] is an [RValue]: a [GoValue] with its flags.
    - A pointer owns its pointee (a tree, no aliasing): writing through
      a pointer rebuilds the tree.  Functions that mutate their
      destination in place return the destination after the call
      together with the Go return value.
    - Functions end in [Ok], [Err] (a returned Go error) or [Panic]
      (a run-time panic raised by [reflect]).
    - [strconv], [time], floating-point conversions, the resolution of
      promoted field names and the method sets of user types belong to
      the Go runtime or to the calling program; they are taken as a
      parameter ([GoEnv]). *)

From Stdlib Require Import ZArith String Ascii List Bool Lia.
From Stdlib Require Import SpecFloat.
From stdpp Require Import base option list strings pretty gmap.

Local Open Scope string_scope.
Local Open Scope Z_scope.

Set Warnings "-register-all".

(** ** Package reflect: kinds *)

Module reflect.
Inductive Kind : Set :=
| Invalid | Bool
| Int | Int8 | Int16 | Int32 | Int64
| Uint | Uint8 | Uint16 | Uint32 | Uint64 | Uintptr
| Float32 | Float64 | Complex64 | Complex128
| Array | Chan | Func | Interface | Map | Ptr | Slice | String | Struct
| UnsafePointer.
End reflect.

Abbreviation Kind := reflect.Kind.

#[global] Instance Kind_eq_dec : EqDecision Kind.
Proof. solve_decision. Defined.

Definition kindEqb (a b : Kind) : bool := bool_decide (a = b).

(** ** Types *)

(** [reflect.StructField]: the declared name, the tag value stored under
    the key [aero], whether the field is embedded, and the field type. *)
Record StructField (T : Type) : Type := mkField {
  Name : string;
  Tag : string;
  Anonymous : bool;
  Typ : T
}.
Arguments mkField {T} _ _ _ _.
Arguments Name {T} _.
Arguments Tag {T} _.
Arguments Anonymous {T} _.
Arguments Typ {T} _.

(** A Go type.  [TNamed n u] is a defined type [n] (written with its
    package, as [Type.String] prints it) with underlying type [u];
    [TBasic k] is the predeclared type of a scalar kind; [TInterface]
    is the empty interface [any]. *)
Inductive GoType : Type :=
| TBasic (k : Kind)
| TNamed (n : string) (u : GoType)
| TPtr (elem : GoType)
| TSlice (elem : GoType)
| TArray (len : nat) (elem : GoType)
| TMap (key elem : GoType)
| TChan (elem : GoType)
| TFunc (sig : string)
| TInterface
| TStruct (fields : list (StructField GoType)).

Definition Field := StructField GoType.

Fixpoint underlying (t : GoType) : GoType :=
  match t with
  | TNamed _ u => underlying u
  | _ => t
  end.

(** [Type.Kind] *)
Definition typeKind (t : GoType) : Kind :=
  match underlying t with
  | TBasic k => k
  | TNamed _ _ => reflect.Invalid
  | TPtr _ => reflect.Ptr
  | TSlice _ => reflect.Slice
  | TArray _ _ => reflect.Array
  | TMap _ _ => reflect.Map
  | TChan _ => reflect.Chan
  | TFunc _ => reflect.Func
  | TInterface => reflect.Interface
  | TStruct _ => reflect.Struct
  end.

(** [Type.Elem], [Type.Key], [Type.Len], and the fields of a struct type. *)
Definition typeElem (t : GoType) : option GoType :=
  match underlying t with
  | TPtr e | TSlice e | TArray _ e | TMap _ e | TChan e => Some e
  | _ => None
  end.

Definition typeKey (t : GoType) : option GoType :=
  match underlying t with
  | TMap k _ => Some k
  | _ => None
  end.

Definition typeLen (t : GoType) : option nat :=
  match underlying t with
  | TArray n _ => Some n
  | _ => None
  end.

Definition structFields (t : GoType) : option (list Field) :=
  match underlying t with
  | TStruct fs => Some fs
  | _ => None
  end.

(** Identity of types ([==] on [reflect.Type]). *)
Fixpoint typeEqb (a b : GoType) {struct a} : bool :=
  match a, b with
  | TBasic k1, TBasic k2 => kindEqb k1 k2
  | TNamed n1 u1, TNamed n2 u2 => String.eqb n1 n2 && typeEqb u1 u2
  | TPtr e1, TPtr e2 => typeEqb e1 e2
  | TSlice e1, TSlice e2 => typeEqb e1 e2
  | TArray l1 e1, TArray l2 e2 => Nat.eqb l1 l2 && typeEqb e1 e2
  | TMap k1 e1, TMap k2 e2 => typeEqb k1 k2 && typeEqb e1 e2
  | TChan e1, TChan e2 => typeEqb e1 e2
  | TFunc s1, TFunc s2 => String.eqb s1 s2
  | TInterface, TInterface => true
  | TStruct fs1, TStruct fs2 =>
      (fix fieldsEqb (l1 l2 : list Field) {struct l1} : bool :=
         match l1, l2 with
         | [], [] => true
         | f1 :: r1, f2 :: r2 =>
             String.eqb (Name f1) (Name f2) && String.eqb (Tag f1) (Tag f2)
             && Bool.eqb (Anonymous f1) (Anonymous f2)
             && typeEqb (Typ f1) (Typ f2) && fieldsEqb r1 r2
         | _, _ => false
         end) fs1 fs2
  | _, _ => false
  end.

(** The predeclared types the mapper names. *)
Definition tString : GoType := TBasic reflect.String.
Definition tUint32 : GoType := TBasic reflect.Uint32.
Definition tUint8 : GoType := TBasic reflect.Uint8.
Definition tBytes : GoType := TSlice tUint8.
Definition tAny : GoType := TInterface.

(** ** Values *)

(** A Go value with its dynamic type.  Integers are kept as [Z] within
    the range of their kind; floats as IEEE data. *)
Inductive GoValue : Type :=
| VInvalid
| VBool (t : GoType) (b : bool)
| VInt (t : GoType) (i : Z)
| VUint (t : GoType) (u : Z)
| VFloat (t : GoType) (f : spec_float)
| VComplex (t : GoType) (re im : spec_float)
| VString (t : GoType) (s : string)
| VUnsafePointer (t : GoType) (a : Z)
| VPtr (t : GoType) (p : option GoValue)
| VInterface (t : GoType) (e : GoValue)
| VSlice (t : GoType) (l : option (list GoValue))
| VArray (t : GoType) (l : list GoValue)
| VMap (t : GoType) (m : option (list (GoValue * GoValue)))
| VChan (t : GoType) (n : option nat)
| VFunc (t : GoType) (isNil : bool)
| VStruct (t : GoType) (fs : list GoValue).

Definition typeOf (v : GoValue) : option GoType :=
  match v with
  | VInvalid => None
  | VBool t _ | VInt t _ | VUint t _ | VFloat t _ | VComplex t _ _
  | VString t _ | VUnsafePointer t _ | VPtr t _ | VInterface t _
  | VSlice t _ | VArray t _ | VMap t _ | VChan t _ | VFunc t _
  | VStruct t _ => Some t
  end.

Definition isIntKind (k : Kind) : bool :=
  match k with
  | reflect.Int | reflect.Int8 | reflect.Int16 | reflect.Int32
  | reflect.Int64 => true
  | _ => false
  end.

Definition isUintKind (k : Kind) : bool :=
  match k with
  | reflect.Uint | reflect.Uint8 | reflect.Uint16 | reflect.Uint32
  | reflect.Uint64 | reflect.Uintptr => true
  | _ => false
  end.

Definition isFloatKind (k : Kind) : bool :=
  match k with
  | reflect.Float32 | reflect.Float64 => true
  | _ => false
  end.

Definition isComplexKind (k : Kind) : bool :=
  match k with
  | reflect.Complex64 | reflect.Complex128 => true
  | _ => false
  end.

(** [Value.Kind], read off the representation of the value; for the
    numeric kinds the width is that of the type.  For a value of a Go
    program this is the kind of its type. *)
Definition valueKind (v : GoValue) : Kind :=
  match v with
  | VInvalid => reflect.Invalid
  | VBool _ _ => reflect.Bool
  | VInt t _ => if isIntKind (typeKind t) then typeKind t else reflect.Int
  | VUint t _ => if isUintKind (typeKind t) then typeKind t else reflect.Uint
  | VFloat t _ =>
      if isFloatKind (typeKind t) then typeKind t else reflect.Float64
  | VComplex t _ _ =>
      if isComplexKind (typeKind t) then typeKind t else reflect.Complex128
  | VString _ _ => reflect.String
  | VUnsafePointer _ _ => reflect.UnsafePointer
  | VPtr _ _ => reflect.Ptr
  | VInterface _ _ => reflect.Interface
  | VSlice _ _ => reflect.Slice
  | VArray _ _ => reflect.Array
  | VMap _ _ => reflect.Map
  | VChan _ _ => reflect.Chan
  | VFunc _ _ => reflect.Func
  | VStruct _ _ => reflect.Struct
  end.

(** The same data under another type of the same underlying type
    (what an assignment or conversion between such types stores). *)
Definition retype (t : GoType) (v : GoValue) : GoValue :=
  match v with
  | VInvalid => VInvalid
  | VBool _ b => VBool t b
  | VInt _ i => VInt t i
  | VUint _ u => VUint t u
  | VFloat _ f => VFloat t f
  | VComplex _ re im => VComplex t re im
  | VString _ s => VString t s
  | VUnsafePointer _ a => VUnsafePointer t a
  | VPtr _ p => VPtr t p
  | VInterface _ e => VInterface t e
  | VSlice _ l => VSlice t l
  | VArray _ l => VArray t l
  | VMap _ m => VMap t m
  | VChan _ n => VChan t n
  | VFunc _ b => VFunc t b
  | VStruct _ fs => VStruct t fs
  end.

(** ** Errors and panics *)

(** The errors the mapper returns, one constructor per [fmt.Errorf] or
    sentinel, carrying the arguments of the format string.  The two
    sentinels [ErrInvalidSource] and [ErrInvalidSourceType] are declared
    in the package's error file. *)
Inductive error : Type :=
| ErrInvalidSource
| ErrInvalidSourceType
| ErrInvalidTag (tagString : string)
| ErrTypeMismatch (tagName : string) (source record : GoType)
| ErrCannotSetRecordField
| ErrConvertingField (field : string) (e : error)
| ErrValueCannotBeChanged (t : GoType)
| ErrPrefixed (prefix : string) (e : error)
| ErrOnType (t : GoType) (e : error)
| ErrMethodNoValues (method : string)
| ErrMethodWrongType (method : string) (expected got : GoType)
| ErrGetObjectNotFound (t : GoType)
| ErrDigestLength (got expected : nat)
| ErrDigestWrongType (t : GoType)
| ErrCannotSet (tagName : string)
| ErrOverflows (v : Z) (t : GoType)
| ErrUnsupportedFieldType (t : GoType)
| ErrFieldNotFound (field : string) (t : GoType)
| ErrMethodNotFound (method : string) (t : GoType)
| ErrCannotConvert (source : GoType) (target : string)
| ErrCannotConvertString (s : string) (target : string)
| ErrSliceElement (index : nat) (e : error)
| ErrMapKey (e : error)
| ErrMapValue (e : error)
| ErrNestedStruct (e : error)
| ErrUnsupportedTargetType (k : Kind)
| ErrTargetNotPointer
| ErrNotStructs.

(** Run-time panics of package [reflect]. *)
Inductive panic : Type :=
| ValueError (method : string) (k : Kind)
| PanicUnexported (method : string)
| PanicUnaddressable (method : string)
| PanicNotAssignable (v t : GoType)
| PanicIndexOutOfRange
| PanicNilEmbedded
| PanicNoConversion
| PanicTypeOnZeroValue
| PanicNilDereference.

Inductive Result (A : Type) : Type :=
| Ok (a : A)
| Err (e : error)
| Panic (p : panic).
Arguments Ok {A} _.
Arguments Err {A} _.
Arguments Panic {A} _.

#[global] Instance Result_ret : MRet Result := fun A a => Ok a.
#[global] Instance Result_bind : MBind Result := fun A B f m =>
  match m with
  | Ok a => f a
  | Err e => Err e
  | Panic p => Panic p
  end.

(** What a call that mutates its destination leaves behind: the Go
    return value of a function returning [error]. *)
Inductive Outcome : Type :=
| Done
| Failed (e : error)
| Panicked (p : panic).

(** ** Package strings *)

(** [strings.Split(s, ",")] *)
Fixpoint Split (s : string) : list string :=
  match s with
  | EmptyString => [EmptyString]
  | String c rest =>
      if Ascii.eqb c "," then EmptyString :: Split rest
      else match Split rest with
           | p :: ps => String c p :: ps
           | [] => [String c EmptyString]
           end
  end.

(** [unicode.IsSpace] on the UTF-8 encodings of one, two and three
    bytes: U+0009..U+000D, U+0020; U+0085, U+00A0; U+1680,
    U+2000..U+200A, U+2028, U+2029, U+202F, U+205F, U+3000. *)
Definition isSpace1 (a : N) : bool :=
  ((9 <=? a) && (a <=? 13) || (a =? 32))%N.

Definition isSpace2 (a b : N) : bool :=
  ((a =? 194) && ((b =? 133) || (b =? 160)))%N.

Definition isSpace3 (a b c : N) : bool :=
  ((a =? 225) && (b =? 154) && (c =? 128)
   || (a =? 226) && (b =? 128)
      && ((128 <=? c) && (c <=? 138) || (c =? 168) || (c =? 169) || (c =? 175))
   || (a =? 226) && (b =? 129) && (c =? 159)
   || (a =? 227) && (b =? 128) && (c =? 128))%N.

(** Drop leading white space; [back] tells that the bytes are read from
    the end of the string (the input is reversed). *)
Fixpoint trimLeading (back : bool) (s : list ascii) : list ascii :=
  match s with
  | a :: r =>
      if isSpace1 (N_of_ascii a) then trimLeading back r
      else match r with
           | b :: r2 =>
               if (if back then isSpace2 (N_of_ascii b) (N_of_ascii a)
                   else isSpace2 (N_of_ascii a) (N_of_ascii b))
               then trimLeading back r2
               else match r2 with
                    | c :: r3 =>
                        if (if back
                            then isSpace3 (N_of_ascii c) (N_of_ascii b) (N_of_ascii a)
                            else isSpace3 (N_of_ascii a) (N_of_ascii b) (N_of_ascii c))
                        then trimLeading back r3
                        else s
                    | [] => s
                    end
           | [] => s
           end
  | [] => []
  end.

(** [strings.TrimSpace] *)
Definition TrimSpace (s : string) : string :=
  string_of_list_ascii
    (rev (trimLeading true (rev (trimLeading false (list_ascii_of_string s))))).

(** ** The aero tag *)

Definition metaTagGeneration : string := "generation".
Definition metaTagExpiration : string := "expiration".
Definition metaTagNamespace : string := "namespace".
Definition metaTagSetName : string := "set_name".
Definition metaTagDigest : string := "digest".
Definition metaTagUserKey : string := "user_key".

Definition tagValueMeta : string := "meta".
Definition tagValueOmit : string := "omit".
Definition tagValueOmitempty : string := "omitempty".
Definition timeType : string := "time.Time".

Record tag : Type := mkTag {
  meta : bool;
  omit : bool;
  omitempty : bool;
  name : string
}.

Definition emptyTag : tag := mkTag false false false "".

(** The loop of [parseTag] over the parts of the tag string. *)
Fixpoint parseParts (tagString : string) (parts : list string) (parsed : tag)
  : Result tag :=
  match parts with
  | [] => Ok parsed
  | p :: rest =>
      let part := TrimSpace p in
      if String.eqb part tagValueMeta then
        parseParts tagString rest
          (mkTag true (omit parsed) (omitempty parsed) (name parsed))
      else if String.eqb part tagValueOmitempty then
        parseParts tagString rest
          (mkTag (meta parsed) (omit parsed) true (name parsed))
      else if String.eqb part tagValueOmit then
        parseParts tagString rest
          (mkTag (meta parsed) true (omitempty parsed) (name parsed))
      else if String.eqb (name parsed) "" then
        parseParts tagString rest
          (mkTag (meta parsed) (omit parsed) (omitempty parsed) part)
      else Err (ErrInvalidTag tagString)
  end.

(** [parseTag] *)
Definition parseTag (tagString : string) : Result tag :=
  parsed ← parseParts tagString (Split tagString) emptyTag;
  if meta parsed && String.eqb (name parsed) "" then
    Ok (mkTag false (omit parsed) (omitempty parsed) tagValueMeta)
  else Ok parsed.

(** ** Package reflect: values and their flags *)

(** The permission bits of a [reflect.Value]: addressable, and read-only
    because reached through an unexported field (sticky) or through an
    unexported embedded field. *)
Record flag : Type := mkFlag {
  flagAddr : bool;
  flagStickyRO : bool;
  flagEmbedRO : bool
}.

Definition noFlag : flag := mkFlag false false false.
Definition flagRO (f : flag) : bool := flagStickyRO f || flagEmbedRO f.

Record RValue : Type := mkValue {
  val : GoValue;
  flags : flag
}.

(** [reflect.Value{}], the mapper's [reflectZeroValue]. *)
Definition reflectZeroValue : RValue := mkValue VInvalid noFlag.

Definition ValueOf (x : GoValue) : RValue := mkValue x noFlag.

Definition rKind (v : RValue) : Kind := valueKind (val v).

Definition IsValid (v : RValue) : bool :=
  match val v with
  | VInvalid => false
  | _ => true
  end.

Definition CanAddr (v : RValue) : bool := flagAddr (flags v).
Definition CanSet (v : RValue) : bool :=
  flagAddr (flags v) && negb (flagRO (flags v)).

(** [Value.Type]; panics on the zero Value. *)
Definition TypeOfValue (v : RValue) : Result GoType :=
  match typeOf (val v) with
  | Some t => Ok t
  | None => Panic PanicTypeOnZeroValue
  end.

(** A field name is exported when it starts with an upper-case letter
    (identifiers are taken to be ASCII). *)
Definition IsExported (n : string) : bool :=
  match n with
  | String c _ => ((65 <=? N_of_ascii c) && (N_of_ascii c <=? 90))%N
  | EmptyString => false
  end.

(** The flags of [v.Field(i)]: the embedded bit is cleared, the others
    are inherited, and an unexported field forces a read-only bit. *)
Definition fieldFlag (f : flag) (fd : Field) : flag :=
  if IsExported (Name fd) then mkFlag (flagAddr f) (flagStickyRO f) false
  else if Anonymous fd then mkFlag (flagAddr f) (flagStickyRO f) true
  else mkFlag (flagAddr f) true false.

(** [Value.Field] *)
Definition FieldAt (v : RValue) (i : nat) : Result RValue :=
  match val v with
  | VStruct t vs =>
      match structFields t with
      | Some fds =>
          match fds !! i, vs !! i with
          | Some fd, Some x => Ok (mkValue x (fieldFlag (flags v) fd))
          | _, _ => Panic PanicIndexOutOfRange
          end
      | None => Panic (ValueError "reflect.Value.Field" (rKind v))
      end
  | _ => Panic (ValueError "reflect.Value.Field" (rKind v))
  end.

(** The flags of the pointee of a pointer and of the content of an
    interface. *)
Definition ptrElemFlag (f : flag) : flag :=
  mkFlag true (flagStickyRO f) (flagEmbedRO f).
Definition ifaceElemFlag (f : flag) : flag :=
  mkFlag false (flagRO f) false.

(** [Value.Elem] *)
Definition Elem (v : RValue) : Result RValue :=
  match val v with
  | VPtr _ None => Ok reflectZeroValue
  | VPtr _ (Some p) => Ok (mkValue p (ptrElemFlag (flags v)))
  | VInterface _ VInvalid => Ok reflectZeroValue
  | VInterface _ e => Ok (mkValue e (ifaceElemFlag (flags v)))
  | _ => Panic (ValueError "reflect.Value.Elem" (rKind v))
  end.

(** [Value.Addr] *)
Definition Addr (v : RValue) : Result RValue :=
  match typeOf (val v) with
  | Some t =>
      if flagAddr (flags v)
      then Ok (mkValue (VPtr (TPtr t) (Some (val v)))
                       (mkFlag false (flagRO (flags v)) false))
      else Panic (PanicUnaddressable "reflect.Value.Addr")
  | None => Panic (ValueError "reflect.Value.Addr" reflect.Invalid)
  end.

(** Width in bits of the integer kinds ([int], [uint] and [uintptr] are
    64 bits wide, as on amd64 and arm64). *)
Definition bitSize (k : Kind) : Z :=
  match k with
  | reflect.Int8 | reflect.Uint8 => 8
  | reflect.Int16 | reflect.Uint16 => 16
  | reflect.Int32 | reflect.Uint32 | reflect.Float32 => 32
  | _ => 64
  end.

(** Two's-complement truncation to [w] bits, signed and unsigned. *)
Definition wrapInt (w : Z) (x : Z) : Z :=
  (x + 2 ^ (w - 1)) mod 2 ^ w - 2 ^ (w - 1).
Definition wrapUint (w : Z) (x : Z) : Z := x mod 2 ^ w.

(** [Value.Bool], [Value.Int], [Value.Uint], [Value.Float]: each panics
    on a value of another kind. *)
Definition BoolOf (v : RValue) : Result bool :=
  match val v with
  | VBool _ b => Ok b
  | _ => Panic (ValueError "reflect.Value.Bool" (rKind v))
  end.

Definition IntOf (v : RValue) : Result Z :=
  match val v with
  | VInt _ i => Ok i
  | _ => Panic (ValueError "reflect.Value.Int" (rKind v))
  end.

Definition UintOf (v : RValue) : Result Z :=
  match val v with
  | VUint _ u => Ok u
  | _ => Panic (ValueError "reflect.Value.Uint" (rKind v))
  end.

Definition FloatOf (v : RValue) : Result spec_float :=
  match val v with
  | VFloat _ f => Ok f
  | _ => Panic (ValueError "reflect.Value.Float" (rKind v))
  end.

(** [Value.String] of a string value (the mapper calls it on strings
    only). *)
Definition StringOf (v : RValue) : Result string :=
  match val v with
  | VString _ s => Ok s
  | _ => Panic (ValueError "reflect.Value.String" (rKind v))
  end.

(** [Value.Len] *)
Definition Len (v : RValue) : Result nat :=
  match val v with
  | VString _ s => Ok (String.length s)
  | VSlice _ None => Ok 0%nat
  | VSlice _ (Some l) => Ok (length l)
  | VArray _ l => Ok (length l)
  | VMap _ None => Ok 0%nat
  | VMap _ (Some m) => Ok (length m)
  | VChan _ None => Ok 0%nat
  | VChan _ (Some n) => Ok n
  | _ => Panic (ValueError "reflect.Value.Len" (rKind v))
  end.

(** [Value.IsNil] *)
Definition IsNil (v : RValue) : Result bool :=
  match val v with
  | VPtr _ None | VSlice _ None | VMap _ None | VChan _ None
  | VInterface _ VInvalid => Ok true
  | VPtr _ _ | VSlice _ _ | VMap _ _ | VChan _ _ | VInterface _ _ => Ok false
  | VFunc _ b => Ok b
  | VUnsafePointer _ a => Ok (a =? 0)
  | _ => Panic (ValueError "reflect.Value.IsNil" (rKind v))
  end.

Definition isPosZero (f : spec_float) : bool :=
  match f with
  | S754_zero false => true
  | _ => false
  end.

Definition floatIsZero (f : spec_float) : bool :=
  match f with
  | S754_zero _ => true
  | _ => false
  end.

(** [Value.IsZero] on a valid value: every bit of the value is zero. *)
Fixpoint isZeroValue (v : GoValue) : bool :=
  match v with
  | VInvalid => true
  | VBool _ b => negb b
  | VInt _ i => i =? 0
  | VUint _ u => u =? 0
  | VFloat _ f => isPosZero f
  | VComplex _ re im => isPosZero re && isPosZero im
  | VString _ s => String.eqb s ""
  | VUnsafePointer _ a => a =? 0
  | VPtr _ None | VSlice _ None | VMap _ None | VChan _ None => true
  | VPtr _ _ | VSlice _ _ | VMap _ _ | VChan _ _ => false
  | VInterface _ VInvalid => true
  | VInterface _ _ => false
  | VFunc _ b => b
  | VArray _ l | VStruct _ l =>
      (fix all (l : list GoValue) : bool :=
         match l with
         | [] => true
         | x :: r => isZeroValue x && all r
         end) l
  end.

Definition IsZero (v : RValue) : Result bool :=
  match val v with
  | VInvalid => Panic (ValueError "reflect.Value.IsZero" reflect.Invalid)
  | x => Ok (isZeroValue x)
  end.

(** [reflect.Zero]: the zero value of a type. *)
Fixpoint zeroAs (orig t : GoType) {struct t} : GoValue :=
  match t with
  | TBasic k =>
      match k with
      | reflect.Bool => VBool orig false
      | reflect.Int | reflect.Int8 | reflect.Int16 | reflect.Int32
      | reflect.Int64 => VInt orig 0
      | reflect.Uint | reflect.Uint8 | reflect.Uint16 | reflect.Uint32
      | reflect.Uint64 | reflect.Uintptr => VUint orig 0
      | reflect.Float32 | reflect.Float64 => VFloat orig (S754_zero false)
      | reflect.Complex64 | reflect.Complex128 =>
          VComplex orig (S754_zero false) (S754_zero false)
      | reflect.String => VString orig ""
      | reflect.UnsafePointer => VUnsafePointer orig 0
      | _ => VInvalid
      end
  | TNamed _ u => zeroAs orig u
  | TPtr _ => VPtr orig None
  | TSlice _ => VSlice orig None
  | TArray n e => VArray orig (repeat (zeroAs e e) n)
  | TMap _ _ => VMap orig None
  | TChan _ => VChan orig None
  | TFunc _ => VFunc orig true
  | TInterface => VInterface orig VInvalid
  | TStruct fds =>
      VStruct orig
        ((fix zeros (l : list Field) : list GoValue :=
            match l with
            | [] => []
            | f :: r => zeroAs (Typ f) (Typ f) :: zeros r
            end) fds)
  end.

Definition zeroValue (t : GoType) : GoValue := zeroAs t t.
Definition Zero (t : GoType) : RValue := ValueOf (zeroValue t).

(** [Value.Interface]: the value as an [any]; panics on the zero Value
    and on a value reached through an unexported field. *)
Definition unbox (x : GoValue) : GoValue :=
  match x with
  | VInterface _ e => e
  | _ => x
  end.

Definition Interface (v : RValue) : Result GoValue :=
  match val v with
  | VInvalid => Panic (ValueError "reflect.Value.Interface" reflect.Invalid)
  | x =>
      if flagRO (flags v) then Panic (PanicUnexported "reflect.Value.Interface")
      else Ok (unbox x)
  end.

(** Assignability as [Value.Set] checks it: identical types, or
    identical underlying types when one side is not a named type, or a
    destination of the empty interface type. *)
Definition hasName (t : GoType) : bool :=
  match t with
  | TBasic _ | TNamed _ _ => true
  | _ => false
  end.

Definition directlyAssignable (T V : GoType) : bool :=
  typeEqb T V
  || (negb (hasName T && hasName V) && typeEqb (underlying T) (underlying V)).

Definition assignTo (method : string) (x : GoValue) (dst : GoType)
  : Result GoValue :=
  match typeOf x with
  | None => Panic (ValueError method reflect.Invalid)
  | Some V =>
      if directlyAssignable dst V then Ok (retype dst x)
      else if kindEqb (typeKind dst) reflect.Interface
           then Ok (VInterface dst (unbox x))
           else Panic (PanicNotAssignable V dst)
  end.

(** [v.Set(x)]: the new content of [v].  Panics when [v] is not
    settable, when [x] is the zero Value or was reached through an
    unexported field, and when the types do not allow the assignment. *)
Definition SetValue (v x : RValue) : Result GoValue :=
  match val v with
  | VInvalid => Panic (ValueError "reflect.Value.Set" reflect.Invalid)
  | old =>
      if flagRO (flags v) then Panic (PanicUnexported "reflect.Value.Set")
      else if negb (flagAddr (flags v))
      then Panic (PanicUnaddressable "reflect.Value.Set")
      else if flagRO (flags x) then Panic (PanicUnexported "reflect.Value.Set")
      else match typeOf old with
           | Some T => assignTo "reflect.Value.Set" (val x) T
           | None => Panic (ValueError "reflect.Value.Set" reflect.Invalid)
           end
  end.

(** [v.OverflowInt(x)] and [v.OverflowUint(x)]: whether the 64-bit [x]
    changes when truncated to the width of [v]'s kind. *)
Definition OverflowInt (v : RValue) (x : Z) : Result bool :=
  if isIntKind (rKind v)
  then Ok (negb (wrapInt (bitSize (rKind v)) x =? x))
  else Panic (ValueError "reflect.Value.OverflowInt" (rKind v)).

Definition OverflowUint (v : RValue) (x : Z) : Result bool :=
  if isUintKind (rKind v)
  then Ok (negb (wrapUint (bitSize (rKind v)) x =? x))
  else Panic (ValueError "reflect.Value.OverflowUint" (rKind v)).

(** ** What the mapper takes from the Go runtime and the calling program *)

(** [strconv] and [time] (parsers return [None] on a parse error),
    conversions that involve floating point, the breadth-first search of
    [Type.FieldByName] through embedded structs, and the method sets of
    the program's types: [MethodSet t m] is method [m] of a receiver of
    type [t], as the function from the receiver to the results of a call
    without arguments. *)
Record GoEnv : Type := mkEnv {
  FormatInt : Z -> string;
  FormatFloat : spec_float -> string;
  FormatBool : bool -> string;
  ParseInt : string -> option Z;
  ParseFloat : string -> option spec_float;
  ParseBool : string -> option bool;
  ParseTime : string -> option GoValue;
  floatToInt64 : spec_float -> Z;
  int64ToFloat : Z -> spec_float;
  roundFloat : Kind -> spec_float -> spec_float;
  PromotedFieldIndex : GoType -> string -> option (list nat);
  MethodSet : GoType -> string -> option (GoValue -> list GoValue)
}.

(** [Type.String]; a struct literal is printed without its fields. *)
Definition kindString (k : Kind) : string :=
  match k with
  | reflect.Invalid => "invalid" | reflect.Bool => "bool"
  | reflect.Int => "int" | reflect.Int8 => "int8" | reflect.Int16 => "int16"
  | reflect.Int32 => "int32" | reflect.Int64 => "int64"
  | reflect.Uint => "uint" | reflect.Uint8 => "uint8"
  | reflect.Uint16 => "uint16" | reflect.Uint32 => "uint32"
  | reflect.Uint64 => "uint64" | reflect.Uintptr => "uintptr"
  | reflect.Float32 => "float32" | reflect.Float64 => "float64"
  | reflect.Complex64 => "complex64" | reflect.Complex128 => "complex128"
  | reflect.Array => "array" | reflect.Chan => "chan" | reflect.Func => "func"
  | reflect.Interface => "interface" | reflect.Map => "map"
  | reflect.Ptr => "ptr" | reflect.Slice => "slice"
  | reflect.String => "string" | reflect.Struct => "struct"
  | reflect.UnsafePointer => "unsafe.Pointer"
  end.

Fixpoint typeString (t : GoType) : string :=
  match t with
  | TBasic k => kindString k
  | TNamed n _ => n
  | TPtr e => "*" +:+ typeString e
  | TSlice e => "[]" +:+ typeString e
  | TArray n e => "[" +:+ pretty n +:+ "]" +:+ typeString e
  | TMap k e => "map[" +:+ typeString k +:+ "]" +:+ typeString e
  | TChan e => "chan " +:+ typeString e
  | TFunc sig => sig
  | TInterface => "interface {}"
  | TStruct _ => "struct {...}"
  end.

Section Reflect.
Context (env : GoEnv).

(** [Value.Convert] between the numeric kinds (the only conversions
    the mapper asks for). *)
Definition Convert (v : RValue) (t : GoType) : Result RValue :=
  let k := typeKind t in
  let fl := mkFlag false (flagRO (flags v)) false in
  let int64To (i : Z) : Result RValue :=
    if isIntKind k then Ok (mkValue (VInt t (wrapInt (bitSize k) i)) fl)
    else if isUintKind k then Ok (mkValue (VUint t (wrapUint (bitSize k) i)) fl)
    else if isFloatKind k
    then Ok (mkValue (VFloat t (roundFloat env k (int64ToFloat env i))) fl)
    else Panic PanicNoConversion in
  match val v with
  | VInt _ i => int64To i
  | VUint _ u => int64To u
  | VFloat _ f =>
      if isFloatKind k then Ok (mkValue (VFloat t (roundFloat env k f)) fl)
      else if isIntKind k || isUintKind k then int64To (floatToInt64 env f)
      else Panic PanicNoConversion
  | _ => Panic PanicNoConversion
  end.

(** [Type.FieldByName]: a field declared in the struct itself wins;
    otherwise, when the struct embeds fields, the promoted field the
    runtime's search finds. *)
Fixpoint directField (fds : list Field) (n : string) (i : nat) : option nat :=
  match fds with
  | [] => None
  | fd :: r => if String.eqb (Name fd) n then Some i else directField r n (S i)
  end.

Definition FieldIndexByName (t : GoType) (n : string) : option (list nat) :=
  match structFields t with
  | None => None
  | Some fds =>
      if String.eqb n "" then None
      else match directField fds n 0 with
           | Some i => Some [i]
           | None =>
               if existsb Anonymous fds then PromotedFieldIndex env t n
               else None
           end
  end.

(** [Value.FieldByIndex]: walks the index path, stepping through
    embedded pointers; a nil embedded pointer on the way panics. *)
Fixpoint FieldByIndex (v : RValue) (first : bool) (index : list nat)
  : Result RValue :=
  match index with
  | [] => Ok v
  | x :: rest =>
      v1 ← (if first then Ok v
            else match val v with
                 | VPtr _ None => Panic PanicNilEmbedded
                 | VPtr _ (Some _) => Elem v
                 | _ => Ok v
                 end);
      f ← FieldAt v1 x;
      FieldByIndex f false rest
  end.

(** [Value.FieldByName]; the zero Value when there is no such field. *)
Definition FieldByName (v : RValue) (n : string) : Result RValue :=
  if negb (kindEqb (rKind v) reflect.Struct)
  then Panic (ValueError "reflect.Value.FieldByName" (rKind v))
  else match typeOf (val v) with
       | None => Panic (ValueError "reflect.Value.FieldByName" reflect.Invalid)
       | Some t =>
           match FieldIndexByName t n with
           | Some index => FieldByIndex v true index
           | None => Ok reflectZeroValue
           end
       end.

(** [Value.MethodByName] followed by [Call(nil)]: the results of the
    call, or [None] when the type has no such method. *)
Definition MethodByName (v : RValue) (m : string)
  : Result (option (list RValue)) :=
  match typeOf (val v) with
  | None => Panic (ValueError "reflect.Value.MethodByName" reflect.Invalid)
  | Some t =>
      match MethodSet env t m with
      | Some f => if flagRO (flags v)
                  then Panic (PanicUnexported "reflect.Value.Call")
                  else Ok (Some (map ValueOf (f (val v))))
      | None => Ok None
      end
  end.

(** [v.MapIndex(reflect.ValueOf(key))] for a string [key]: the element
    stored under [key], or the zero Value.  Panics when [v] is not a
    map or its key type does not accept a string. *)
Fixpoint lookupString (m : list (GoValue * GoValue)) (key : string)
  : option GoValue :=
  match m with
  | [] => None
  | (k, e) :: r =>
      match unbox k with
      | VString t s =>
          if typeEqb t tString && String.eqb s key then Some e
          else lookupString r key
      | _ => lookupString r key
      end
  end.

Definition MapIndex (v : RValue) (key : string) : Result RValue :=
  match val v with
  | VMap t m =>
      match typeKey t with
      | Some kt =>
          if directlyAssignable kt tString
             || kindEqb (typeKind kt) reflect.Interface
          then match m with
               | None => Ok reflectZeroValue
               | Some entries =>
                   match lookupString entries key with
                   | Some e => Ok (mkValue e (mkFlag false (flagRO (flags v)) false))
                   | None => Ok reflectZeroValue
                   end
               end
          else Panic (PanicNotAssignable tString kt)
      | None => Panic (ValueError "reflect.Value.MapIndex" (rKind v))
      end
  | _ => Panic (ValueError "reflect.Value.MapIndex" (rKind v))
  end.

(** [Value.Bytes]: the bytes of a byte slice or of an addressable
    byte array. *)
Definition BytesOf (v : RValue) : Result (list GoValue) :=
  match val v, typeOf (val v) ≫= typeElem with
  | VSlice _ l, Some e =>
      if kindEqb (typeKind e) reflect.Uint8 then Ok (default [] l)
      else Panic (ValueError "reflect.Value.Bytes" (rKind v))
  | VArray _ l, Some e =>
      if kindEqb (typeKind e) reflect.Uint8
      then if flagAddr (flags v) then Ok l
           else Panic (PanicUnaddressable "reflect.Value.Bytes")
      else Panic (ValueError "reflect.Value.Bytes" (rKind v))
  | _, _ => Panic (ValueError "reflect.Value.Bytes" (rKind v))
  end.

(** ** reflect_utils.go *)

(** [fieldValueDeref], applied to [value.Field(i)]. *)
Definition fieldValueDeref (fieldValue : RValue) : RValue :=
  match val fieldValue with
  | VPtr _ None => reflectZeroValue
  | VPtr _ (Some p) => mkValue p (ptrElemFlag (flags fieldValue))
  | _ => fieldValue
  end.

(** [getField] *)
Definition getField (value : RValue) (fieldName : string) : Result RValue :=
  field ← FieldByName value fieldName;
  if IsValid field then Ok field
  else
    field2 ← (if CanAddr value
              then ptrValue ← Addr value;
                   e ← Elem ptrValue;
                   FieldByName e fieldName
              else Ok reflectZeroValue);
    if IsValid field2 then Ok field2
    else t ← TypeOfValue value; Err (ErrFieldNotFound fieldName t).

(** [getMethod], with the call [m.Call(nil)] that follows it at every
    use. *)
Definition getMethod (value : RValue) (methodName : string)
  : Result (list RValue) :=
  method ← MethodByName value methodName;
  match method with
  | Some results => Ok results
  | None =>
      method2 ← (if CanAddr value
                 then ptrValue ← Addr value; MethodByName ptrValue methodName
                 else Ok None);
      match method2 with
      | Some results => Ok results
      | None => t ← TypeOfValue value; Err (ErrMethodNotFound methodName t)
      end
  end.

(** An argument of static type [any]: a [reflect.Value] handed on by
    the mapper itself, or any other value. *)
Inductive anyArg : Type :=
| ArgValue (v : RValue)
| ArgAny (x : GoValue).

(** [structValue] *)
Definition structValue (value : anyArg) : Result RValue :=
  match value with
  | ArgValue v => Ok v
  | ArgAny x =>
      let sv := ValueOf x in
      sv1 ← (if kindEqb (rKind sv) reflect.Ptr then Elem sv else Ok sv);
      if negb (kindEqb (rKind sv1) reflect.Struct)
      then Err ErrInvalidSourceType
      else Ok sv1
  end.

(** [isEmptyValue] *)
Definition isEmptyValue (v : RValue) : Result bool :=
  match rKind v with
  | reflect.Array | reflect.Map | reflect.Slice | reflect.String
  | reflect.Chan | reflect.Func =>
      n ← Len v; Ok (Nat.eqb n 0)
  | reflect.Bool => b ← BoolOf v; Ok (negb b)
  | reflect.Int | reflect.Int8 | reflect.Int16 | reflect.Int32
  | reflect.Int64 => i ← IntOf v; Ok (i =? 0)
  | reflect.Uint | reflect.Uint8 | reflect.Uint16 | reflect.Uint32
  | reflect.Uint64 | reflect.Uintptr => u ← UintOf v; Ok (u =? 0)
  | reflect.Float32 | reflect.Float64 => f ← FloatOf v; Ok (floatIsZero f)
  | reflect.Interface | reflect.Ptr => IsNil v
  | reflect.Struct =>
      t ← TypeOfValue v;
      if String.eqb (typeString t) timeType then IsZero v else Ok false
  | reflect.Invalid => Ok true
  | _ => Ok false
  end.
End Reflect.

(** ** mapper.go: the record *)

Definition tDigest : GoType := TArray 20 tUint8.

Definition tKey : GoType :=
  TNamed "mapper.Key"
    (TStruct [mkField "Namespace" "meta,namespace" false tString;
              mkField "SetName" "meta,set_name" false tString;
              mkField "Digest" "meta,digest" false tDigest]).

Definition tKeyValue : GoType :=
  TNamed "mapper.KeyValue"
    (TStruct [mkField "UserKey" "meta,user_key" false tAny]).

Definition tMetadata : GoType :=
  TNamed "mapper.Metadata"
    (TStruct [mkField "Generation" "meta,generation" false tUint32;
              mkField "Expiration" "meta,expiration" false tUint32]).

Definition tBins : GoType := TMap tString tAny.

Definition tRecord : GoType :=
  TNamed "mapper.Record"
    (TStruct [mkField "Key" "" true tKey;
              mkField "KeyValue" "" true tKeyValue;
              mkField "Metadata" "" true tMetadata;
              mkField "Bins" "" false tBins]).

(** [Record], with the fields of the embedded [Key], [KeyValue] and
    [Metadata] laid out flat: strings, the twenty bytes of the digest,
    the [any] of the user key, the two [uint32] counters, and the bins
    as a map from the bin name to the [any] stored under it. *)
Record Record : Type := mkRecord {
  Namespace : string;
  SetName : string;
  Digest : list Z;
  UserKey : GoValue;
  Generation : Z;
  Expiration : Z;
  Bins : gmap string GoValue
}.

(** [&Record{Bins: make(map[string]any)}] *)
Definition newRecord : Record :=
  mkRecord "" "" (repeat 0 20) VInvalid 0 0 ∅.

Definition setBin (record : Record) (binName : string) (x : GoValue) : Record :=
  mkRecord (Namespace record) (SetName record) (Digest record)
           (UserKey record) (Generation record) (Expiration record)
           (<[binName := x]> (Bins record)).

(** The fields of the record as [reflect] sees them. *)
Definition stringValue (s : string) : GoValue := VString tString s.
Definition uint32Value (u : Z) : GoValue := VUint tUint32 u.
Definition digestValue (d : list Z) : GoValue :=
  VArray tDigest (map (VUint tUint8) d).
Definition anyValue (x : GoValue) : GoValue := VInterface tAny x.

Definition binsValue (bins : gmap string GoValue) : GoValue :=
  VMap tBins
    (Some (map (fun kv => (stringValue kv.1, anyValue kv.2))
               (map_to_list bins))).

Definition recordValueOf (record : Record) : GoValue :=
  VStruct tRecord
    [VStruct tKey [stringValue (Namespace record);
                   stringValue (SetName record);
                   digestValue (Digest record)];
     VStruct tKeyValue [anyValue (UserKey record)];
     VStruct tMetadata [uint32Value (Generation record);
                        uint32Value (Expiration record)];
     binsValue (Bins record)].

(** A [*Record], what [Encode] returns. *)
Definition recordPointer (record : Record) : GoValue :=
  VPtr (TPtr tRecord) (Some (recordValueOf record)).

(** Reading a field of the record back from its Go value. *)
Definition stringOfValue (x : GoValue) : string :=
  match x with
  | VString _ s => s
  | _ => ""
  end.

(** The number held by an unsigned integer value. *)
Definition uintOfValue (x : GoValue) : Z :=
  match x with
  | VUint _ u => u
  | _ => 0
  end.

Definition digestOfValue (x : GoValue) : list Z :=
  match x with
  | VArray _ l => map uintOfValue l
  | _ => []
  end.

(** The slots of the record are reached through [&record.Metadata],
    [&record.Key] and [&record.KeyValue]: addressable and exported. *)
Definition slotFlag : flag := mkFlag true false false.

Definition Result_of {A} (a : A) (o : Outcome) : Result A :=
  match o with
  | Done => Ok a
  | Failed e => Err e
  | Panicked p => Panic p
  end.

Definition Outcome_of {A} (old : A) (r : Result A) : A * Outcome :=
  match r with
  | Ok a => (a, Done)
  | Err e => (old, Failed e)
  | Panic p => (old, Panicked p)
  end.

(** ** The loop shared by encode, decodeBins, decodeKey and decodeRecord

    Each of the four functions walks the fields of a struct value in
    declaration order:
<<
    for i := 0; i < t.NumField(); i++ {
        fieldValue := fieldValueDeref(v, i)
        if fieldValue.Kind() == reflect.Struct {
            if err := f(..., fieldValue); err != nil { return err }
            continue
        }
        ... the body for a leaf field ...
    }
>>
    [walkStruct leaf] is that loop with the recursion into struct-kind
    fields; [leaf fd fieldValue s] is the body for a leaf: it receives
    the dereferenced field value and returns its content after the body
    ran, the state carried along (the record being built, for encode)
    and how the body ended.  The walk stops at the first error or
    panic; what was written before stays written. *)
Section Walk.
Context {S : Type}.
Variable leaf : Field -> RValue -> S -> GoValue * S * Outcome.

(** One turn of the loop, [recurse] being the function itself. *)
Definition walkField
    (recurse : GoValue -> flag -> S -> GoValue * S * Outcome)
    (fl : flag) (fd : Field) (x : GoValue) (s : S) : GoValue * S * Outcome :=
  let ffl := fieldFlag fl fd in
  match x with
  | VPtr pt (Some p) =>
      let '(p', s1, o1) :=
        if kindEqb (valueKind p) reflect.Struct
        then recurse p (ptrElemFlag ffl) s
        else leaf fd (mkValue p (ptrElemFlag ffl)) s in
      (VPtr pt (Some p'), s1, o1)
  | VPtr _ None =>
      let '(_, s1, o1) := leaf fd reflectZeroValue s in
      (x, s1, o1)
  | _ =>
      if kindEqb (valueKind x) reflect.Struct
      then recurse x ffl s
      else leaf fd (mkValue x ffl) s
  end.

Fixpoint walkFields
    (recurse : GoValue -> flag -> S -> GoValue * S * Outcome)
    (fl : flag) (fds : list Field) (vs : list GoValue) (s : S) {struct vs}
  : list GoValue * S * Outcome :=
  match fds, vs with
  | fd :: fds', x :: vs' =>
      let '(x', s1, o1) := walkField recurse fl fd x s in
      match o1 with
      | Done =>
          let '(vs'', s2, o2) := walkFields recurse fl fds' vs' s1 in
          (x' :: vs'', s2, o2)
      | _ => (x' :: vs', s1, o1)
      end
  | _, _ => (vs, s, Done)
  end.

Fixpoint walkStruct (v : GoValue) (fl : flag) (s : S) {struct v}
  : GoValue * S * Outcome :=
  match v with
  | VStruct t vs =>
      match structFields t with
      | Some fds =>
          let '(vs', s', o) := walkFields walkStruct fl fds vs s in
          (VStruct t vs', s', o)
      | None =>
          (v, s, Panicked (ValueError "reflect.Type.NumField" (valueKind v)))
      end
  | _ => (v, s, Panicked (ValueError "reflect.Type.NumField" (valueKind v)))
  end.

(** The walk started from an argument of type [any]: [structValue]
    first, and what the walk wrote is seen through the pointer the
    caller passed. *)
Definition walkArg (v : GoValue) (s : S) : GoValue * S * Outcome :=
  match structValue (ArgAny v) with
  | Ok sv =>
      let '(x', s', o) := walkStruct (val sv) (flags sv) s in
      (match v with
       | VPtr pt (Some _) => VPtr pt (Some x')
       | _ => v
       end, s', o)
  | Err e => (v, s, Failed e)
  | Panic p => (v, s, Panicked p)
  end.
End Walk.

Section Mapper.
Context (env : GoEnv).

(** ** Encode *)

(** [setMetadata]: the content of the record slot after the call. *)
Definition setMetadata (field : RValue) (recordField : RValue)
    (tagName : string) : Result GoValue :=
  empty ← isEmptyValue field;
  if empty : bool then Ok (val recordField)
  else
    ft ← TypeOfValue field;
    rt ← TypeOfValue recordField;
    if negb (typeEqb ft rt) then Err (ErrTypeMismatch tagName ft rt)
    else if CanSet recordField then SetValue recordField field
    else Err ErrCannotSetRecordField.

(** The body of the loop of [encode] for a leaf field. *)
Definition encodeField (fd : Field) (fieldValue : RValue) (record : Record)
  : Result Record :=
  let aeroTag := Tag fd in
  if String.eqb aeroTag "" then Ok record
  else
    tag ← parseTag aeroTag;
    if meta tag then
      let slot (x : GoValue) := mkValue x slotFlag in
      if String.eqb (name tag) metaTagGeneration then
        x ← setMetadata fieldValue (slot (uint32Value (Generation record)))
                        (name tag);
        Ok (mkRecord (Namespace record) (SetName record) (Digest record)
                     (UserKey record) (uintOfValue x) (Expiration record)
                     (Bins record))
      else if String.eqb (name tag) metaTagExpiration then
        x ← setMetadata fieldValue (slot (uint32Value (Expiration record)))
                        (name tag);
        Ok (mkRecord (Namespace record) (SetName record) (Digest record)
                     (UserKey record) (Generation record) (uintOfValue x)
                     (Bins record))
      else if String.eqb (name tag) metaTagNamespace then
        x ← setMetadata fieldValue (slot (stringValue (Namespace record)))
                        (name tag);
        Ok (mkRecord (stringOfValue x) (SetName record) (Digest record)
                     (UserKey record) (Generation record) (Expiration record)
                     (Bins record))
      else if String.eqb (name tag) metaTagSetName then
        x ← setMetadata fieldValue (slot (stringValue (SetName record)))
                        (name tag);
        Ok (mkRecord (Namespace record) (stringOfValue x) (Digest record)
                     (UserKey record) (Generation record) (Expiration record)
                     (Bins record))
      else if String.eqb (name tag) metaTagDigest then
        x ← setMetadata fieldValue (slot (digestValue (Digest record)))
                        (name tag);
        Ok (mkRecord (Namespace record) (SetName record) (digestOfValue x)
                     (UserKey record) (Generation record) (Expiration record)
                     (Bins record))
      else if String.eqb (name tag) metaTagUserKey then
        x ← setMetadata fieldValue (slot (anyValue (UserKey record)))
                        (name tag);
        Ok (mkRecord (Namespace record) (SetName record) (Digest record)
                     (unbox x) (Generation record) (Expiration record)
                     (Bins record))
      else Ok record
    else
      empty ← isEmptyValue fieldValue;
      if omit tag || (omitempty tag && empty) then Ok record
      else
        let binName := name tag in
        if String.eqb binName "" then Ok record
        else if empty : bool then
          x ← Interface (Zero (Typ fd));
          Ok (setBin record binName x)
        else
          x ← Interface fieldValue;
          Ok (setBin record binName x).

Definition encodeLeaf (fd : Field) (fieldValue : RValue) (record : Record)
  : GoValue * Record * Outcome :=
  match encodeField fd fieldValue record with
  | Ok r => (val fieldValue, r, Done)
  | Err e => (val fieldValue, record, Failed e)
  | Panic p => (val fieldValue, record, Panicked p)
  end.

(** [encode] *)
Definition encode (v : anyArg) (record : Record) : Result Record :=
  sourceValue ← structValue v;
  let '(_, r, o) :=
    walkStruct encodeLeaf (val sourceValue) (flags sourceValue) record in
  Result_of r o.

(** [Encode] *)
Definition Encode (v : GoValue) : Result Record :=
  encode (ArgAny v) newRecord.
End Mapper.

(** ** convertElementType and copyStruct *)

(** What [reflect.ValueOf] sees when it is handed a [reflect.Value]
    boxed in an [any]: the struct [reflect.Value] itself, whose three
    fields are unexported. *)
Definition tReflectValue : GoType :=
  TNamed "reflect.Value"
    (TStruct [mkField "typ_" "" false (TPtr (TNamed "abi.Type" (TStruct [])));
              mkField "ptr" "" false (TBasic reflect.UnsafePointer);
              mkField "flag" "" true (TNamed "reflect.flag" (TBasic reflect.Uintptr))]).

Definition valueOfArg (a : anyArg) : RValue :=
  match a with
  | ArgValue _ => ValueOf (zeroValue tReflectValue)
  | ArgAny x => ValueOf x
  end.

(** Writing [x] at the end of an index path of a struct value. *)
Fixpoint updateAt (v : GoValue) (index : list nat) (x : GoValue) : GoValue :=
  match index with
  | [] => x
  | i :: rest =>
      match v with
      | VStruct t vs =>
          match vs !! i with
          | Some old => VStruct t (<[i := updateAt old rest x]> vs)
          | None => v
          end
      | VPtr t (Some (VStruct st vs)) =>
          match vs !! i with
          | Some old => VPtr t (Some (VStruct st (<[i := updateAt old rest x]> vs)))
          | None => v
          end
      | _ => v
      end
  end.

(** Equality of two map keys of the scalar kinds (keys of other kinds
    are kept apart). *)
Definition keyEqb (a b : GoValue) : bool :=
  match unbox a, unbox b with
  | VBool t1 x, VBool t2 y => typeEqb t1 t2 && Bool.eqb x y
  | VInt t1 x, VInt t2 y => typeEqb t1 t2 && (x =? y)
  | VUint t1 x, VUint t2 y => typeEqb t1 t2 && (x =? y)
  | VString t1 x, VString t2 y => typeEqb t1 t2 && String.eqb x y
  | _, _ => false
  end.

Fixpoint setMapIndex (m : list (GoValue * GoValue)) (k e : GoValue)
  : list (GoValue * GoValue) :=
  match m with
  | [] => [(k, e)]
  | (k', e') :: r =>
      if keyEqb k' k then (k', e) :: r else (k', e') :: setMapIndex r k e
  end.

(** [mapM] over a list, with the position of the element. *)
Fixpoint forEach {A B} (f : nat -> A -> Result B) (i : nat) (l : list A)
  : Result (list B) :=
  match l with
  | [] => Ok []
  | x :: r => y ← f i x; ys ← forEach f (S i) r; Ok (y :: ys)
  end.

Definition wrapErr {A} (w : error -> error) (r : Result A) : Result A :=
  match r with
  | Err e => Err (w e)
  | _ => r
  end.

Section Convert.
Context (env : GoEnv).

(** A freshly made variable of type [t] ([reflect.New(t).Elem()], an
    element of a new slice): settable. *)
Definition newVar (t : GoType) : RValue := mkValue (zeroValue t) slotFlag.

(** The loop of [copyStruct] over the fields of the source, given the
    conversion of one field: [target] is the struct behind the target
    pointer, [fl] the flags of the source value. *)
Fixpoint copyFields
    (convert : anyArg -> GoType -> Result RValue)
    (targetType : GoType) (fl : flag)
    (fds : list Field) (vs : list GoValue) (target : GoValue) {struct fds}
  : Result GoValue :=
  match fds, vs with
  | sourceField :: fds', x :: vs' =>
      let sourceFieldValue := mkValue x (fieldFlag fl sourceField) in
      tag ← parseTag (Tag sourceField);
      let tagName := if String.eqb (name tag) "" then Name sourceField
                     else name tag in
      match FieldIndexByName env targetType tagName with
      | None => copyFields convert targetType fl fds' vs' target
      | Some index =>
          targetFieldValue ←
            FieldByIndex (mkValue target slotFlag) true index;
          if negb (IsValid targetFieldValue)
             || negb (CanSet targetFieldValue)
          then copyFields convert targetType fl fds' vs' target
          else
            src ← Interface sourceFieldValue;
            ft ← TypeOfValue targetFieldValue;
            convertedValue ←
              wrapErr (ErrConvertingField tagName)
                      (convert (ArgAny src) ft);
            x' ← SetValue targetFieldValue convertedValue;
            copyFields convert targetType fl fds' vs' (updateAt target index x')
      end
  | _, _ => Ok target
  end.

(** [copyStruct], given the conversion of one field. *)
Definition copyStructWith
    (convert : anyArg -> GoType -> Result RValue)
    (source : anyArg) (targetType : GoType) : Result GoValue :=
  let sourceValue := valueOfArg source in
  sourceValue ← (if kindEqb (rKind sourceValue) reflect.Interface
                 then Elem sourceValue else Ok sourceValue);
  sourceValue ← (if kindEqb (rKind sourceValue) reflect.Ptr
                 then Elem sourceValue else Ok sourceValue);
  sourceType ← TypeOfValue sourceValue;
  if negb (kindEqb (typeKind sourceType) reflect.Struct)
     || negb (kindEqb (typeKind targetType) reflect.Struct)
  then Err ErrNotStructs
  else
    match val sourceValue, structFields sourceType with
    | VStruct _ vs, Some fds =>
        copyFields convert targetType (flags sourceValue) fds vs
                   (zeroValue targetType)
    | _, _ => Err ErrNotStructs
    end.

(** The loop of the map case of [convertElementType] over the entries
    of the source, filling the new map. *)
Fixpoint convertEntries
    (convert : anyArg -> GoType -> Result RValue)
    (keyType elementType : GoType) (roFlag : flag)
    (entries : list (GoValue * GoValue)) (newMap : list (GoValue * GoValue))
    {struct entries} : Result (list (GoValue * GoValue)) :=
  match entries with
  | [] => Ok newMap
  | (k, e) :: rest =>
      ksrc ← Interface (mkValue k roFlag);
      convertedKey ← wrapErr ErrMapKey (convert (ArgAny ksrc) keyType);
      esrc ← Interface (mkValue e roFlag);
      convertedValue ←
        wrapErr ErrMapValue (convert (ArgAny esrc) elementType);
      k' ← (if flagRO (flags convertedKey)
            then Panic (PanicUnexported "reflect.Value.SetMapIndex")
            else assignTo "reflect.Value.SetMapIndex"
                          (val convertedKey) keyType);
      e' ← (if flagRO (flags convertedValue)
            then Panic (PanicUnexported "reflect.Value.SetMapIndex")
            else assignTo "reflect.Value.SetMapIndex"
                          (val convertedValue) elementType);
      convertEntries convert keyType elementType roFlag rest
                     (setMapIndex newMap k' e')
  end.

(** The source of [convertElementType] as a [reflect.Value], one
    level of interface boxing removed. *)
Definition sourceValueOf (source : anyArg) : Result RValue :=
  let sourceValue :=
    match source with
    | ArgValue v => v
    | ArgAny x => ValueOf x
    end in
  if kindEqb (rKind sourceValue) reflect.Interface
  then Elem sourceValue else Ok sourceValue.

(** The start of [convertElementType] (up to the dereference of a
    pointer source): either the result of the whole call, or the
    source value the conversion goes on with. *)
Definition convertSource (source : anyArg) (targetType : GoType)
  : Result (RValue + RValue) :=
  sourceValue ← sourceValueOf source;
  if negb (IsValid sourceValue) then
    if kindEqb (typeKind targetType) reflect.Ptr
    then Ok (inl (Zero targetType))
    else Ok (inl (Zero targetType))
  else if kindEqb (rKind sourceValue) reflect.Ptr then
    isnil ← IsNil sourceValue;
    if isnil : bool then
      if kindEqb (typeKind targetType) reflect.Ptr
      then Ok (inl (Zero targetType))
      else Ok (inl (Zero targetType))
    else
      e ← Elem sourceValue;
      Ok (inr e)
  else Ok (inr sourceValue).

(** The rest of [convertElementType], from [sourceType :=
    sourceValue.Type()] on, given the conversion of the components
    (the recursive calls). *)
Definition convertKind
    (convert : anyArg -> GoType -> Result RValue)
    (source : anyArg) (sourceValue : RValue) (targetType : GoType)
  : Result RValue :=
  sourceType ← TypeOfValue sourceValue;
  if typeEqb sourceType targetType then Ok sourceValue
  else
    let sk := typeKind sourceType in
    match typeKind targetType with
    | reflect.String =>
        if kindEqb sk reflect.String then Ok sourceValue
        else if isIntKind sk then
          i ← IntOf sourceValue;
          Ok (ValueOf (VString tString (FormatInt env i)))
        else if isFloatKind sk then
          f ← FloatOf sourceValue;
          Ok (ValueOf (VString tString (FormatFloat env f)))
        else if kindEqb sk reflect.Bool then
          b ← BoolOf sourceValue;
          Ok (ValueOf (VString tString (FormatBool env b)))
        else Err (ErrCannotConvert sourceType "string")
    | reflect.Int | reflect.Int8 | reflect.Int16 | reflect.Int32
    | reflect.Int64 =>
        if isIntKind sk then Convert env sourceValue targetType
        else if isFloatKind sk then
          f ← FloatOf sourceValue;
          Convert env (ValueOf (VInt (TBasic reflect.Int64) (floatToInt64 env f)))
                  targetType
        else if kindEqb sk reflect.String then
          s ← StringOf sourceValue;
          match ParseInt env s with
          | Some i => Convert env (ValueOf (VInt (TBasic reflect.Int64) i)) targetType
          | None => Err (ErrCannotConvertString s "int")
          end
        else Err (ErrCannotConvert sourceType "int")
    | reflect.Float32 | reflect.Float64 =>
        if isFloatKind sk then Convert env sourceValue targetType
        else if isIntKind sk then
          i ← IntOf sourceValue;
          Convert env (ValueOf (VFloat (TBasic reflect.Float64) (int64ToFloat env i)))
                  targetType
        else if kindEqb sk reflect.String then
          s ← StringOf sourceValue;
          match ParseFloat env s with
          | Some f => Convert env (ValueOf (VFloat (TBasic reflect.Float64) f)) targetType
          | None => Err (ErrCannotConvertString s "float")
          end
        else Err (ErrCannotConvert sourceType "float")
    | reflect.Bool =>
        if kindEqb sk reflect.Bool then Ok sourceValue
        else if kindEqb sk reflect.String then
          s ← StringOf sourceValue;
          match ParseBool env s with
          | Some b => Ok (ValueOf (VBool (TBasic reflect.Bool) b))
          | None => Err (ErrCannotConvertString s "bool")
          end
        else if isIntKind sk then
          i ← IntOf sourceValue;
          Ok (ValueOf (VBool (TBasic reflect.Bool) (negb (i =? 0))))
        else if isFloatKind sk then
          f ← FloatOf sourceValue;
          Ok (ValueOf (VBool (TBasic reflect.Bool) (negb (floatIsZero f))))
        else Err (ErrCannotConvert sourceType "bool")
    | reflect.Slice =>
        match val sourceValue, typeElem targetType with
        | VSlice _ l, Some elementType =>
            let elemFlag := mkFlag true (flagRO (flags sourceValue)) false in
            newElems ←
              forEach (fun i x =>
                src ← Interface (mkValue x elemFlag);
                convertedElement ←
                  wrapErr (ErrSliceElement i) (convert (ArgAny src) elementType);
                SetValue (newVar elementType) convertedElement)
                0%nat (default [] l);
            Ok (ValueOf (VSlice targetType (Some newElems)))
        | _, _ => Err (ErrCannotConvert sourceType "slice")
        end
    | reflect.Map =>
        match val sourceValue, typeKey targetType, typeElem targetType with
        | VMap _ m, Some keyType, Some elementType =>
            let roFlag := mkFlag false (flagRO (flags sourceValue)) false in
            newMap ←
              convertEntries convert keyType elementType roFlag
                             (default [] m) [];
            Ok (ValueOf (VMap targetType (Some newMap)))
        | _, _, _ => Err (ErrCannotConvert sourceType "map")
        end
    | reflect.Struct =>
        if String.eqb (typeString targetType) timeType then
          if kindEqb sk reflect.String then
            s ← StringOf sourceValue;
            match ParseTime env s with
            | Some t => Ok (ValueOf t)
            | None => Err (ErrCannotConvertString s timeType)
            end
          else if kindEqb sk reflect.Struct then
            if String.eqb (typeString sourceType) timeType then Ok sourceValue
            else Err (ErrCannotConvert sourceType timeType)
          else Err (ErrCannotConvert sourceType timeType)
        else
          nestedValue ← wrapErr ErrNestedStruct
                          (copyStructWith convert source targetType);
          Ok (mkValue nestedValue slotFlag)
    | reflect.Ptr =>
        match typeElem targetType with
        | Some targetElemType =>
            convertedValue ← convert source targetElemType;
            x ← SetValue (newVar targetElemType) convertedValue;
            Ok (ValueOf (VPtr targetType (Some x)))
        | None => Err (ErrUnsupportedTargetType (typeKind targetType))
        end
    | k => Err (ErrUnsupportedTargetType k)
    end.

(** [convertElementType].  Every recursive call is on a component of
    the target type; [depth] bounds the nesting of those calls and
    [convertElementType] starts it from the nesting of the target
    type, which is enough: a greater depth gives the same result
    (lemma [convertElementTypeAt_depth], for target types that embed
    no field). *)
Fixpoint convertElementTypeAt (depth : nat) (source : anyArg)
    (targetType : GoType) {struct depth} : Result RValue :=
  r ← convertSource source targetType;
  match r with
  | inl result => Ok result
  | inr sourceValue =>
      convertKind
        (match depth with
         | O => fun _ t => Err (ErrUnsupportedTargetType (typeKind t))
         | S d => convertElementTypeAt d
         end)
        source sourceValue targetType
  end.

Fixpoint typeDepth (t : GoType) : nat :=
  match t with
  | TNamed _ u => typeDepth u
  | TPtr e | TSlice e | TArray _ e | TChan e => S (typeDepth e)
  | TMap k e => S (Nat.max (typeDepth k) (typeDepth e))
  | TStruct fds =>
      S ((fix depths (l : list Field) : nat :=
            match l with
            | [] => O
            | f :: r => Nat.max (typeDepth (Typ f)) (depths r)
            end) fds)
  | _ => O
  end.

Definition convertElementType (source : anyArg) (targetType : GoType)
  : Result RValue :=
  convertElementTypeAt (typeDepth targetType) source targetType.

Definition copyStruct (source : anyArg) (targetType : GoType)
  : Result GoValue :=
  copyStructWith convertElementType source targetType.
End Convert.

Section Decoder.
Context (env : GoEnv).

(** ** Decode *)

Definition leafOf (body : Field -> RValue -> Result GoValue)
    (fd : Field) (fieldValue : RValue) (s : unit) : GoValue * unit * Outcome :=
  let '(x, o) := Outcome_of (val fieldValue) (body fd fieldValue) in (x, s, o).

Definition walkTarget (body : Field -> RValue -> Result GoValue)
    (v : GoValue) : GoValue * Outcome :=
  let '(v', _, o) := walkArg (leafOf body) v tt in (v', o).

(** The body of the loop of [decodeBins] for a leaf field: the
    content of the field after the body ran. *)
Definition decodeBinsField (recordValue : RValue) (fd : Field)
    (fieldValue : RValue) : Result GoValue :=
  let aeroTag := Tag fd in
  if String.eqb aeroTag "" then Ok (val fieldValue)
  else
    tag ← parseTag aeroTag;
    if String.eqb (name tag) "" then Ok (val fieldValue)
    else
      binValue ← MapIndex recordValue (name tag);
      if negb (IsValid binValue) then Ok (val fieldValue)
      else if negb (CanSet fieldValue) then Ok (val fieldValue)
      else
        convertedValue ←
          wrapErr (ErrConvertingField (Name fd))
                  (convertElementType env (ArgValue binValue) (Typ fd));
        SetValue fieldValue convertedValue.

(** [decodeBins] *)
Definition decodeBins (recordValue : RValue) (v : GoValue) : GoValue * Outcome :=
  if negb (kindEqb (rKind recordValue) reflect.Map) then (v, Done)
  else walkTarget (decodeBinsField recordValue) v.

Definition cannotBeChanged (fieldValue : RValue) : Result GoValue :=
  t ← TypeOfValue fieldValue;
  Err (ErrValueCannotBeChanged t).

(** The cases [namespace] and [set_name] of [decodeKey], after the
    method was found and called. *)
Definition setFromMethod (methodName : string) (fieldValue : RValue)
    (results : list RValue) : Result GoValue :=
  match results with
  | [] => Err (ErrMethodNoValues methodName)
  | r0 :: _ =>
      rt ← TypeOfValue r0;
      ft ← TypeOfValue fieldValue;
      if typeEqb rt ft then SetValue fieldValue r0
      else Err (ErrMethodWrongType methodName ft rt)
  end.

(** The body of the loop of [decodeKey] for a leaf field. *)
Definition decodeKeyField (recordValue : RValue) (fd : Field)
    (fieldValue : RValue) : Result GoValue :=
  let aeroTag := Tag fd in
  if String.eqb aeroTag "" then Ok (val fieldValue)
  else
    tag ← parseTag aeroTag;
    if negb (meta tag) then Ok (val fieldValue)
    else if String.eqb (name tag) metaTagNamespace then
      if negb (CanSet fieldValue) then cannotBeChanged fieldValue
      else
        results ←
          match getMethod env recordValue "Namespace" with
          | Err e => t ← TypeOfValue recordValue; Err (ErrOnType t e)
          | r => r
          end;
        setFromMethod "Namespace" fieldValue results
    else if String.eqb (name tag) metaTagSetName then
      if negb (CanSet fieldValue) then cannotBeChanged fieldValue
      else
        results ← getMethod env recordValue "SetName";
        setFromMethod "SetName" fieldValue results
    else if String.eqb (name tag) metaTagUserKey then
      if negb (CanSet fieldValue) then cannotBeChanged fieldValue
      else
        results ← getMethod env recordValue "Value";
        match results with
        | [] => Err (ErrMethodNoValues "Value")
        | userKeyValue :: _ =>
            methodToCall ← MethodByName env userKeyValue "GetObject";
            match methodToCall with
            | None => t ← TypeOfValue userKeyValue; Err (ErrGetObjectNotFound t)
            | Some [] => Err (ErrMethodNoValues "GetObject")
            | Some (r0 :: _) =>
                rt ← TypeOfValue r0;
                ft ← TypeOfValue fieldValue;
                if typeEqb rt ft then SetValue fieldValue r0
                else Err (ErrMethodWrongType "Value" ft rt)
            end
        end
    else if String.eqb (name tag) metaTagDigest then
      if negb (CanSet fieldValue) then cannotBeChanged fieldValue
      else
        results ← getMethod env recordValue "Digest";
        match results with
        | [] => Err (ErrMethodNoValues "Digest")
        | digestValue :: _ =>
            digest ← BytesOf digestValue;
            let digestBytes := map (fun x => VUint tUint8 (uintOfValue x)) digest in
            ft ← TypeOfValue fieldValue;
            if kindEqb (typeKind ft) reflect.Array
               && kindEqb (from_option typeKind reflect.Invalid (typeElem ft))
                          reflect.Uint8
            then
              let n := default 0%nat (typeLen ft) in
              if negb (Nat.eqb n (length digestBytes))
              then Err (ErrDigestLength (length digestBytes) n)
              else
                match val fieldValue with
                | VArray t elems =>
                    let elemFlag :=
                      mkFlag (flagAddr (flags fieldValue))
                             (flagRO (flags fieldValue)) false in
                    elems' ←
                      forEach (fun _ ob =>
                                 SetValue (mkValue ob.1 elemFlag) (ValueOf ob.2))
                              0%nat (zip elems digestBytes);
                    Ok (VArray t elems')
                | _ => Panic (ValueError "reflect.Value.Index" (rKind fieldValue))
                end
            else if typeEqb ft tBytes then
              SetValue fieldValue (ValueOf (VSlice tBytes (Some digestBytes)))
            else Err (ErrDigestWrongType ft)
        end
    else Ok (val fieldValue).

(** [decodeKey] *)
Definition decodeKey (recordValue : RValue) (v : GoValue) : GoValue * Outcome :=
  walkTarget (decodeKeyField recordValue) v.

(** [setIntegerValue]: the content of the field after the call. *)
Definition setIntegerValue (fieldValue recordValue : RValue) : Result GoValue :=
  match rKind fieldValue with
  | reflect.Int | reflect.Int64 | reflect.Int32 | reflect.Int16
  | reflect.Int8 =>
      x ← IntOf recordValue;
      overflow ← OverflowInt fieldValue x;
      if overflow : bool then
        x' ← IntOf recordValue;
        t ← TypeOfValue fieldValue;
        Err (ErrOverflows x' t)
      else
        t ← TypeOfValue fieldValue;
        c ← Convert env recordValue t;
        i ← Interface c;
        SetValue fieldValue (ValueOf i)
  | reflect.Uint | reflect.Uint64 | reflect.Uint32 | reflect.Uint16
  | reflect.Uint8 =>
      x ← UintOf recordValue;
      overflow ← OverflowUint fieldValue x;
      if overflow : bool then
        x' ← IntOf recordValue;
        t ← TypeOfValue fieldValue;
        Err (ErrOverflows x' t)
      else
        t ← TypeOfValue fieldValue;
        c ← Convert env recordValue t;
        i ← Interface c;
        SetValue fieldValue (ValueOf i)
  | _ =>
      t ← TypeOfValue fieldValue;
      Err (ErrUnsupportedFieldType t)
  end.

(** The body of the loop of [decodeRecord] for a leaf field. *)
Definition decodeRecordField (recordValue : RValue) (fd : Field)
    (fieldValue : RValue) : Result GoValue :=
  let aeroTag := Tag fd in
  if String.eqb aeroTag "" then Ok (val fieldValue)
  else
    tag ← parseTag aeroTag;
    if negb (meta tag) then Ok (val fieldValue)
    else if String.eqb (name tag) "generation" then
      if negb (CanSet fieldValue) then Err (ErrCannotSet (name tag))
      else
        f ← getField env recordValue "Generation";
        wrapErr (ErrPrefixed (name tag)) (setIntegerValue fieldValue f)
    else if String.eqb (name tag) "expiration" then
      if negb (CanSet fieldValue) then Err (ErrCannotSet (name tag))
      else
        f ← getField env recordValue "Expiration";
        wrapErr (ErrPrefixed (name tag)) (setIntegerValue fieldValue f)
    else Ok (val fieldValue).

(** [decodeRecord] *)
Definition decodeRecord (recordValue : RValue) (v : GoValue)
  : GoValue * Outcome :=
  walkTarget (decodeRecordField recordValue) v.

(** The cases of the [switch] in the loop of [Decode], in the order
    they are tried. *)
Inductive decodeCase : Set :=
| CaseBatchRecord
| CaseRecord
| CaseKey
| CaseBins
| CaseHeader
| CaseNone.

Definition decodeCaseOf (inner : bool) (fieldName : string)
    (fieldValue : RValue) : decodeCase :=
  let isStruct := kindEqb (rKind fieldValue) reflect.Struct in
  if isStruct && String.eqb fieldName "BatchRecord" then CaseBatchRecord
  else if isStruct && String.eqb fieldName "Record" then CaseRecord
  else if isStruct && String.eqb fieldName "Key" then CaseKey
  else if kindEqb (rKind fieldValue) reflect.Map
          && String.eqb fieldName "Bins" then CaseBins
  else if negb inner
          && kindEqb (rKind fieldValue) reflect.Uint32
          && (String.eqb fieldName "Generation"
              || String.eqb fieldName "Expiration") then CaseHeader
  else CaseNone.

(** One turn of the loop of [Decode]: the destination and [isRecord]
    after the turn, and the error.  [recurse] is [Decode] itself on a
    [reflect.Value]. *)
Definition decodeTurn
    (recurse : GoValue -> flag -> GoValue -> GoValue * Outcome)
    (inner : bool) (recordValue : RValue) (fd : Field) (x : GoValue)
    (v : GoValue) (isRecord : bool) : GoValue * bool * Outcome :=
  let ffl := fieldFlag (flags recordValue) fd in
  let fieldValue := fieldValueDeref (mkValue x ffl) in
  let decodeInto (v : GoValue) : GoValue * Outcome :=
    match x with
    | VPtr _ (Some p) => recurse p (ptrElemFlag ffl) v
    | _ => recurse x ffl v
    end in
  match decodeCaseOf inner (Name fd) fieldValue with
  | CaseBatchRecord =>
      let '(v1, o1) := decodeInto v in (v1, true, o1)
  | CaseRecord =>
      let '(v1, o1) := decodeRecord fieldValue v in
      match o1 with
      | Done => let '(v2, o2) := decodeInto v1 in (v2, true, o2)
      | _ => (v1, true, o1)
      end
  | CaseKey =>
      let '(v1, o1) := decodeKey fieldValue v in (v1, isRecord, o1)
  | CaseBins =>
      let '(v1, o1) := decodeBins fieldValue v in (v1, true, o1)
  | CaseHeader =>
      let '(v1, o1) := decodeRecord recordValue v in (v1, isRecord, o1)
  | CaseNone => (v, isRecord, Done)
  end.

Fixpoint decodeLoop
    (recurse : GoValue -> flag -> GoValue -> GoValue * Outcome)
    (inner : bool) (recordValue : RValue)
    (fds : list Field) (vals : list GoValue) (v : GoValue) (isRecord : bool)
    {struct vals} : GoValue * bool * Outcome :=
  match fds, vals with
  | fd :: fds', x :: vals' =>
      let '(v1, isRecord1, o1) :=
        decodeTurn recurse inner recordValue fd x v isRecord in
      match o1 with
      | Done => decodeLoop recurse inner recordValue fds' vals' v1 isRecord1
      | _ => (v1, isRecord1, o1)
      end
  | _, _ => (v, isRecord, Done)
  end.

(** [Decode] on the struct value [structValue] returned, [inner]
    telling whether the source was handed on as a [reflect.Value].
    Returns the destination after the call and the error. *)
Fixpoint decodeFrom (inner : bool) (recordValue : GoValue) (rfl : flag)
    (v : GoValue) {struct recordValue} : GoValue * Outcome :=
  match recordValue with
  | VStruct t vals =>
      match structFields t with
      | Some fds =>
          let '(v', isRecord, o) :=
            decodeLoop (decodeFrom true) inner (mkValue recordValue rfl)
                       fds vals v false in
          match o with
          | Done => if isRecord then (v', Done) else (v', Failed ErrInvalidSource)
          | _ => (v', o)
          end
      | None =>
          (v, Panicked (ValueError "reflect.Type.NumField" (valueKind recordValue)))
      end
  | _ => (v, Panicked (ValueError "reflect.Type.NumField" (valueKind recordValue)))
  end.

(** [Decode] *)
Definition Decode (record : anyArg) (v : GoValue) : GoValue * Outcome :=
  let inner := match record with
               | ArgValue _ => true
               | ArgAny _ => false
               end in
  match structValue record with
  | Ok recordValue => decodeFrom inner (val recordValue) (flags recordValue) v
  | Err e => (v, Failed e)
  | Panic p => (v, Panicked p)
  end.
End Decoder.

(** ** Vocabulary of the properties *)

(** The reserved tokens of the tag grammar, and the tokens of a tag
    string as [parseTag] reads them (split on commas, trimmed). *)
Definition isReserved (part : string) : bool :=
  String.eqb part tagValueMeta || String.eqb part tagValueOmitempty
  || String.eqb part tagValueOmit.

Definition tokens (tagString : string) : list string :=
  map TrimSpace (Split tagString).

(** The six metadata names [encode] routes. *)
Definition isMetadataName (n : string) : bool :=
  String.eqb n metaTagGeneration || String.eqb n metaTagExpiration
  || String.eqb n metaTagNamespace || String.eqb n metaTagSetName
  || String.eqb n metaTagDigest || String.eqb n metaTagUserKey.

(** A leaf field: after [fieldValueDeref] its kind is not [Struct], so
    the loops run their body on it instead of recursing. *)
Definition derefKind (x : GoValue) : Kind :=
  rKind (fieldValueDeref (ValueOf x)).

Definition isLeaf (x : GoValue) : bool :=
  negb (kindEqb (derefKind x) reflect.Struct).

(** The flags of a field of a struct the caller passed by pointer, and
    the field value the loops work on. *)
Definition targetFlag : flag := mkFlag true false false.

Definition fieldValueOf (fl : flag) (fd : Field) (x : GoValue) : RValue :=
  fieldValueDeref (mkValue x (fieldFlag fl fd)).

(** A source of [Decode] that is a struct or a non-nil pointer to one. *)
Definition structShaped (x : GoValue) : bool :=
  match x with
  | VPtr _ (Some p) => kindEqb (valueKind p) reflect.Struct
  | VPtr _ None => false
  | _ => kindEqb (valueKind x) reflect.Struct
  end.

(** The cases of the loop of [Decode] the fields of a source fall in. *)
Fixpoint decodeCases (inner : bool) (fl : flag) (fds : list Field)
    (vals : list GoValue) : list decodeCase :=
  match fds, vals with
  | fd :: fds', x :: vals' =>
      decodeCaseOf inner (Name fd) (fieldValueOf fl fd x)
      :: decodeCases inner fl fds' vals'
  | _, _ => []
  end.

Definition sourceCases (x : GoValue) : option (list decodeCase) :=
  match structValue (ArgAny x) with
  | Ok sv =>
      match val sv with
      | VStruct t vals =>
          fds ← structFields t;
          Some (decodeCases false (flags sv) fds vals)
      | _ => None
      end
  | _ => None
  end.

(** The record components a source can expose: a batch-record wrapper,
    a record, a bin mapping, top-level generation/expiration fields. *)
Definition isRecordComponent (c : decodeCase) : bool :=
  match c with
  | CaseBatchRecord | CaseRecord | CaseBins | CaseHeader => true
  | CaseKey | CaseNone => false
  end.

Definition isCaseNone (c : decodeCase) : bool :=
  match c with
  | CaseNone => true
  | _ => false
  end.

(** The primitive kinds: booleans, integers, floats and strings. *)
Definition isPrimitiveKind (k : Kind) : bool :=
  match k with
  | reflect.Bool | reflect.String => true
  | _ => isIntKind k || isUintKind k || isFloatKind k
  end.

(** [x] is a value of type [t], a type of a primitive kind. *)
Definition isPrimitiveOf (t : GoType) (x : GoValue) : bool :=
  isPrimitiveKind (typeKind t)
  && kindEqb (valueKind x) (typeKind t)
  && match typeOf x with
     | Some t' => typeEqb t' t
     | None => false
     end.

Definition isNegativeZero (x : GoValue) : bool :=
  match x with
  | VFloat _ (S754_zero true) => true
  | _ => false
  end.

(** The bin name of a field annotated as a plain bin: the tag parses,
    carries neither [meta] (with a name) nor [omit], and names the bin. *)
Definition binNameOf (fd : Field) : option string :=
  if String.eqb (Tag fd) "" then None
  else match parseTag (Tag fd) with
       | Ok t => if meta t || omit t || String.eqb (name t) "" then None
                 else Some (name t)
       | _ => None
       end.

Definition binNames (fds : list Field) : list string :=
  omap binNameOf fds.

(** The field after a loop body left [c] as the content of its
    dereferenced value. *)
Definition rewrap (x c : GoValue) : GoValue :=
  match x with
  | VPtr pt (Some _) => VPtr pt (Some c)
  | VPtr _ None => x
  | _ => c
  end.

(** Whether the loop body of [encode] can write bin [n] for a leaf
    field declared as [fd]: the tag parses, is not routed to metadata,
    carries no [omit], and names [n]. *)
Definition mayWriteBin (n : string) (fd : Field) : bool :=
  match binNameOf fd with
  | Some m => String.eqb m n
  | None => false
  end.

(** Bin [n] is absent from the bin mapping [recordValue]. *)
Definition binAbsent (recordValue : RValue) (n : string) : bool :=
  match MapIndex recordValue n with
  | Ok binValue => negb (IsValid binValue)
  | _ => false
  end.

(** The metadata names [decodeKey] and [decodeRecord] handle. *)
Definition isKeyName (n : string) : bool :=
  String.eqb n metaTagNamespace || String.eqb n metaTagSetName
  || String.eqb n metaTagUserKey || String.eqb n metaTagDigest.

Definition isHeaderName (n : string) : bool :=
  String.eqb n metaTagGeneration || String.eqb n metaTagExpiration.

(** Two results of [encode] that agree on the bin mapping: both
    records with the same bins, or the same error, or the same panic. *)
Definition sameBins (a b : Result Record) : Prop :=
  match a, b with
  | Ok r1, Ok r2 => Bins r1 = Bins r2
  | Err e1, Err e2 => e1 = e2
  | Panic p1, Panic p2 => p1 = p2
  | _, _ => False
  end.

(** The same for the walk: the same outcome and the same bins. *)
Definition simW {A : Type} (a b : A * Record * Outcome) : Prop :=
  a.2 = b.2 /\ Bins a.1.2 = Bins b.1.2.

Definition walkSim (v : GoValue) : Prop :=
  forall fl r1 r2, Bins r1 = Bins r2 ->
    simW (walkStruct encodeLeaf v fl r1) (walkStruct encodeLeaf v fl r2).

Definition turnSim (x : GoValue) : Prop :=
  forall fl fd r1 r2, Bins r1 = Bins r2 ->
    simW (walkField encodeLeaf (walkStruct encodeLeaf) fl fd x r1)
         (walkField encodeLeaf (walkStruct encodeLeaf) fl fd x r2).

(** The embedded [Key] and the [Bins] of an encoded record, as the loop
    of [Decode] hands them to [decodeKey] and [decodeBins]. *)
Definition keyOf (record : Record) : RValue :=
  mkValue (VStruct tKey [stringValue (Namespace record);
                         stringValue (SetName record);
                         digestValue (Digest record)])
          (mkFlag true false false).

Definition binsOf (record : Record) : RValue :=
  mkValue (binsValue (Bins record)) targetFlag.

(** Emptiness of a value of a primitive kind, as [isEmptyValue] tests
    it: false, zero, the empty string. *)
Definition primEmpty (x : GoValue) : bool :=
  match x with
  | VBool _ b => negb b
  | VInt _ i => i =? 0
  | VUint _ u => u =? 0
  | VFloat _ f => floatIsZero f
  | VString _ s => Nat.eqb (String.length s) 0
  | _ => false
  end.

(** The fields of a struct the round trip is stated for.  A field
    without a tag is a leaf, in the struct and in a fresh one.  A
    tagged field is an exported plain bin field of a primitive type,
    holding a value of that type other than a negative zero. *)
Definition roundTrips (fd : Field) (x : GoValue) : bool :=
  if String.eqb (Tag fd) ""
  then isLeaf x && isLeaf (zeroValue (Typ fd))
  else match binNameOf fd with
       | Some _ =>
           IsExported (Name fd) && isPrimitiveOf (Typ fd) x
           && negb (isNegativeZero x)
       | None => false
       end.

Fixpoint allRoundTrip (fds : list Field) (vals : list GoValue) : bool :=
  match fds, vals with
  | [], [] => true
  | fd :: fds', x :: vals' => roundTrips fd x && allRoundTrip fds' vals'
  | _, _ => false
  end.

(** A fresh destination of struct type [t], passed by pointer. *)
Definition freshPointer (t : GoType) : GoValue :=
  VPtr (TPtr t) (Some (zeroValue t)).

(** The values of the primitive kinds, by their representation. *)
Inductive primitiveValue (t : GoType) : GoValue -> Prop :=
| PrimBool b : typeKind t = reflect.Bool -> primitiveValue t (VBool t b)
| PrimInt i : isIntKind (typeKind t) = true -> primitiveValue t (VInt t i)
| PrimUint u : isUintKind (typeKind t) = true -> primitiveValue t (VUint t u)
| PrimFloat f : isFloatKind (typeKind t) = true -> primitiveValue t (VFloat t f)
| PrimString s : typeKind t = reflect.String -> primitiveValue t (VString t s).

(** What bin decoding leaves in a fresh field declared as [fd]: the
    value stored under its bin name, or the zero value when the field
    has no tag or the bin is absent. *)
Definition decodedField (bins : gmap string GoValue) (fd : Field) : GoValue :=
  match binNameOf fd with
  | Some n => default (zeroValue (Typ fd)) (bins !! n)
  | None => zeroValue (Typ fd)
  end.

(** The condition bin decoding puts on a field of a fresh struct: no
    tag and a leaf, or an exported plain bin field of a primitive type
    whose bin, when present, holds a value of that type. *)
Definition freshFieldOk (record : Record) (fd : Field) : Prop :=
  (String.eqb (Tag fd) "" = true /\ isLeaf (zeroValue (Typ fd)) = true)
  \/ exists n, binNameOf fd = Some n /\ IsExported (Name fd) = true
       /\ isPrimitiveKind (typeKind (Typ fd)) = true
       /\ forall y, Bins record !! n = Some y -> primitiveValue (Typ fd) y.

(** A type that embeds no field, at any depth: field names are then
    resolved in the struct itself, without the runtime's search. *)
Fixpoint noEmbedded (t : GoType) : bool :=
  match t with
  | TNamed _ u => noEmbedded u
  | TPtr e | TSlice e | TArray _ e | TChan e => noEmbedded e
  | TMap k e => noEmbedded k && noEmbedded e
  | TStruct fds =>
      (fix all (l : list Field) : bool :=
         match l with
         | [] => true
         | f :: r => negb (Anonymous f) && noEmbedded (Typ f) && all r
         end) fds
  | _ => true
  end.

(** The fields of a struct value carry the types the struct type
    declares (a field of a type without values stays invalid). *)
Definition fieldsTyped (fds : list Field) (vs : list GoValue) : Prop :=
  Forall2 (fun fd x => typeOf x = Some (Typ fd) \/ x = VInvalid) fds vs.

(** The name tokens of a tag string: its tokens that are not reserved
    words, in order, without the empty tokens that come before the
    first non-empty one. *)
Fixpoint dropEmpty (l : list string) : list string :=
  match l with
  | s :: r => if String.eqb s "" then dropEmpty r else l
  | [] => []
  end.

Definition nameTokens (tagString : string) : list string :=
  dropEmpty (List.filter (fun part => negb (isReserved part)) (tokens tagString)).

Definition hasToken (t tagString : string) : bool :=
  existsb (fun part => String.eqb part t) (tokens tagString).

(** Two flag sets that give the same access to a value and to what is
    reached from it: the read-only bits agree (the addressable bit may
    differ). *)
Definition sameAccess (f1 f2 : flag) : Prop :=
  flagStickyRO f1 = flagStickyRO f2 /\ flagEmbedRO f1 = flagEmbedRO f2.

(** The bin names the fields of a struct value are tagged with,
    gathered by the walk [encode] makes: through struct fields and
    non-nil pointers to structs, one name for each leaf field annotated
    as a plain bin. *)
Definition nameLeaf (fd : Field) (fieldValue : RValue) (names : list string)
  : GoValue * list string * Outcome :=
  (val fieldValue,
   match binNameOf fd with
   | Some n => n :: names
   | None => names
   end, Done).

Definition taggedNames (v : GoValue) : list string :=
  match structValue (ArgAny v) with
  | Ok sv => (walkStruct nameLeaf (val sv) (flags sv) []).1.2
  | _ => []
  end.

(** Every bin of the record is named in [names]; and how a walk of
    [encode] and the walk that gathers the names stand to each other
    after they started from [r] and [names]. *)
Definition binsNamed (r : Record) (names : list string) : Prop :=
  forall n, is_Some (Bins r !! n) -> n ∈ names.

Definition coverW {A : Type} (e : A * Record * Outcome)
    (g : A * list string * Outcome) (names : list string) : Prop :=
  binsNamed e.1.2 g.1.2 /\ (g.2 <> Done -> e.2 <> Done) /\ names ⊆ g.1.2.

(** The type of the record slot a metadata name is routed to by
    [encode]. *)
Definition slotType (n : string) : option GoType :=
  if String.eqb n metaTagGeneration || String.eqb n metaTagExpiration
  then Some tUint32
  else if String.eqb n metaTagNamespace || String.eqb n metaTagSetName
  then Some tString
  else if String.eqb n metaTagDigest then Some tDigest
  else if String.eqb n metaTagUserKey then Some tAny
  else None.

(** The record without its bins. *)
Definition withoutBins (record : Record) : Record :=
  mkRecord (Namespace record) (SetName record) (Digest record)
           (UserKey record) (Generation record) (Expiration record) ∅.

(** The cases of the loop of [Decode] that set [isRecord], and the
    first case the fields of a source fall in. *)
Definition setsIsRecord (c : decodeCase) : bool :=
  match c with
  | CaseBatchRecord | CaseRecord | CaseBins => true
  | _ => false
  end.

Fixpoint firstCase (cases : list decodeCase) : decodeCase :=
  match cases with
  | [] => CaseNone
  | CaseNone :: rest => firstCase rest
  | c :: _ => c
  end.

Definition runsDecoder (c : decodeCase) : bool :=
  match c with
  | CaseRecord | CaseKey | CaseBins | CaseHeader => true
  | _ => false
  end.

(** The accessor [decodeKey] calls on the key for a metadata name, and
    the error it returns when the key has no such method. *)
Definition keyMethod (n : string) : option string :=
  if String.eqb n metaTagNamespace then Some "Namespace"
  else if String.eqb n metaTagSetName then Some "SetName"
  else if String.eqb n metaTagUserKey then Some "Value"
  else if String.eqb n metaTagDigest then Some "Digest"
  else None.

Definition keyError (t : GoType) (n m : string) : error :=
  if String.eqb n metaTagNamespace
  then ErrOnType t (ErrMethodNotFound m t)
  else ErrMethodNotFound m t.

(** A program in which the type [mapper.Key] has no methods, as the
    package declares it. *)
Definition keyHasNoMethods (env : GoEnv) : Prop :=
  forall m, MethodSet env tKey m = None /\ MethodSet env (TPtr tKey) m = None.

(** A field the loop body of [decodeKey] passes over: no tag, or a tag
    that is not [meta] with one of the four names of the key. *)
Definition keyNeutral (fd : Field) : bool :=
  String.eqb (Tag fd) ""
  || match parseTag (Tag fd) with
     | Ok t => negb (meta t) || negb (isKeyName (name t))
     | _ => false
     end.

(** The kinds of target type [convertElementType] has no case for. *)
Definition unsupportedKind (k : Kind) : bool :=
  match k with
  | reflect.String | reflect.Bool | reflect.Slice | reflect.Map
  | reflect.Struct | reflect.Ptr => false
  | _ => negb (isIntKind k) && negb (isFloatKind k)
  end.

(** The name [copyStruct] looks up in the target for a field of the
    source: the name in its tag, or its own when the tag gives none. *)
Definition copyName (sourceField : Field) (tag : tag) : string :=
  if String.eqb (name tag) "" then Name sourceField else name tag.

(** ** Example programs *)

(** A program that declares no methods and never reaches [strconv],
    [time] or a promoted field. *)
Definition plainEnv : GoEnv :=
  mkEnv (fun _ => "") (fun _ => "") (fun _ => "")
        (fun _ => None) (fun _ => None) (fun _ => None) (fun _ => None)
        (fun _ => 0) (fun _ => S754_zero false) (fun _ f => f)
        (fun _ _ => None) (fun _ _ => None).

Definition tInt : GoType := TBasic reflect.Int.
Definition tInt8 : GoType := TBasic reflect.Int8.
Definition tBool : GoType := TBasic reflect.Bool.
Definition tUint64 : GoType := TBasic reflect.Uint64.

(** [type Item2 struct { Name string `aero:"name"`; Empty bool
    `aero:"empty"`; Size uint64 `aero:"size"` }] *)
Definition item2Fields : list Field :=
  [mkField "Name" "name" false tString;
   mkField "Empty" "empty" false tBool;
   mkField "Size" "size" false tUint64].
Definition tItem2 : GoType := TNamed "testtypes.Item2" (TStruct item2Fields).
Definition item2Values : list GoValue :=
  [VString tString "name1"; VBool tBool true; VUint tUint64 0].

(** [struct { A int `aero:"x"`; B int `aero:"x"` }{1, 2}]: two fields
    mapped to one bin. *)
Definition sharedBinFields : list Field :=
  [mkField "A" "x" false tInt; mkField "B" "x" false tInt].
Definition tSharedBin : GoType := TStruct sharedBinFields.
Definition sharedBinValues : list GoValue := [VInt tInt 1; VInt tInt 2].

(** [struct { Length int `aero:"length"`; Label string
    `aero:"label,omit"`; Description string
    `aero:"description ,omitempty"`; Extra string `aero:"meta,extra"` }] *)
Definition lengthField : Field := mkField "Length" "length" false tInt.
Definition labelField : Field := mkField "Label" "label,omit" false tString.
Definition descriptionField : Field :=
  mkField "Description" "description ,omitempty" false tString.
Definition extraField : Field := mkField "Extra" "meta,extra" false tString.

(** [struct { A [1]int `aero:"a,omitempty"` }] holding the zero array. *)
Definition arrayField : Field :=
  mkField "A" "a,omitempty" false (TArray 1 tInt).

(** [struct { S []int `aero:"s,omitempty"` }], to hold [[]int{}]. *)
Definition emptySliceField : Field :=
  mkField "S" "s,omitempty" false (TSlice tInt).

(** A source with a [Key] and nothing else, [struct { Key struct{} }],
    and a destination [struct { NS string `aero:"meta,namespace"` }]. *)
Definition keyOnlySource : GoValue :=
  VStruct (TStruct [mkField "Key" "" false (TStruct [])])
          [VStruct (TStruct []) []].
Definition tNamespaceOnly : GoType :=
  TStruct [mkField "NS" "meta,namespace" false tString].

(** Destinations with an unexported metadata field: one tagged with a
    name no decoder handles, [struct { extra string `aero:"meta,extra"` }],
    and one tagged with the namespace,
    [struct { ns string `aero:"meta,namespace"` }]. *)
Definition tUnexportedExtra : GoType :=
  TStruct [mkField "extra" "meta,extra" false tString].
Definition unexportedNamespace : Field :=
  mkField "ns" "meta,namespace" false tString.

(** A destination whose namespace field is a pointer,
    [struct { NS *string `aero:"meta,namespace"` }]; in a fresh struct
    the pointer is nil. *)
Definition tNilNamespace : GoType :=
  TStruct [mkField "NS" "meta,namespace" false (TPtr tString)].

(** A record as the client returns it,
    [&testtypes.Record{Key: &testtypes.Key{}, Bins: BinMap{},
    Generation: g, Expiration: 1000}], and destinations for its
    generation: [struct { Gen int8 `aero:"meta,generation"` }] and
    [struct { Gen uint8 `aero:"meta,generation"` }]. *)
Definition tClientKey : GoType :=
  TNamed "testtypes.Key"
    (TStruct [mkField "namespace" "" false tString;
              mkField "setName" "" false tString;
              mkField "digest" "" false tDigest;
              mkField "userKey" "" false (TNamed "testtypes.Value" TInterface)]).
Definition tBinMap : GoType := TNamed "testtypes.BinMap" tBins.
Definition tClientRecord : GoType :=
  TNamed "testtypes.Record"
    (TStruct [mkField "Key" "" false (TPtr tClientKey);
              mkField "Bins" "" false tBinMap;
              mkField "Generation" "" false tUint32;
              mkField "Expiration" "" false tUint32]).
Definition clientRecord (generation : Z) : GoValue :=
  VPtr (TPtr tClientRecord)
    (Some (VStruct tClientRecord
             [VPtr (TPtr tClientKey) (Some (zeroValue tClientKey));
              VMap tBinMap (Some []);
              uint32Value generation; uint32Value 1000])).
Definition tGenInt8 : GoType :=
  TStruct [mkField "Gen" "meta,generation" false tInt8].
Definition tGenUint8 : GoType :=
  TStruct [mkField "Gen" "meta,generation" false tUint8].

(** ** internal/testtypes: the client's key and values

    The stand-ins for the Aerospike client the tests decode from: the
    accessors of the key, the [Value] wrappers with their [GetObject],
    and [concreteNewValueReflect]. *)

Definition tValue : GoType := TNamed "testtypes.Value" TInterface.
Definition tInt64 : GoType := TBasic reflect.Int64.
Definition tFloat64 : GoType := TBasic reflect.Float64.
Definition tStringValue : GoType := TNamed "testtypes.StringValue" tString.
Definition tIntegerValue : GoType := TNamed "testtypes.IntegerValue" tInt.
Definition tLongValue : GoType := TNamed "testtypes.LongValue" tInt64.
Definition tFloatValue : GoType := TNamed "testtypes.FloatValue" tFloat64.
Definition tBoolValue : GoType := TNamed "testtypes.BoolValue" tBool.
Definition tNullValue : GoType := TNamed "testtypes.NullValue" (TStruct []).
Definition tListValue : GoType := TNamed "testtypes.ListValue" (TSlice tAny).
Definition tMapValue : GoType := TNamed "testtypes.MapValue" (TMap tAny tAny).

(** [GetObject] of the wrappers [StringValue], [IntegerValue],
    [LongValue], [FloatValue], [BoolValue], [NullValue], [ListValue]
    and [MapValue]: the value as an [any].  The other wrappers of the
    package (bytes, JSON, GeoJSON, HLL, raw blobs, value arrays,
    infinity and wildcard) are not modelled: for them, as for any other
    receiver, the result is [None], and the properties below are stated
    for a receiver with [GetObject vl = Some _]. *)
Definition GetObject (vl : GoValue) : option GoValue :=
  match vl with
  | VString t s => if typeEqb t tStringValue then Some (VString tString s) else None
  | VInt t i =>
      if typeEqb t tIntegerValue then Some (VInt tInt i)
      else if typeEqb t tLongValue then Some (VInt tInt64 i)
      else None
  | VFloat t f => if typeEqb t tFloatValue then Some (VFloat tFloat64 f) else None
  | VBool t b => if typeEqb t tBoolValue then Some (VBool tBool b) else None
  | VStruct t [] => if typeEqb t tNullValue then Some VInvalid else None
  | VSlice t l => if typeEqb t tListValue then Some (VSlice (TSlice tAny) l) else None
  | VMap t m => if typeEqb t tMapValue then Some (VMap (TMap tAny tAny) m) else None
  | _ => None
  end.

(** [concreteNewValueReflect]: the wrapper for a value, or nil ([None])
    for a kind it does not support, on which [NewValue] panics. *)
Definition concreteNewValueReflect (v : GoValue) : Result (option GoValue) :=
  let rv := ValueOf v in
  match rKind rv with
  | reflect.Array | reflect.Slice =>
      match v with
      | VArray _ l | VSlice _ (Some l) =>
          Ok (Some (VSlice tListValue (Some (map (fun x => anyValue (unbox x)) l))))
      | _ => Ok (Some (VSlice tListValue (Some [])))
      end
  | reflect.Map =>
      match v with
      | VMap _ (Some m) =>
          Ok (Some (VMap tMapValue
                      (Some (fold_left
                               (fun amap kv =>
                                  setMapIndex amap (anyValue (unbox kv.1))
                                              (anyValue (unbox kv.2)))
                               m []))))
      | _ => Ok (Some (VMap tMapValue (Some [])))
      end
  | reflect.Int | reflect.Int8 | reflect.Int16 | reflect.Int32
  | reflect.Int64 =>
      i ← IntOf rv; Ok (Some (VInt tLongValue i))
  | reflect.Uint | reflect.Uint8 | reflect.Uint16 | reflect.Uint32 =>
      u ← UintOf rv; Ok (Some (VInt tLongValue (wrapInt 64 u)))
  | reflect.String =>
      s ← StringOf rv; Ok (Some (VString tStringValue s))
  | _ => Ok None
  end.

(** A key, [*Key], from its four fields. *)
Definition keyPointer (namespace setName digest userKey : GoValue) : GoValue :=
  VPtr (TPtr tClientKey)
       (Some (VStruct tClientKey [namespace; setName; digest; userKey])).

(** The accessors [Namespace], [SetName], [Value] and [Digest] of the
    key (pointer receivers), from the receiver to the results of the
    call. *)
Definition keyNamespace (ky : GoValue) : list GoValue :=
  match ky with
  | VPtr _ (Some (VStruct _ [namespace; _; _; _])) => [namespace]
  | _ => []
  end.

Definition keySetName (ky : GoValue) : list GoValue :=
  match ky with
  | VPtr _ (Some (VStruct _ [_; setName; _; _])) => [setName]
  | _ => []
  end.

Definition keyValue (ky : GoValue) : list GoValue :=
  match ky with
  | VPtr _ (Some (VStruct _ [_; _; _; userKey])) => [userKey]
  | _ => []
  end.

Definition keyDigest (ky : GoValue) : list GoValue :=
  match ky with
  | VPtr _ (Some (VStruct _ [_; _; VArray _ digest; _])) =>
      [VSlice tBytes (Some digest)]
  | _ => []
  end.

(** [GetObject] called through the interface [Value], for a [Value]
    that holds one of the wrappers modelled by [GetObject].  A nil
    [Value], on which the call panics in Go, and the wrappers that are
    not modelled are outside this model: no result is given for
    them. *)
Definition valueGetObject (vl : GoValue) : list GoValue :=
  match vl with
  | VInterface _ dyn =>
      match GetObject dyn with
      | Some x => [anyValue x]
      | None => []
      end
  | _ => []
  end.

(** A program that declares the key with these accessors (all on the
    pointer receiver, none on [Key] itself) and calls [GetObject]
    through [Value]. *)
Definition declaresClientKey (env : GoEnv) : Prop :=
  (forall m, MethodSet env tClientKey m = None)
  /\ MethodSet env (TPtr tClientKey) "Namespace" = Some keyNamespace
  /\ MethodSet env (TPtr tClientKey) "SetName" = Some keySetName
  /\ MethodSet env (TPtr tClientKey) "Value" = Some keyValue
  /\ MethodSet env (TPtr tClientKey) "Digest" = Some keyDigest
  /\ MethodSet env tValue "GetObject" = Some valueGetObject.

Definition clientMethods (t : GoType) (m : string)
  : option (GoValue -> list GoValue) :=
  if typeEqb t (TPtr tClientKey) then
    if String.eqb m "Namespace" then Some keyNamespace
    else if String.eqb m "SetName" then Some keySetName
    else if String.eqb m "Value" then Some keyValue
    else if String.eqb m "Digest" then Some keyDigest
    else None
  else if typeEqb t tValue && String.eqb m "GetObject" then Some valueGetObject
  else None.

Definition clientEnv : GoEnv :=
  mkEnv (fun _ => "") (fun _ => "") (fun _ => "")
        (fun _ => None) (fun _ => None) (fun _ => None) (fun _ => None)
        (fun _ => 0) (fun _ => S754_zero false) (fun _ f => f)
        (fun _ _ => None) clientMethods.

(** The bins of a client record, [testtypes.BinMap], and the record
    [&testtypes.Record{Key: key, Bins: bins, Generation: g,
    Expiration: e}]. *)
Definition clientBins (bins : gmap string GoValue) : GoValue :=
  VMap tBinMap
    (Some (map (fun kv => (stringValue kv.1, anyValue kv.2))
               (map_to_list bins))).

Definition clientRecordOf (key : GoValue) (bins : gmap string GoValue)
    (generation expiration : Z) : GoValue :=
  VPtr (TPtr tClientRecord)
    (Some (VStruct tClientRecord
             [key; clientBins bins;
              uint32Value generation; uint32Value expiration])).

(** A destination that embeds the three types of the package,
    [struct { mapper.Key; mapper.KeyValue; mapper.Metadata }]. *)
Definition tHeader : GoType :=
  TStruct [mkField "Key" "" true tKey;
           mkField "KeyValue" "" true tKeyValue;
           mkField "Metadata" "" true tMetadata].

(** The value of such a struct, from what its six fields hold. *)
Definition headerValue (ns set : string) (d : list Z) (k : GoValue) (g e : Z)
  : GoValue :=
  VStruct tHeader
    [VStruct tKey [stringValue ns; stringValue set; digestValue d];
     VStruct tKeyValue [anyValue k];
     VStruct tMetadata [uint32Value g; uint32Value e]].

(** [struct { UserKey string `aero:"meta,user_key"` }] *)
Definition tUserKeyString : GoType :=
  TStruct [mkField "UserKey" "meta,user_key" false tString].

(** [type Item1 struct { Title string `aero:"title"` }] of the tests,
    and a second struct type declared the same way in another package. *)
Definition item1Fields : list Field := [mkField "Title" "title" false tString].
Definition tItem1 : GoType := TNamed "testtypes.Item1" (TStruct item1Fields).
Definition tOtherItem1 : GoType := TNamed "other.Item1" (TStruct item1Fields).

(** [struct { F func() `aero:"f"` }], [struct { Offset *int
    `aero:"offset"` }] and [struct { A int `aero:"a,b"` }]. *)
Definition funcField : Field := mkField "F" "f" false (TFunc "func()").
Definition offsetField : Field := mkField "Offset" "offset" false (TPtr tInt).
Definition twoNamesField : Field := mkField "A" "a,b" false tInt.

Local Open Scope list_scope.

(** * Properties *)

Lemma kindEqb_refl k : kindEqb k k = true.
Proof. unfold kindEqb. by apply bool_decide_eq_true. Qed.

Lemma kindEqb_eq a b : kindEqb a b = true <-> a = b.
Proof. unfold kindEqb. apply bool_decide_eq_true. Qed.

Lemma typeEqb_refl : forall t, typeEqb t t = true.
Proof.
  fix IH 1. intros [k|n u|e|e|l e|k e|e|sig| |fds]; simpl;
    rewrite ?kindEqb_refl, ?String.eqb_refl, ?Nat.eqb_refl, ?IH; try reflexivity.
  induction fds as [|f r IHr]; [reflexivity|].
  rewrite !String.eqb_refl, eqb_reflx, IH, IHr. reflexivity.
Qed.

Lemma typeEqb_eq : forall a b, typeEqb a b = true -> a = b.
Proof.
  fix IH 1. intros [k|n u|e|e|l e|k e|e|sig| |fds] [k'|n' u'|e'|e'|l' e'|k' e'|e'|sig'| |fds'];
    simpl; try discriminate; intros H;
    repeat match goal with
    | H : _ && _ = true |- _ => apply andb_true_iff in H as [? ?]
    | H : kindEqb _ _ = true |- _ => apply kindEqb_eq in H; subst
    | H : String.eqb _ _ = true |- _ => apply String.eqb_eq in H; subst
    | H : Nat.eqb _ _ = true |- _ => apply Nat.eqb_eq in H; subst
    | H : typeEqb _ _ = true |- _ => apply IH in H; subst
    end; try reflexivity.
  f_equal. revert fds' H. induction fds as [|f r IHr]; intros [|f' r'] H; try discriminate; [reflexivity|].
  repeat match goal with
    | H : _ && _ = true |- _ => apply andb_true_iff in H as [? ?]
    end.
  f_equal; [|by apply IHr].
  destruct f, f'; simpl in *.
  repeat match goal with
    | H : String.eqb _ _ = true |- _ => apply String.eqb_eq in H; subst
    | H : Bool.eqb _ _ = true |- _ => apply eqb_prop in H; subst
    | H : typeEqb _ _ = true |- _ => apply IH in H; subst
    end. reflexivity.
Qed.

(** ** The shared loop *)

Section WalkFacts.
Context {S : Type} (leaf : Field -> RValue -> S -> GoValue * S * Outcome).
Context (recurse : GoValue -> flag -> S -> GoValue * S * Outcome).

Lemma walkField_leaf fl fd x s :
  isLeaf x = true ->
  walkField leaf recurse fl fd x s =
    let '(c, s1, o1) := leaf fd (fieldValueOf fl fd x) s in
    (rewrap x c, s1, o1).
Proof.
  unfold isLeaf, derefKind, fieldValueOf, walkField, fieldValueDeref, rKind.
  intros H. destruct x as [| | | | | | | |pt [p|]| | | | | | |]; cbn in *;
    try (destruct (leaf _ _ _) as [[? ?] ?]; reflexivity);
    try (rewrite (negb_true_iff _) in H; rewrite H);
    try (destruct (leaf _ _ _) as [[? ?] ?]; reflexivity);
    try discriminate.
Qed.

(** A field whose turn changes nothing can be taken out of the
    struct: the state and the outcome of the walk stay the same. *)
Lemma walkFields_skip fl fd x fds1 fds2 vs1 vs2 s :
  length fds1 = length vs1 ->
  (forall s', walkField leaf recurse fl fd x s' = (x, s', Done)) ->
  let '(_, s1, o1) :=
    walkFields leaf recurse fl (fds1 ++ fd :: fds2) (vs1 ++ x :: vs2) s in
  let '(_, s2, o2) :=
    walkFields leaf recurse fl (fds1 ++ fds2) (vs1 ++ vs2) s in
  s1 = s2 /\ o1 = o2.
Proof.
  intros Hlen Hskip. revert vs1 Hlen s.
  induction fds1 as [|f r IH]; intros [|y ys] Hlen s; try discriminate.
  - cbn [app walkFields]. rewrite Hskip.
    destruct (walkFields _ _ _ fds2 vs2 s) as [[? ?] ?]. done.
  - cbn [app walkFields].
    destruct (walkField leaf recurse fl f y s) as [[y' s1] [|e|p]]; [|done|done].
    simpl in Hlen. specialize (IH ys ltac:(lia) s1).
    destruct (walkFields _ _ _ (r ++ fd :: fds2) _ s1) as [[? ?] ?].
    destruct (walkFields _ _ _ (r ++ fds2) _ s1) as [[? ?] ?]. done.
Qed.
End WalkFacts.

Lemma walkStruct_unfold {S} (leaf : Field -> RValue -> S -> GoValue * S * Outcome)
    t vs fl s fds :
  structFields t = Some fds ->
  walkStruct leaf (VStruct t vs) fl s =
    let '(vs', s', o) := walkFields leaf (walkStruct leaf) fl fds vs s in
    (VStruct t vs', s', o).
Proof. intros H. cbn [walkStruct]. rewrite H. reflexivity. Qed.

(** ** Encode *)

Lemma structValue_struct t vs :
  structValue (ArgAny (VStruct t vs)) = Ok (ValueOf (VStruct t vs)).
Proof. reflexivity. Qed.

Lemma structValue_pointer pt t vs :
  structValue (ArgAny (VPtr pt (Some (VStruct t vs)))) =
    Ok (mkValue (VStruct t vs) targetFlag).
Proof. reflexivity. Qed.

Lemma encodeLeaf_skip fd x fl record :
  isLeaf x = true ->
  encodeField fd (fieldValueOf fl fd x) record = Ok record ->
  walkField encodeLeaf (walkStruct encodeLeaf) fl fd x record = (x, record, Done).
Proof.
  intros Hleaf H. rewrite walkField_leaf by done. unfold encodeLeaf. rewrite H.
  unfold rewrap, fieldValueOf, fieldValueDeref.
  destruct x as [| | | | | | | |pt [p|]| | | | | | |]; reflexivity.
Qed.

Lemma encodeField_unknown_metadata fd fieldValue record tag :
  String.eqb (Tag fd) "" = false ->
  parseTag (Tag fd) = Ok tag ->
  meta tag = true ->
  isMetadataName (name tag) = false ->
  encodeField fd fieldValue record = Ok record.
Proof.
  intros Htag Hparse Hmeta Hname. unfold encodeField.
  rewrite Htag, Hparse. cbn. rewrite Hmeta.
  unfold isMetadataName in Hname.
  repeat (apply orb_false_iff in Hname as [Hname ?]).
  by repeat match goal with H : String.eqb _ _ = false |- _ => rewrite H; clear H end.
Qed.

Lemma encode_skip_field fd x t t' fds1 fds2 vs1 vs2 record :
  structFields t = Some (fds1 ++ fd :: fds2) ->
  structFields t' = Some (fds1 ++ fds2) ->
  length fds1 = length vs1 ->
  isLeaf x = true ->
  (forall fl r, encodeField fd (fieldValueOf fl fd x) r = Ok r) ->
  encode (ArgAny (VStruct t (vs1 ++ x :: vs2))) record =
    encode (ArgAny (VStruct t' (vs1 ++ vs2))) record
  /\ forall pt pt',
     encode (ArgAny (VPtr pt (Some (VStruct t (vs1 ++ x :: vs2))))) record =
       encode (ArgAny (VPtr pt' (Some (VStruct t' (vs1 ++ vs2))))) record.
Proof.
  intros Ht Ht' Hlen Hleaf Hskip.
  assert (Hwalk : forall fl,
    (let '(_, r, o) := walkStruct encodeLeaf (VStruct t (vs1 ++ x :: vs2)) fl record in
     Result_of r o) =
    (let '(_, r, o) := walkStruct encodeLeaf (VStruct t' (vs1 ++ vs2)) fl record in
     Result_of r o)).
  { intros fl. rewrite (walkStruct_unfold _ _ _ _ _ _ Ht), (walkStruct_unfold _ _ _ _ _ _ Ht').
    pose proof (walkFields_skip encodeLeaf (walkStruct encodeLeaf) fl fd x fds1 fds2
                  vs1 vs2 record Hlen) as H.
    destruct (walkFields _ _ _ (fds1 ++ fd :: fds2) _ _) as [[? r1] o1].
    destruct (walkFields _ _ _ (fds1 ++ fds2) _ _) as [[? r2] o2].
    destruct H as [-> ->]; [|done].
    intros s'. apply encodeLeaf_skip; [done|apply Hskip]. }
  split; [|intros pt pt']; unfold encode;
    rewrite ?structValue_struct, ?structValue_pointer; cbn [mbind Result_bind val flags ValueOf];
    apply Hwalk.
Qed.

(** Induction on the nesting of struct values, through pointers. *)
Lemma GoValue_nested_ind (P : GoValue -> Prop) :
  (forall v, valueKind v <> reflect.Struct -> valueKind v <> reflect.Ptr -> P v) ->
  (forall t, P (VPtr t None)) ->
  (forall t p, P p -> P (VPtr t (Some p))) ->
  (forall t vs, Forall P vs -> P (VStruct t vs)) ->
  forall v, P v.
Proof.
  intros Hleaf Hnil Hptr Hstruct. fix IH 1.
  intros v. destruct v as [| | | | | | | |pt [p|]| | | | | | |t vs];
    try (apply Hleaf; cbn; repeat case_match; try discriminate;
         intros E; rewrite E in *; discriminate).
  - apply Hptr, IH.
  - apply Hnil.
  - apply Hstruct. induction vs as [|x r IHr]; constructor; [apply IH|apply IHr].
Qed.

(** ** Claim C9 *)

(** C9.  A leaf field whose tag carries [meta] with a name outside the
    six metadata names is skipped by [encode]: its turn of the loop
    returns the record as it was, without error, and encoding the
    struct gives exactly what encoding it without that field gives. *)
Theorem encode_unknown_metadata_name_skipped
    (fd : Field) (x : GoValue) (tag : tag) (t t' : GoType)
    (fds1 fds2 : list Field) (vs1 vs2 : list GoValue) (record : Record) :
  structFields t = Some (fds1 ++ fd :: fds2) ->
  structFields t' = Some (fds1 ++ fds2) ->
  length fds1 = length vs1 ->
  isLeaf x = true ->
  String.eqb (Tag fd) "" = false ->
  parseTag (Tag fd) = Ok tag ->
  meta tag = true ->
  isMetadataName (name tag) = false ->
  (forall fieldValue r, encodeField fd fieldValue r = Ok r)
  /\ encode (ArgAny (VStruct t (vs1 ++ x :: vs2))) record =
       encode (ArgAny (VStruct t' (vs1 ++ vs2))) record
  /\ forall pt pt',
       encode (ArgAny (VPtr pt (Some (VStruct t (vs1 ++ x :: vs2))))) record =
         encode (ArgAny (VPtr pt' (Some (VStruct t' (vs1 ++ vs2))))) record.
Proof.
  intros Ht Ht' Hlen Hleaf Htag Hparse Hmeta Hname.
  assert (Hskip : forall fieldValue r, encodeField fd fieldValue r = Ok r)
    by (intros; by eapply encodeField_unknown_metadata).
  split; [exact Hskip|].
  eapply encode_skip_field; eauto.
Qed.

(** ** Claim C2 *)


Lemma setMetadata_slot field x1 x2 tagName :
  typeOf x1 = typeOf x2 -> x1 <> VInvalid -> x2 <> VInvalid ->
  match setMetadata field (mkValue x1 slotFlag) tagName,
        setMetadata field (mkValue x2 slotFlag) tagName with
  | Ok _, Ok _ => True
  | Err e1, Err e2 => e1 = e2
  | Panic p1, Panic p2 => p1 = p2
  | _, _ => False
  end.
Proof.
  intros Ht H1 H2. unfold setMetadata.
  destruct (isEmptyValue field) as [[|]|e|p]; cbn; try done.
  destruct (TypeOfValue field) as [ft|e|p]; cbn; try done.
  unfold TypeOfValue. cbn. rewrite Ht.
  destruct (typeOf x2) as [rt|] eqn:E2; cbn; try done.
  destruct (typeEqb ft rt); cbn; try done.
  unfold SetValue. cbn.
  destruct x1; try done; destruct x2; try done; cbn in *;
    rewrite ?Ht, ?E2; destruct (flagRO (flags field)); cbn; try done;
    simplify_eq; destruct (assignTo _ _ _); done.
Qed.

Lemma encodeField_sameBins fd fieldValue r1 r2 :
  Bins r1 = Bins r2 ->
  sameBins (encodeField fd fieldValue r1) (encodeField fd fieldValue r2).
Proof.
  intros HB. unfold encodeField.
  destruct (String.eqb (Tag fd) ""); [exact HB|].
  destruct (parseTag (Tag fd)) as [tag|e|p]; cbn; try done.
  destruct (meta tag).
  - repeat match goal with
      | |- context [if String.eqb (name tag) ?n then _ else _] =>
          destruct (String.eqb (name tag) n)
      end; try exact HB;
    match goal with
    | |- context [setMetadata ?f (mkValue ?a _) ?n] =>
        match goal with
        | |- context [setMetadata f (mkValue ?b _) n] =>
            lazymatch a with
            | b => fail
            | _ => pose proof (setMetadata_slot f a b n eq_refl ltac:(done) ltac:(done)) as H
            end
        end
    end;
    repeat match goal with
      | H : context [setMetadata ?f ?s ?n] |- _ => destruct (setMetadata f s n)
      end; cbn; try done.
  - destruct (isEmptyValue fieldValue) as [empty|e|p]; cbn; try done.
    destruct (omit tag || omitempty tag && empty); [exact HB|].
    destruct (String.eqb (name tag) ""); [exact HB|].
    destruct empty.
    + destruct (Interface (Zero (Typ fd))); cbn; try done. by rewrite HB.
    + destruct (Interface fieldValue); cbn; try done. by rewrite HB.
Qed.


Lemma encodeLeaf_sim fd fieldValue r1 r2 :
  Bins r1 = Bins r2 ->
  simW (encodeLeaf fd fieldValue r1) (encodeLeaf fd fieldValue r2).
Proof.
  intros HB. pose proof (encodeField_sameBins fd fieldValue r1 r2 HB) as H.
  unfold encodeLeaf, simW, sameBins in *.
  destruct (encodeField fd fieldValue r1), (encodeField fd fieldValue r2);
    cbn; try done; by subst.
Qed.


Lemma walkFields_sim fl fds vs r1 r2 :
  Forall turnSim vs -> Bins r1 = Bins r2 ->
  simW (walkFields encodeLeaf (walkStruct encodeLeaf) fl fds vs r1)
       (walkFields encodeLeaf (walkStruct encodeLeaf) fl fds vs r2).
Proof.
  intros Hall. revert fds r1 r2.
  induction Hall as [|x vs Hx Hvs IH]; intros [|fd fds] r1 r2 HB; try done.
  cbn [walkFields]. specialize (Hx fl fd r1 r2 HB). unfold simW in Hx.
  destruct (walkField _ _ fl fd x r1) as [[x1 s1] o1].
  destruct (walkField _ _ fl fd x r2) as [[x2 s2] o2].
  cbn in Hx. destruct Hx as [-> HB'].
  destruct o2; try done.
  specialize (IH fds s1 s2 HB'). unfold simW in IH.
  destruct (walkFields _ _ fl fds vs s1) as [[? ?] ?].
  destruct (walkFields _ _ fl fds vs s2) as [[? ?] ?]. done.
Qed.

Lemma walk_sim v : walkSim v /\ turnSim v.
Proof.
  induction v as [v Hs Hp|t|t p [IH1 IH2]|t vs IH] using GoValue_nested_ind.
  - split.
    + intros fl r1 r2 HB. destruct v; done.
    + intros fl fd r1 r2 HB. unfold walkField.
      destruct v; try done; cbn [valueKind]; cbn;
        try (apply encodeLeaf_sim; done);
        repeat case_match; try (apply encodeLeaf_sim; done);
        try (cbn in Hs; done);
        match goal with H : kindEqb _ _ = true |- _ => apply kindEqb_eq in H end;
        cbn in Hs; try done;
        match goal with H : isIntKind _ = true |- _ => rewrite H in * end ||
        match goal with H : isUintKind _ = true |- _ => rewrite H in * end ||
        match goal with H : isFloatKind _ = true |- _ => rewrite H in * end ||
        match goal with H : isComplexKind _ = true |- _ => rewrite H in * end;
        done.
  - split; [by intros fl r1 r2 HB|].
    intros fl fd r1 r2 HB. unfold walkField.
    pose proof (encodeLeaf_sim fd reflectZeroValue r1 r2 HB) as H.
    destruct (encodeLeaf fd reflectZeroValue r1) as [[? ?] ?].
    destruct (encodeLeaf fd reflectZeroValue r2) as [[? ?] ?]. exact H.
  - split; [by intros fl r1 r2 HB|].
    intros fl fd r1 r2 HB. unfold walkField.
    destruct (kindEqb (valueKind p) reflect.Struct).
    + specialize (IH1 (ptrElemFlag (fieldFlag fl fd)) r1 r2 HB).
      destruct (walkStruct _ p _ r1) as [[? ?] ?].
      destruct (walkStruct _ p _ r2) as [[? ?] ?]. exact IH1.
    + pose proof (encodeLeaf_sim fd (mkValue p (ptrElemFlag (fieldFlag fl fd))) r1 r2 HB) as H.
      destruct (encodeLeaf fd _ r1) as [[? ?] ?].
      destruct (encodeLeaf fd _ r2) as [[? ?] ?]. exact H.
  - assert (Hw : walkSim (VStruct t vs)).
    { intros fl r1 r2 HB. cbn [walkStruct].
      destruct (structFields t) as [fds|]; [|done].
      assert (Hall : Forall turnSim vs) by (eapply Forall_impl; [exact IH|by intros ? [? ?]]).
      pose proof (walkFields_sim fl fds vs r1 r2 Hall HB) as H.
      destruct (walkFields _ _ fl fds vs r1) as [[? ?] ?].
      destruct (walkFields _ _ fl fds vs r2) as [[? ?] ?]. exact H. }
    split; [exact Hw|].
    intros fl fd r1 r2 HB. unfold walkField. cbn. by apply Hw.
Qed.

Lemma encodeField_omit_bins fd fieldValue tag r r' :
  String.eqb (Tag fd) "" = false ->
  parseTag (Tag fd) = Ok tag ->
  omit tag = true ->
  encodeField fd fieldValue r = Ok r' -> Bins r' = Bins r.
Proof.
  intros Htag Hparse Homit. unfold encodeField. rewrite Htag, Hparse. cbn.
  destruct (meta tag).
  - repeat match goal with
      | |- context [if String.eqb (name tag) ?n then _ else _] =>
          destruct (String.eqb (name tag) n)
      end;
    repeat match goal with
      | |- context [setMetadata ?f ?s ?n] => destruct (setMetadata f s n)
      end; cbn; intros; by simplify_eq.
  - destruct (isEmptyValue fieldValue); cbn; try done.
    rewrite Homit. cbn. intros; by simplify_eq.
Qed.

(** A field whose turn leaves the bins as they were can be taken out
    of the struct without changing the bins of the result. *)
Lemma walkFields_bins_frame fl fd x fds1 fds2 vs1 vs2 s :
  length fds1 = length vs1 ->
  (forall s0 x' s' o,
     walkField encodeLeaf (walkStruct encodeLeaf) fl fd x s0 = (x', s', o) ->
     Bins s' = Bins s0) ->
  forall vs' a,
    walkFields encodeLeaf (walkStruct encodeLeaf) fl
               (fds1 ++ fd :: fds2) (vs1 ++ x :: vs2) s = (vs', a, Done) ->
    exists ws b,
      walkFields encodeLeaf (walkStruct encodeLeaf) fl
                 (fds1 ++ fds2) (vs1 ++ vs2) s = (ws, b, Done)
      /\ Bins b = Bins a.
Proof.
  intros Hlen Hturn. revert vs1 Hlen s.
  induction fds1 as [|f r IH]; intros [|y ys] Hlen s vs' a; try discriminate.
  - cbn [app walkFields].
    destruct (walkField _ _ fl fd x s) as [[x' s'] o] eqn:E.
    apply Hturn in E. destruct o; try done.
    pose proof (walkFields_sim fl fds2 vs2 s' s
                  ltac:(apply Forall_forall; intros; apply walk_sim) E) as [Ho HB].
    destruct (walkFields _ _ fl fds2 vs2 s') as [[? ?] ?].
    destruct (walkFields _ _ fl fds2 vs2 s) as [[ws b] ?].
    cbn in *. intros ?; simplify_eq. eauto.
  - cbn [app walkFields].
    destruct (walkField _ _ fl f y s) as [[y' s1] [|e|p]]; try done.
    simpl in Hlen. specialize (IH ys ltac:(lia) s1).
    destruct (walkFields _ _ fl (r ++ fd :: fds2) _ s1) as [[? ?] ?].
    intros ?; simplify_eq.
    destruct (IH _ _ eq_refl) as (ws & b & -> & HB). eauto.
Qed.

Lemma encodeLeaf_turn_bins fd x fl tag :
  isLeaf x = true ->
  String.eqb (Tag fd) "" = false ->
  parseTag (Tag fd) = Ok tag ->
  omit tag = true ->
  forall s0 x' s' o,
    walkField encodeLeaf (walkStruct encodeLeaf) fl fd x s0 = (x', s', o) ->
    Bins s' = Bins s0.
Proof.
  intros Hleaf Htag Hparse Homit s0 x' s' o. rewrite walkField_leaf by done.
  unfold encodeLeaf.
  destruct (encodeField fd (fieldValueOf fl fd x) s0) as [r|e|p] eqn:E;
    intros ?; simplify_eq; try done.
  by eapply encodeField_omit_bins.
Qed.

Lemma walkField_struct_tag {S} (leaf : Field -> RValue -> S -> GoValue * S * Outcome)
    recurse fl fd fd' y s :
  isLeaf y = false ->
  Name fd' = Name fd -> Anonymous fd' = Anonymous fd ->
  walkField leaf recurse fl fd' y s = walkField leaf recurse fl fd y s.
Proof.
  unfold isLeaf, derefKind, fieldValueDeref, rKind, walkField, fieldFlag.
  intros H Hn Ha. rewrite Hn, Ha.
  destruct y as [| | | | | | | |pt [p|]| | | | | | |]; cbn in *;
    try discriminate; try (apply negb_false_iff in H; rewrite H); try done.
Qed.

(** ** Claim C2 *)

(** C2.  A leaf field whose tag carries [omit] never reaches the bins:
    its turn of the loop of [encode] leaves the bin mapping as it was,
    and whenever encoding the struct returns a record, encoding the
    struct without that field returns a record with the same bins,
    whatever the field holds.  A field of struct kind is walked into
    and its own tag is not read: its turn of the loop is the same under
    any other tag, so no bin is written under the name its tag gives. *)
Theorem encode_omit_never_in_bins
    (fd : Field) (x : GoValue) (tag : tag) (t t' : GoType)
    (fds1 fds2 : list Field) (vs1 vs2 : list GoValue) (record : Record) :
  structFields t = Some (fds1 ++ fd :: fds2) ->
  structFields t' = Some (fds1 ++ fds2) ->
  length fds1 = length vs1 ->
  isLeaf x = true ->
  String.eqb (Tag fd) "" = false ->
  parseTag (Tag fd) = Ok tag ->
  omit tag = true ->
  (forall fieldValue r r',
     encodeField fd fieldValue r = Ok r' -> Bins r' = Bins r)
  /\ (forall r,
        encode (ArgAny (VStruct t (vs1 ++ x :: vs2))) record = Ok r ->
        exists r', encode (ArgAny (VStruct t' (vs1 ++ vs2))) record = Ok r'
                   /\ Bins r' = Bins r)
  /\ (forall pt pt' r,
        encode (ArgAny (VPtr pt (Some (VStruct t (vs1 ++ x :: vs2))))) record = Ok r ->
        exists r', encode (ArgAny (VPtr pt' (Some (VStruct t' (vs1 ++ vs2))))) record = Ok r'
                   /\ Bins r' = Bins r)
  /\ (forall fd' y fl r,
        isLeaf y = false ->
        Name fd' = Name fd -> Anonymous fd' = Anonymous fd ->
        walkField encodeLeaf (walkStruct encodeLeaf) fl fd' y r =
          walkField encodeLeaf (walkStruct encodeLeaf) fl fd y r).
Proof.
  intros Ht Ht' Hlen Hleaf Htag Hparse Homit.
  split; [intros; by eapply encodeField_omit_bins|].
  assert (Hwalk : forall fl r,
    (let '(_, r0, o) := walkStruct encodeLeaf (VStruct t (vs1 ++ x :: vs2)) fl record in
     Result_of r0 o) = Ok r ->
    exists r',
      (let '(_, r0, o) := walkStruct encodeLeaf (VStruct t' (vs1 ++ vs2)) fl record in
       Result_of r0 o) = Ok r' /\ Bins r' = Bins r).
  { intros fl r.
    rewrite (walkStruct_unfold _ _ _ _ _ _ Ht), (walkStruct_unfold _ _ _ _ _ _ Ht').
    destruct (walkFields _ _ fl (fds1 ++ fd :: fds2) _ record) as [[vs' a] o] eqn:E.
    destruct o; cbn; try done. intros ?; simplify_eq.
    destruct (walkFields_bins_frame fl fd x fds1 fds2 vs1 vs2 record Hlen
                (encodeLeaf_turn_bins fd x fl tag Hleaf Htag Hparse Homit) _ _ E)
      as (ws & b & -> & HB).
    cbn. eauto. }
  split; [|split]; [intros r|intros pt pt' r|];
    [| |intros; by apply walkField_struct_tag]; unfold encode;
    rewrite ?structValue_struct, ?structValue_pointer;
    cbn [mbind Result_bind val flags ValueOf]; apply Hwalk.
Qed.

(** ** Claim C3 *)

Lemma walkFields_app {S} (leaf : Field -> RValue -> S -> GoValue * S * Outcome)
    recurse fl fds1 fds2 vs1 vs2 s :
  length fds1 = length vs1 ->
  walkFields leaf recurse fl (fds1 ++ fds2) (vs1 ++ vs2) s =
    let '(a, s1, o1) := walkFields leaf recurse fl fds1 vs1 s in
    match o1 with
    | Done =>
        let '(b, s2, o2) := walkFields leaf recurse fl fds2 vs2 s1 in
        (a ++ b, s2, o2)
    | _ => (a ++ vs2, s1, o1)
    end.
Proof.
  revert vs1 s. induction fds1 as [|f r IH]; intros [|y ys] s Hlen; try discriminate.
  - cbn. by destruct (walkFields _ _ _ fds2 vs2 s) as [[? ?] ?].
  - cbn [app walkFields].
    destruct (walkField leaf recurse fl f y s) as [[y' s1] [|e|p]]; try done.
    rewrite IH by (simpl in Hlen; lia).
    destruct (walkFields _ _ _ r ys s1) as [[a s2] [|e|p]]; try done.
    by destruct (walkFields _ _ _ fds2 vs2 s2) as [[? ?] ?].
Qed.

Lemma encodeField_lookup_frame n fd fieldValue r r' :
  mayWriteBin n fd = false ->
  encodeField fd fieldValue r = Ok r' ->
  Bins r' !! n = Bins r !! n.
Proof.
  unfold mayWriteBin, binNameOf, encodeField.
  destruct (String.eqb (Tag fd) ""); [intros; by simplify_eq|].
  destruct (parseTag (Tag fd)) as [tag|e|p]; cbn; try done.
  destruct (meta tag); cbn.
  - intros _.
    repeat match goal with
      | |- context [if String.eqb (name tag) ?n then _ else _] =>
          destruct (String.eqb (name tag) n)
      end;
    repeat match goal with
      | |- context [setMetadata ?f ?s ?n] => destruct (setMetadata f s n)
      end; cbn; intros; by simplify_eq.
  - destruct (isEmptyValue fieldValue) as [empty|e|p]; cbn; try done.
    destruct (omit tag); cbn; [intros; by simplify_eq|].
    destruct (omitempty tag && empty); cbn; [intros; by simplify_eq|].
    destruct (String.eqb (name tag) "") eqn:En; cbn; [intros; by simplify_eq|].
    intros Hn. apply String.eqb_neq in Hn.
    destruct empty;
      [destruct (Interface (Zero (Typ fd)))|destruct (Interface fieldValue)];
      cbn; intros; simplify_eq; cbn; by rewrite lookup_insert_ne.
Qed.

(** Over leaf fields that cannot write bin [n], the loop of [encode]
    leaves the entry of [n] as it was. *)
Lemma encode_leaves_lookup_frame n fl fds vs r vs' r' :
  Forall (fun y => isLeaf y = true) vs ->
  Forall (fun fd => mayWriteBin n fd = false) fds ->
  walkFields encodeLeaf (walkStruct encodeLeaf) fl fds vs r = (vs', r', Done) ->
  Bins r' !! n = Bins r !! n.
Proof.
  intros Hleaf. revert fds r vs' r'.
  induction Hleaf as [|y vs Hy Hvs IH]; intros [|fd fds] r vs' r' Hfds;
    cbn [walkFields]; try (intros; by simplify_eq).
  inversion Hfds as [|? ? Hfd Hrest]; subst.
  rewrite walkField_leaf by done. unfold encodeLeaf.
  destruct (encodeField fd (fieldValueOf fl fd y) r) as [r1|e|p] eqn:E; try done.
  destruct (walkFields _ _ fl fds vs r1) as [[ws r2] o] eqn:E2.
  intros ?; simplify_eq.
  rewrite (IH _ _ _ _ Hrest E2). by eapply encodeField_lookup_frame.
Qed.

Lemma Interface_readable fieldValue :
  IsValid fieldValue = true -> flagRO (flags fieldValue) = false ->
  Interface fieldValue = Ok (unbox (val fieldValue)).
Proof.
  unfold IsValid, Interface. intros Hv ->. by destruct (val fieldValue).
Qed.

Lemma isEmptyValue_invalid fieldValue :
  IsValid fieldValue = false -> isEmptyValue fieldValue = Ok true.
Proof.
  unfold IsValid, isEmptyValue, rKind. by destruct (val fieldValue).
Qed.

Lemma nonempty_valid fieldValue :
  isEmptyValue fieldValue = Ok false -> IsValid fieldValue = true.
Proof.
  intros H. destruct (IsValid fieldValue) eqn:E; [done|].
  rewrite isEmptyValue_invalid in H by done. done.
Qed.

Lemma Interface_Ok fieldValue x :
  Interface fieldValue = Ok x -> x = unbox (val fieldValue).
Proof.
  unfold Interface. destruct (val fieldValue); try done;
    destruct (flagRO (flags fieldValue)); intros; by simplify_eq.
Qed.

(** What the loop body of [encode] does with a plain bin field. *)
Lemma encodeField_bin fd fieldValue tag record :
  String.eqb (Tag fd) "" = false ->
  parseTag (Tag fd) = Ok tag ->
  meta tag = false -> omit tag = false -> String.eqb (name tag) "" = false ->
  (omitempty tag = true -> isEmptyValue fieldValue = Ok true ->
   encodeField fd fieldValue record = Ok record)
  /\ (isEmptyValue fieldValue = Ok false ->
      encodeField fd fieldValue record =
        x ← Interface fieldValue; Ok (setBin record (name tag) x))
  /\ (omitempty tag = false -> isEmptyValue fieldValue = Ok true ->
      zeroValue (Typ fd) <> VInvalid ->
      encodeField fd fieldValue record =
        Ok (setBin record (name tag) (unbox (zeroValue (Typ fd))))).
Proof.
  intros Htag Hparse Hmeta Homit Hname. unfold encodeField.
  rewrite Htag, Hparse. cbn. rewrite Hmeta, Homit, Hname. cbn.
  split; [|split].
  - intros -> ->. done.
  - intros ->. cbn. by rewrite andb_false_r.
  - intros -> -> Hz. cbn.
    rewrite Interface_readable; [done| |done].
    unfold IsValid, Zero, ValueOf. cbn. by destruct (zeroValue (Typ fd)).
Qed.

(** In a struct of leaf fields where no other field can write the bin
    of a plain bin field, the record [Encode] returns has that bin
    absent, holding the field's value, or holding the zero value,
    as emptiness decides. *)
Lemma encode_flat_bin_lookup fd x tag t fds1 fds2 vs1 vs2 v fl r :
  String.eqb (Tag fd) "" = false ->
  parseTag (Tag fd) = Ok tag ->
  meta tag = false -> omit tag = false -> String.eqb (name tag) "" = false ->
  structValue (ArgAny v) = Ok (mkValue (VStruct t (vs1 ++ x :: vs2)) fl) ->
  structFields t = Some (fds1 ++ fd :: fds2) ->
  length fds1 = length vs1 ->
  Forall (fun y => isLeaf y = true) (vs1 ++ x :: vs2) ->
  Forall (fun fd' => mayWriteBin (name tag) fd' = false) (fds1 ++ fds2) ->
  Encode v = Ok r ->
  let fieldValue := fieldValueOf fl fd x in
  (omitempty tag = true -> isEmptyValue fieldValue = Ok true ->
   Bins r !! name tag = None)
  /\ (isEmptyValue fieldValue = Ok false ->
      Bins r !! name tag = Some (unbox (val fieldValue)))
  /\ (omitempty tag = false -> isEmptyValue fieldValue = Ok true ->
      zeroValue (Typ fd) <> VInvalid ->
      Bins r !! name tag = Some (unbox (zeroValue (Typ fd)))).
Proof.
  intros Htag Hparse Hmeta Homit Hname Hsv Ht Hlen Hleaf Hothers.
  unfold Encode, encode. rewrite Hsv. cbn [mbind Result_bind val flags].
  rewrite (walkStruct_unfold _ _ _ _ _ _ Ht).
  rewrite walkFields_app by done.
  apply Forall_app in Hleaf as [Hleaf1 Hleaf2].
  inversion Hleaf2 as [|? ? Hx Hleaf3]; subst.
  apply Forall_app in Hothers as [Ho1 Ho2].
  destruct (walkFields _ _ fl fds1 vs1 newRecord) as [[a r1] o1] eqn:E1.
  destruct o1; try done.
  pose proof (encode_leaves_lookup_frame _ _ _ _ _ _ _ Hleaf1 Ho1 E1) as F1.
  cbn [walkFields]. rewrite walkField_leaf by done.
  unfold encodeLeaf.
  destruct (encodeField_bin fd (fieldValueOf fl fd x) tag r1 Htag Hparse Hmeta Homit Hname)
    as (H1 & H2 & H3).
  destruct (encodeField fd (fieldValueOf fl fd x) r1) as [r2|e|p] eqn:E; try done.
  destruct (walkFields _ _ fl fds2 vs2 r2) as [[b r3] o3] eqn:E3.
  destruct o3; try done. cbn. intros ?; simplify_eq.
  pose proof (encode_leaves_lookup_frame _ _ _ _ _ _ _ Hleaf3 Ho2 E3) as F3.
  rewrite F3. split; [|split].
  - intros Hoe He. specialize (H1 Hoe He). injection H1 as ->. by rewrite F1.
  - intros He. specialize (H2 He).
    destruct (Interface (fieldValueOf fl fd x)) as [y| |] eqn:Ei; cbn in H2; try done.
    injection H2 as ->. apply Interface_Ok in Ei as ->.
    cbn. by rewrite lookup_insert_eq.
  - intros Hoe He Hz. specialize (H3 Hoe He Hz). injection H3 as ->.
    cbn. by rewrite lookup_insert_eq.
Qed.

Lemma zeroAs_underlying orig t : zeroAs orig t = zeroAs orig (underlying t).
Proof. induction t; cbn; try reflexivity. exact IHt. Qed.

Lemma zeroValue_array t n :
  typeLen t = Some n ->
  exists e, zeroValue t = VArray t (repeat (zeroValue e) n).
Proof.
  unfold typeLen, zeroValue. rewrite (zeroAs_underlying t t).
  destruct (underlying t); try discriminate. intros ?; simplify_eq. by eexists.
Qed.

(** C3.  [isEmptyValue] is documented to report whether a value is the
    zero value of its type, and [omitempty] to leave out such a field;
    what it tests is emptiness.  An array field of positive length that
    holds the zero value of its type is not empty: with [omitempty] the
    loop body of [encode] writes it under its name.  A slice or a map
    that is empty but not nil is not the zero value of its type, and
    with [omitempty] it is left out.  So [Encode] of
    [struct { A [1]int `aero:"a,omitempty"` }{}] returns the bin [a]
    holding [[1]int{0}], and [Encode] of
    [struct { S []int `aero:"s,omitempty"` }{S: []int{}}] returns no
    bin. *)
Theorem encode_omitempty_zero_array_written :
  (forall fd tag n fl record,
     String.eqb (Tag fd) "" = false ->
     parseTag (Tag fd) = Ok tag ->
     meta tag = false -> omit tag = false -> omitempty tag = true ->
     String.eqb (name tag) "" = false ->
     typeLen (Typ fd) = Some (S n) -> flagRO fl = false ->
     isEmptyValue (mkValue (zeroValue (Typ fd)) fl) = Ok false
     /\ encodeField fd (mkValue (zeroValue (Typ fd)) fl) record =
          Ok (setBin record (name tag) (zeroValue (Typ fd))))
  /\ (forall fd tag t fl record,
        String.eqb (Tag fd) "" = false ->
        parseTag (Tag fd) = Ok tag ->
        meta tag = false -> omit tag = false -> omitempty tag = true ->
        String.eqb (name tag) "" = false ->
        isZeroValue (VSlice t (Some [])) = false
        /\ isZeroValue (VMap t (Some [])) = false
        /\ encodeField fd (mkValue (VSlice t (Some [])) fl) record = Ok record
        /\ encodeField fd (mkValue (VMap t (Some [])) fl) record = Ok record)
  /\ (let x := zeroValue (Typ arrayField) in
      x = VArray (Typ arrayField) [VInt tInt 0]
      /\ isZeroValue x = true
      /\ exists r, Encode (VStruct (TStruct [arrayField]) [x]) = Ok r
                   /\ Bins r !! "a" = Some x)
  /\ Encode (VStruct (TStruct [emptySliceField])
                     [VSlice (TSlice tInt) (Some [])]) = Ok newRecord.
Proof.
  split; [|split; [|split]].
  - intros fd tag n fl record Htag Hparse Hmeta Homit Hoe Hname Hlen Hro.
    destruct (zeroValue_array _ _ Hlen) as [e Hz].
    assert (He : isEmptyValue (mkValue (zeroValue (Typ fd)) fl) = Ok false).
    { rewrite Hz. unfold isEmptyValue, rKind, Len. cbn [val valueKind].
      cbn [mbind Result_bind]. by rewrite repeat_length. }
    split; [exact He|].
    destruct (encodeField_bin fd (mkValue (zeroValue (Typ fd)) fl) tag record
                Htag Hparse Hmeta Homit Hname) as (_ & H2 & _).
    rewrite H2 by exact He.
    rewrite Interface_readable; [|by apply nonempty_valid|done].
    cbn [mbind Result_bind val]. by rewrite Hz.
  - intros fd tag t fl record Htag Hparse Hmeta Homit Hoe Hname.
    destruct (encodeField_bin fd (mkValue (VSlice t (Some [])) fl) tag record
                Htag Hparse Hmeta Homit Hname) as (H1 & _ & _).
    destruct (encodeField_bin fd (mkValue (VMap t (Some [])) fl) tag record
                Htag Hparse Hmeta Homit Hname) as (H1' & _ & _).
    split; [reflexivity|]. split; [reflexivity|].
    split; [by apply H1|by apply H1'].
  - split; [reflexivity|]. split; [reflexivity|]. eexists.
    split; [vm_compute; reflexivity|vm_compute; reflexivity].
  - vm_compute. reflexivity.
Qed.

(** ** Claim C7 *)

Lemma convertElementTypeAt_unfold env depth source targetType :
  convertElementTypeAt env depth source targetType =
    r ← convertSource source targetType;
    match r with
    | inl result => Ok result
    | inr sourceValue =>
        convertKind env
          (match depth with
           | O => fun _ t => Err (ErrUnsupportedTargetType (typeKind t))
           | S d => convertElementTypeAt env d
           end)
          source sourceValue targetType
    end.
Proof. destruct depth; reflexivity. Qed.

Lemma sourceValueOf_total source : exists sourceValue, sourceValueOf source = Ok sourceValue.
Proof.
  unfold sourceValueOf.
  set (sv := match source with ArgValue v => v | ArgAny x => ValueOf x end).
  destruct (kindEqb (rKind sv) reflect.Interface) eqn:E; [|eauto].
  apply kindEqb_eq in E. unfold Elem, rKind in *.
  destruct (val sv) as [| | | | | | | |? [?|]|? []| | | | | |];
    cbn in E; repeat case_match; try discriminate; eauto;
    rewrite E in *; discriminate.
Qed.

Lemma zeroAs_pointer orig t e :
  underlying t = TPtr e -> zeroAs orig t = VPtr orig None.
Proof.
  induction t as [k|n u IH| | | | | | | |]; cbn; try discriminate; try reflexivity.
  exact IH.
Qed.

Lemma valid_not_invalid v : IsValid v = true -> val v <> VInvalid.
Proof. unfold IsValid. by destruct (val v). Qed.

(** C7.  [convertElementType] on an invalid (absent) source or on a nil
    pointer returns the zero value of the target type, for every target
    type, and never an error; that zero value is the nil pointer when
    the target is a pointer.  A non-nil pointer source is dereferenced
    once: the conversion goes on with the pointee itself, which is
    returned as it is when it already has the target type. *)
Theorem convertElementType_absent_or_nil_source
    (env : GoEnv) (source : anyArg) (targetType : GoType) (sourceValue : RValue) :
  sourceValueOf source = Ok sourceValue ->
  (IsValid sourceValue = false ->
   convertElementType env source targetType = Ok (Zero targetType))
  /\ (forall t, val sourceValue = VPtr t None ->
      convertElementType env source targetType = Ok (Zero targetType))
  /\ (forall e, underlying targetType = TPtr e ->
      val (Zero targetType) = VPtr targetType None)
  /\ (forall t p, val sourceValue = VPtr t (Some p) ->
      convertSource source targetType =
        Ok (inr (mkValue p (ptrElemFlag (flags sourceValue))))
      /\ (typeOf p = Some targetType ->
          convertElementType env source targetType =
            Ok (mkValue p (ptrElemFlag (flags sourceValue))))).
Proof.
  intros Hsv. unfold convertElementType.
  rewrite convertElementTypeAt_unfold. unfold convertSource. rewrite Hsv.
  cbn [mbind Result_bind].
  split; [|split; [|split]].
  - intros ->. cbn. by destruct (kindEqb (typeKind targetType) reflect.Ptr).
  - intros t Hv. unfold IsValid, rKind, IsNil. rewrite Hv.
    cbn [negb valueKind mbind Result_bind]. rewrite kindEqb_refl.
    cbn [mbind Result_bind].
    by destruct (kindEqb (typeKind targetType) reflect.Ptr).
  - intros e Hk. unfold Zero, ValueOf, zeroValue. cbn. by eapply zeroAs_pointer.
  - intros t p Hv. unfold IsValid, rKind, IsNil, Elem. rewrite Hv.
    cbn [negb valueKind mbind Result_bind]. rewrite kindEqb_refl.
    cbn [mbind Result_bind]. split; [reflexivity|].
    intros Hp. unfold convertKind, TypeOfValue. cbn [val]. rewrite Hp.
    cbn [mbind Result_bind]. by rewrite typeEqb_refl.
Qed.

(** ** Claim C6 *)

Lemma decodeLoop_none env recurse inner recordValue fds vals v isRecord :
  forallb isCaseNone (decodeCases inner (flags recordValue) fds vals) = true ->
  decodeLoop env recurse inner recordValue fds vals v isRecord = (v, isRecord, Done).
Proof.
  revert vals. induction fds as [|fd fds IH]; intros [|x vals]; cbn; try done.
  intros H. apply andb_true_iff in H as [Hc Hrest].
  unfold decodeTurn. fold (fieldValueOf (flags recordValue) fd x).
  destruct (decodeCaseOf inner (Name fd) (fieldValueOf (flags recordValue) fd x));
    try discriminate.
  by apply IH.
Qed.

Lemma valueKind_pointer x :
  valueKind x = reflect.Ptr -> exists pt o, x = VPtr pt o.
Proof.
  destruct x; cbn; try discriminate; eauto;
    case_match; try discriminate; intros E; rewrite E in *; discriminate.
Qed.

Lemma structValue_not_struct x :
  structShaped x = false -> structValue (ArgAny x) = Err ErrInvalidSourceType.
Proof.
  intros H. unfold structValue, rKind, ValueOf. cbn [val].
  destruct (kindEqb (valueKind x) reflect.Ptr) eqn:E.
  - apply kindEqb_eq in E. apply valueKind_pointer in E as (pt & o & Hx).
    subst x. destruct o as [p|]; cbn in *; [by rewrite H|reflexivity].
  - cbn [mbind Result_bind val].
    destruct x; cbn in H |- *; rewrite ?H; done.
Qed.

(** C6, with the key among the cases.  A source that is neither a
    struct nor a non-nil
    pointer to a struct makes [Decode] return [ErrInvalidSourceType]; a
    struct-shaped source none of whose fields falls in a case of the
    loop of [Decode] (no batch record, record, key, bin mapping, or
    top-level generation/expiration) makes it return [ErrInvalidSource].
    In both cases the destination is left as it was. *)
Theorem Decode_invalid_source_errors (env : GoEnv) (x v : GoValue) :
  (structShaped x = false ->
   Decode env (ArgAny x) v = (v, Failed ErrInvalidSourceType))
  /\ (forall cases, sourceCases x = Some cases ->
      forallb isCaseNone cases = true ->
      Decode env (ArgAny x) v = (v, Failed ErrInvalidSource)).
Proof.
  split.
  - intros H. unfold Decode. by rewrite structValue_not_struct.
  - intros cases. unfold sourceCases, Decode.
    destruct (structValue (ArgAny x)) as [sv| |]; try done.
    destruct sv as [sval sfl]. cbn [val flags].
    destruct sval; try done. cbn [decodeFrom].
    destruct (structFields t) as [fds|]; cbn; try done.
    intros ? Hall; simplify_eq.
    by rewrite (decodeLoop_none env _ false (mkValue (VStruct t fs) sfl)).
Qed.

(** ** The decoders *)

Lemma lookupString_entries (l : list (string * GoValue)) n :
  lookupString (map (fun kv => (stringValue kv.1, anyValue kv.2)) l) n =
    anyValue <$> (list_to_map l : gmap string GoValue) !! n.
Proof.
  induction l as [|[k y] l IH]; [done|].
  cbn [map lookupString fst snd unbox stringValue list_to_map foldr].
  cbn. destruct (String.eqb_spec k n) as [->|Hne].
  - by rewrite lookup_insert_eq.
  - rewrite lookup_insert_ne by done. exact IH.
Qed.

Lemma MapIndex_binsValue (bins : gmap string GoValue) fl n :
  MapIndex (mkValue (binsValue bins) fl) n =
    Ok (match bins !! n with
        | Some y => mkValue (anyValue y) (mkFlag false (flagRO fl) false)
        | None => reflectZeroValue
        end).
Proof.
  unfold MapIndex, binsValue. cbn.
  rewrite lookupString_entries, list_to_map_to_list.
  by destruct (bins !! n).
Qed.

Lemma Outcome_of_unchanged (old : GoValue) : Outcome_of old (Ok old) = (old, Done).
Proof. reflexivity. Qed.

Lemma rewrap_same fl fd x :
  isLeaf x = true -> rewrap x (val (fieldValueOf fl fd x)) = x.
Proof.
  unfold rewrap, fieldValueOf, fieldValueDeref.
  by destruct x as [| | | | | | | |pt [p|]| | | | | | |].
Qed.

(** A leaf field whose loop body returns the field as it was is not
    changed by the walk. *)
Lemma walkField_body_unchanged body recurse fl fd x s :
  isLeaf x = true ->
  body fd (fieldValueOf fl fd x) = Ok (val (fieldValueOf fl fd x)) ->
  walkField (leafOf body) recurse fl fd x s = (x, s, Done).
Proof.
  intros Hleaf H. rewrite walkField_leaf by done.
  unfold leafOf. rewrite H. cbn. by rewrite rewrap_same.
Qed.

Lemma walkFields_frame {S} (leaf : Field -> RValue -> S -> GoValue * S * Outcome)
    recurse fl fds vs s i fd x :
  fds !! i = Some fd -> vs !! i = Some x ->
  (forall s', (walkField leaf recurse fl fd x s').1.1 = x) ->
  (walkFields leaf recurse fl fds vs s).1.1 !! i = Some x.
Proof.
  intros Hfd Hx Hturn. revert vs s i Hfd Hx.
  induction fds as [|f fds IH]; intros [|y vs] s [|i] Hfd Hx; try done; cbn in Hfd, Hx.
  - simplify_eq. cbn [walkFields]. specialize (Hturn s).
    destruct (walkField leaf recurse fl fd x s) as [[x' s1] o1]. cbn in Hturn. subst x'.
    destruct o1; try done.
    by destruct (walkFields _ _ fl fds vs s1) as [[? ?] ?].
  - cbn [walkFields].
    destruct (walkField leaf recurse fl f y s) as [[y' s1] o1].
    destruct o1; cbn; try done.
    specialize (IH vs s1 i Hfd Hx).
    by destruct (walkFields _ _ fl fds vs s1) as [[? ?] ?].
Qed.

(** The destination of a decoder, passed as a pointer to a struct:
    after the walk it is the same pointer to the struct with the
    fields the walk left. *)
Lemma walkTarget_pointer body pt t vals fds :
  structFields t = Some fds ->
  walkTarget body (VPtr pt (Some (VStruct t vals))) =
    let '(vals', _, o) :=
      walkFields (leafOf body) (walkStruct (leafOf body)) targetFlag fds vals tt in
    (VPtr pt (Some (VStruct t vals')), o).
Proof.
  intros Ht. unfold walkTarget, walkArg. rewrite structValue_pointer.
  cbn [val flags]. rewrite (walkStruct_unfold _ _ _ _ _ _ Ht).
  by destruct (walkFields _ _ _ fds vals tt) as [[? ?] ?].
Qed.

Lemma walkTarget_frame body pt t vals fds i fd x v' o :
  structFields t = Some fds ->
  fds !! i = Some fd -> vals !! i = Some x ->
  isLeaf x = true ->
  body fd (fieldValueOf targetFlag fd x) = Ok (val (fieldValueOf targetFlag fd x)) ->
  walkTarget body (VPtr pt (Some (VStruct t vals))) = (v', o) ->
  exists vals', v' = VPtr pt (Some (VStruct t vals')) /\ vals' !! i = Some x.
Proof.
  intros Ht Hfd Hx Hleaf Hbody. rewrite (walkTarget_pointer _ _ _ _ _ Ht).
  pose proof (walkFields_frame (leafOf body) (walkStruct (leafOf body)) targetFlag
                fds vals tt i fd x Hfd Hx) as H.
  destruct (walkFields _ _ _ fds vals tt) as [[vals' ?] o'].
  intros ?; simplify_eq. eexists; split; [done|]. apply H.
  intros s'. by rewrite walkField_body_unchanged.
Qed.

Lemma decodeBinsField_absent env recordValue fd fieldValue tag :
  parseTag (Tag fd) = Ok tag ->
  binAbsent recordValue (name tag) = true ->
  decodeBinsField env recordValue fd fieldValue = Ok (val fieldValue).
Proof.
  unfold binAbsent, decodeBinsField. intros -> H.
  destruct (String.eqb (Tag fd) ""); [done|]. cbn.
  destruct (String.eqb (name tag) ""); [done|].
  destruct (MapIndex recordValue (name tag)) as [b| |]; try done. cbn.
  by rewrite H.
Qed.

Lemma decodeKeyField_not_meta env recordValue fd fieldValue tag :
  parseTag (Tag fd) = Ok tag -> meta tag = false ->
  decodeKeyField env recordValue fd fieldValue = Ok (val fieldValue).
Proof.
  unfold decodeKeyField. intros Hp Hm.
  destruct (String.eqb (Tag fd) ""); [done|].
  rewrite Hp. cbn. by rewrite Hm.
Qed.

Lemma decodeRecordField_not_meta env recordValue fd fieldValue tag :
  parseTag (Tag fd) = Ok tag -> meta tag = false ->
  decodeRecordField env recordValue fd fieldValue = Ok (val fieldValue).
Proof.
  unfold decodeRecordField. intros Hp Hm.
  destruct (String.eqb (Tag fd) ""); [done|].
  rewrite Hp. cbn. by rewrite Hm.
Qed.


Lemma Decode_record env record v :
  Decode env (ArgAny (recordPointer record)) v =
    let '(v1, o1) := decodeKey env (keyOf record) v in
    match o1 with
    | Done => decodeBins env (binsOf record) v1
    | _ => (v1, o1)
    end.
Proof.
  unfold Decode, recordPointer, recordValueOf, keyOf, binsOf, binsValue.
  rewrite structValue_pointer.
  cbn [val flags decodeFrom]. cbn [structFields tRecord underlying].
  cbn [decodeLoop]. unfold decodeTurn. cbn [Name val flags].
  repeat match goal with
    | |- context [decodeCaseOf ?i ?n ?fv] =>
        let c := eval vm_compute in (decodeCaseOf i n fv) in
        change (decodeCaseOf i n fv) with c
    end.
  cbn [fieldValueDeref val flags].
  change (fieldFlag targetFlag _) with (mkFlag true false false).
  destruct (decodeKey env _ v) as [v1 [| |]]; try done.
  destruct (decodeBins env _ v1) as [v2 [| |]]; done.
Qed.

(** ** Claim C8 *)

Lemma binAbsent_binsOf record n :
  Bins record !! n = None -> binAbsent (binsOf record) n = true.
Proof.
  intros H. unfold binAbsent, binsOf. rewrite MapIndex_binsValue, H. reflexivity.
Qed.

Lemma decodeBins_frame env recordValue fd tag pt t fds vals i x v' o :
  parseTag (Tag fd) = Ok tag ->
  binAbsent recordValue (name tag) = true ->
  structFields t = Some fds ->
  fds !! i = Some fd -> vals !! i = Some x -> isLeaf x = true ->
  decodeBins env recordValue (VPtr pt (Some (VStruct t vals))) = (v', o) ->
  exists vals', v' = VPtr pt (Some (VStruct t vals')) /\ vals' !! i = Some x.
Proof.
  intros Hparse Habs Ht Hfd Hx Hleaf. unfold decodeBins.
  destruct (negb (kindEqb (rKind recordValue) reflect.Map)).
  - intros ?; simplify_eq. eauto.
  - eapply walkTarget_frame; eauto. by eapply decodeBinsField_absent.
Qed.

(** C8.  An annotated leaf field whose bin name is absent from the bin
    mapping is left as it was and raises no error: the loop body of
    [decodeBins] returns the field unchanged; after [decodeBins] on a
    destination passed by pointer the field holds what it held
    (its zero value in a fresh struct); and so it does after [Decode]
    of an encoded record when the field is not a metadata field. *)
Theorem decode_absent_bin_leaves_field
    (env : GoEnv) (fd : Field) (tag : tag) :
  String.eqb (Tag fd) "" = false ->
  parseTag (Tag fd) = Ok tag ->
  (forall recordValue fieldValue,
     binAbsent recordValue (name tag) = true ->
     decodeBinsField env recordValue fd fieldValue = Ok (val fieldValue))
  /\ (forall recordValue pt t fds vals i x v' o,
        binAbsent recordValue (name tag) = true ->
        structFields t = Some fds ->
        fds !! i = Some fd -> vals !! i = Some x -> isLeaf x = true ->
        decodeBins env recordValue (VPtr pt (Some (VStruct t vals))) = (v', o) ->
        exists vals', v' = VPtr pt (Some (VStruct t vals')) /\ vals' !! i = Some x)
  /\ (forall record pt t fds vals i x v' o,
        meta tag = false ->
        Bins record !! name tag = None ->
        structFields t = Some fds ->
        fds !! i = Some fd -> vals !! i = Some x -> isLeaf x = true ->
        Decode env (ArgAny (recordPointer record))
               (VPtr pt (Some (VStruct t vals))) = (v', o) ->
        exists vals', v' = VPtr pt (Some (VStruct t vals')) /\ vals' !! i = Some x).
Proof.
  intros Htag Hparse. split; [|split].
  - intros recordValue fieldValue Habs. by eapply decodeBinsField_absent.
  - intros recordValue pt t fds vals i x v' o Habs Ht Hfd Hx Hleaf.
    by eapply decodeBins_frame.
  - intros record pt t fds vals i x v' o Hmeta Hnone Ht Hfd Hx Hleaf.
    rewrite Decode_record.
    destruct (decodeKey env (keyOf record) _) as [v1 o1] eqn:E1.
    unfold decodeKey in E1.
    eapply walkTarget_frame in E1 as (vals1 & -> & Hx1); eauto;
      [|by eapply decodeKeyField_not_meta].
    destruct o1.
    + eapply decodeBins_frame; eauto. by apply binAbsent_binsOf.
    + intros ?; simplify_eq. eauto.
    + intros ?; simplify_eq. eauto.
Qed.

(** ** Claim C10 *)

Lemma CanSet_unexported fl fd x :
  IsExported (Name fd) = false -> CanSet (fieldValueOf fl fd x) = false.
Proof.
  unfold CanSet, fieldValueOf, fieldValueDeref, fieldFlag, flagRO. intros ->.
  destruct (Anonymous fd);
    destruct x as [| | | | | | | |pt [p|]| | | | | | |]; cbn;
    by rewrite ?andb_false_r, ?orb_true_r, ?andb_false_r.
Qed.

Lemma cannotBeChanged_valid fieldValue :
  IsValid fieldValue = true ->
  exists t, typeOf (val fieldValue) = Some t
            /\ cannotBeChanged fieldValue = Err (ErrValueCannotBeChanged t).
Proof.
  unfold IsValid, cannotBeChanged, TypeOfValue.
  destruct (val fieldValue); try done; eauto.
Qed.

(** C10, name by name.  A destination field that cannot be set (an
    unexported field never can) is skipped by the loop body of
    [decodeBins]: no error, nothing written.  The loop body of
    [decodeKey] returns the cannot-be-changed error for such a field
    when it is tagged [meta] with one of [namespace], [set_name],
    [user_key], [digest] (and is not a nil pointer), and the loop body
    of [decodeRecord] returns the cannot-set error when it is tagged
    [meta] with [generation] or [expiration]; the turn of the walk ends
    with that error and leaves the field as it was.  A field tagged
    [meta] with any other name is passed over by [decodeKey] and by
    [decodeRecord], as it is by [decodeBins], and the walk goes on.
    For a destination passed by pointer in which the fields before
    this one are decoded without error, [decodeKey] and [decodeRecord]
    as a whole return that error and leave this field and those after
    it as they were. *)
Theorem unsettable_field_decoding
    (env : GoEnv) (recordValue : RValue) (fd : Field) (fieldValue : RValue)
    (tag : tag) :
  CanSet fieldValue = false ->
  String.eqb (Tag fd) "" = false ->
  parseTag (Tag fd) = Ok tag ->
  (forall fl x, IsExported (Name fd) = false -> CanSet (fieldValueOf fl fd x) = false)
  /\ (forall binValue, MapIndex recordValue (name tag) = Ok binValue ->
      decodeBinsField env recordValue fd fieldValue = Ok (val fieldValue))
  /\ (meta tag = true -> isKeyName (name tag) = true ->
      IsValid fieldValue = true ->
      exists t, typeOf (val fieldValue) = Some t
        /\ decodeKeyField env recordValue fd fieldValue =
             Err (ErrValueCannotBeChanged t)
        /\ leafOf (decodeKeyField env recordValue) fd fieldValue tt =
             (val fieldValue, tt, Failed (ErrValueCannotBeChanged t)))
  /\ (meta tag = true -> isHeaderName (name tag) = true ->
      decodeRecordField env recordValue fd fieldValue = Err (ErrCannotSet (name tag))
      /\ leafOf (decodeRecordField env recordValue) fd fieldValue tt =
           (val fieldValue, tt, Failed (ErrCannotSet (name tag))))
  /\ (forall binValue, MapIndex recordValue (name tag) = Ok binValue ->
      leafOf (decodeBinsField env recordValue) fd fieldValue tt =
        (val fieldValue, tt, Done))
  /\ (meta tag = true -> isKeyName (name tag) = false ->
      decodeKeyField env recordValue fd fieldValue = Ok (val fieldValue)
      /\ leafOf (decodeKeyField env recordValue) fd fieldValue tt =
           (val fieldValue, tt, Done))
  /\ (meta tag = true -> isHeaderName (name tag) = false ->
      decodeRecordField env recordValue fd fieldValue = Ok (val fieldValue)
      /\ leafOf (decodeRecordField env recordValue) fd fieldValue tt =
           (val fieldValue, tt, Done))
  /\ (forall pt t fds1 fds2 vs1 vs1' vs2 x,
        fieldValue = fieldValueOf targetFlag fd x ->
        isLeaf x = true ->
        structFields t = Some (fds1 ++ fd :: fds2) ->
        length fds1 = length vs1 ->
        meta tag = true ->
        (isKeyName (name tag) = true -> IsValid fieldValue = true ->
         walkFields (leafOf (decodeKeyField env recordValue))
                    (walkStruct (leafOf (decodeKeyField env recordValue)))
                    targetFlag fds1 vs1 tt = (vs1', tt, Done) ->
         exists ty, typeOf (val fieldValue) = Some ty
           /\ decodeKey env recordValue
                (VPtr pt (Some (VStruct t (vs1 ++ x :: vs2)))) =
                (VPtr pt (Some (VStruct t (vs1' ++ x :: vs2))),
                 Failed (ErrValueCannotBeChanged ty)))
        /\ (isHeaderName (name tag) = true ->
            walkFields (leafOf (decodeRecordField env recordValue))
                       (walkStruct (leafOf (decodeRecordField env recordValue)))
                       targetFlag fds1 vs1 tt = (vs1', tt, Done) ->
            decodeRecord env recordValue
              (VPtr pt (Some (VStruct t (vs1 ++ x :: vs2)))) =
              (VPtr pt (Some (VStruct t (vs1' ++ x :: vs2))),
               Failed (ErrCannotSet (name tag))))).
Proof.
  intros Hset Htag Hparse.
  assert (Hbins : forall binValue, MapIndex recordValue (name tag) = Ok binValue ->
            decodeBinsField env recordValue fd fieldValue = Ok (val fieldValue)).
  { intros binValue Hb. unfold decodeBinsField. rewrite Htag, Hparse. cbn.
    rewrite Hb. cbn. rewrite Hset. cbn.
    by destruct (String.eqb (name tag) ""), (IsValid binValue). }
  assert (Hkey : meta tag = true -> isKeyName (name tag) = true ->
            IsValid fieldValue = true ->
            exists t, typeOf (val fieldValue) = Some t
              /\ decodeKeyField env recordValue fd fieldValue =
                   Err (ErrValueCannotBeChanged t)).
  { intros Hmeta Hname Hvalid.
    destruct (cannotBeChanged_valid fieldValue Hvalid) as (t & Ht & Hc).
    exists t. split; [exact Ht|].
    unfold decodeKeyField. rewrite Htag, Hparse. cbn. rewrite Hmeta, Hset. cbn.
    unfold isKeyName in Hname. rewrite Hc.
    destruct (String.eqb (name tag) metaTagNamespace); [done|].
    destruct (String.eqb (name tag) metaTagSetName); [done|].
    destruct (String.eqb (name tag) metaTagUserKey); [done|].
    destruct (String.eqb (name tag) metaTagDigest); [done|]. done. }
  assert (Hrec : meta tag = true -> isHeaderName (name tag) = true ->
            decodeRecordField env recordValue fd fieldValue =
              Err (ErrCannotSet (name tag))).
  { intros Hmeta Hname.
    unfold decodeRecordField. rewrite Htag, Hparse. cbn. rewrite Hmeta, Hset. cbn.
    unfold isHeaderName, metaTagGeneration, metaTagExpiration in Hname.
    destruct (String.eqb (name tag) "generation"); [done|].
    destruct (String.eqb (name tag) "expiration"); [done|]. done. }
  split; [|split; [|split; [|split; [|split; [|split; [|split]]]]]].
  - intros fl x. apply CanSet_unexported.
  - exact Hbins.
  - intros Hmeta Hname Hvalid.
    destruct (Hkey Hmeta Hname Hvalid) as (t & Ht & H).
    exists t. split; [exact Ht|]. split; [exact H|]. unfold leafOf. by rewrite H.
  - intros Hmeta Hname. pose proof (Hrec Hmeta Hname) as H.
    split; [exact H|]. unfold leafOf. by rewrite H.
  - intros binValue Hb. unfold leafOf. by rewrite (Hbins _ Hb).
  - intros Hmeta Hname.
    assert (H : decodeKeyField env recordValue fd fieldValue = Ok (val fieldValue)).
    { unfold decodeKeyField. rewrite Htag, Hparse. cbn. rewrite Hmeta. cbn.
      unfold isKeyName in Hname.
      repeat (apply orb_false_iff in Hname as [Hname ?]).
      by repeat match goal with
           | E : String.eqb _ _ = false |- _ => rewrite E; clear E
           end. }
    split; [exact H|]. unfold leafOf. by rewrite H.
  - intros Hmeta Hname.
    assert (H : decodeRecordField env recordValue fd fieldValue = Ok (val fieldValue)).
    { unfold decodeRecordField. rewrite Htag, Hparse. cbn. rewrite Hmeta. cbn.
      unfold isHeaderName, metaTagGeneration, metaTagExpiration in Hname.
      apply orb_false_iff in Hname as [H1 H2]. by rewrite H1, H2. }
    split; [exact H|]. unfold leafOf. by rewrite H.
  - intros pt t fds1 fds2 vs1 vs1' vs2 x Hfv Hleaf Ht Hlen Hmeta. split.
    + intros Hname Hvalid Hpre.
      destruct (Hkey Hmeta Hname Hvalid) as (ty & Hty & H).
      exists ty. split; [exact Hty|]. unfold decodeKey.
      rewrite (walkTarget_pointer _ _ _ _ _ Ht), walkFields_app by done.
      rewrite Hpre. cbn [walkFields]. rewrite walkField_leaf by done.
      unfold leafOf. rewrite <- Hfv, H. cbn. rewrite Hfv. by rewrite rewrap_same.
    + intros Hname Hpre. pose proof (Hrec Hmeta Hname) as H.
      unfold decodeRecord.
      rewrite (walkTarget_pointer _ _ _ _ _ Ht), walkFields_app by done.
      rewrite Hpre. cbn [walkFields]. rewrite walkField_leaf by done.
      unfold leafOf. rewrite <- Hfv, H. cbn. rewrite Hfv. by rewrite rewrap_same.
Qed.

(** ** Claim C5 *)

(** With a [uint32] source, as the generation and expiration of a
    record are: a signed destination panics in [Value.Int]; an unsigned
    destination too narrow for the value panics in [Value.Int] as well,
    while the error is built; an unsigned destination the value fits in
    is assigned the value. *)
Lemma setIntegerValue_uint32_source env fieldValue u fl :
  let recordValue := mkValue (uint32Value u) fl in
  (isIntKind (rKind fieldValue) = true ->
   setIntegerValue env fieldValue recordValue =
     Panic (ValueError "reflect.Value.Int" reflect.Uint32))
  /\ (isUintKind (rKind fieldValue) = true ->
      rKind fieldValue <> reflect.Uintptr ->
      wrapUint (bitSize (rKind fieldValue)) u <> u ->
      setIntegerValue env fieldValue recordValue =
        Panic (ValueError "reflect.Value.Int" reflect.Uint32))
  /\ (forall t x, val fieldValue = VUint t x ->
      isUintKind (typeKind t) = true ->
      typeKind t <> reflect.Uintptr ->
      wrapUint (bitSize (typeKind t)) u = u ->
      CanSet fieldValue = true -> flagRO fl = false ->
      setIntegerValue env fieldValue recordValue = Ok (VUint t u)).
Proof.
  intros recordValue. split; [|split].
  - intros Hk. unfold setIntegerValue.
    destruct (rKind fieldValue); try discriminate; reflexivity.
  - intros Hk Hp Hov. unfold setIntegerValue, OverflowUint.
    apply Z.eqb_neq in Hov.
    destruct (rKind fieldValue) eqn:E; try discriminate; try done;
      cbn; rewrite ?Hov; cbn; try reflexivity; cbn in Hov; by rewrite Hov.
  - intros t x Hv Hk Hp Hfit Hset Hro.
    assert (Hkind : rKind fieldValue = typeKind t).
    { unfold rKind. rewrite Hv. cbn. by rewrite Hk. }
    unfold setIntegerValue, OverflowUint. rewrite Hkind.
    apply Z.eqb_eq in Hfit.
    unfold CanSet in Hset. apply andb_true_iff in Hset as [Ha Hr].
    apply negb_true_iff in Hr.
    assert (Hgo :
      (x0 ← UintOf recordValue;
       overflow ← (if isUintKind (typeKind t)
                   then Ok (negb (wrapUint (bitSize (typeKind t)) x0 =? x0))
                   else Panic (ValueError "reflect.Value.OverflowUint" (typeKind t)));
       if overflow : bool
       then x' ← IntOf recordValue; t0 ← TypeOfValue fieldValue;
            Err (ErrOverflows x' t0)
       else t0 ← TypeOfValue fieldValue;
            c ← Convert env recordValue t0;
            i ← Interface c;
            SetValue fieldValue (ValueOf i)) = Ok (VUint t u)).
    { cbn. rewrite Hk, Hfit. cbn. unfold TypeOfValue. rewrite Hv. cbn.
      unfold Convert. cbn. rewrite Hk.
      assert (Hni : isIntKind (typeKind t) = false)
        by (destruct (typeKind t); try done).
      rewrite Hni. cbn. unfold Interface. cbn. rewrite Hro. cbn.
      unfold SetValue. rewrite Hv, Hr, Ha. cbn.
      unfold assignTo. cbn. unfold directlyAssignable. rewrite typeEqb_refl. cbn.
      apply Z.eqb_eq in Hfit. unfold wrapUint in *. by rewrite Hfit. }
    destruct (typeKind t); try discriminate; try done; exact Hgo.
Qed.

(** ** Claim C1: values of the primitive kinds *)

Lemma primitive_underlying t :
  isPrimitiveKind (typeKind t) = true -> underlying t = TBasic (typeKind t).
Proof.
  unfold typeKind. destruct (underlying t); cbn; try discriminate. reflexivity.
Qed.

Lemma isPrimitiveOf_cases t x :
  isPrimitiveOf t x = true -> primitiveValue t x.
Proof.
  unfold isPrimitiveOf. intros H.
  apply andb_true_iff in H as [H Ht]. apply andb_true_iff in H as [Hp Hk].
  apply kindEqb_eq in Hk.
  destruct x; cbn in Ht; try discriminate;
    apply typeEqb_eq in Ht; subst; cbn in Hk;
    try (rewrite <- Hk in Hp; discriminate).
  - by constructor.
  - constructor. destruct (isIntKind (typeKind t)) eqn:E; [done|].
    rewrite <- Hk in E. discriminate.
  - constructor. destruct (isUintKind (typeKind t)) eqn:E; [done|].
    rewrite <- Hk in E. discriminate.
  - constructor. destruct (isFloatKind (typeKind t)) eqn:E; [done|].
    rewrite <- Hk in E. discriminate.
  - destruct (isComplexKind (typeKind t)) eqn:E.
    + destruct (typeKind t); discriminate.
    + rewrite <- Hk in Hp. discriminate.
  - by constructor.
Qed.

Lemma primitive_kind t x :
  primitiveValue t x ->
  valueKind x = typeKind t /\ typeOf x = Some t /\ x <> VInvalid
  /\ unbox x = x /\ retype t x = x /\ isLeaf x = true
  /\ forall fl, fieldValueDeref (mkValue x fl) = mkValue x fl.
Proof.
  intros []; cbn; repeat split; try done;
    try (by rewrite H);
    unfold isLeaf, derefKind, rKind; cbn; rewrite ?H; try done;
    destruct (typeKind t); try discriminate; done.
Qed.

Lemma isEmptyValue_primitive t x fl :
  primitiveValue t x -> isEmptyValue (mkValue x fl) = Ok (primEmpty x).
Proof.
  intros []; unfold isEmptyValue, rKind; cbn; rewrite ?H; try reflexivity;
    destruct (typeKind t); try discriminate; reflexivity.
Qed.

Lemma zeroValue_primitive t x :
  primitiveValue t x -> primEmpty x = true -> isNegativeZero x = false ->
  x = zeroValue t.
Proof.
  intros Hp He Hn. unfold zeroValue. rewrite zeroAs_underlying.
  assert (Hu : underlying t = TBasic (typeKind t)).
  { apply primitive_underlying. destruct Hp; rewrite ?H; try done;
      destruct (typeKind t); try discriminate; done. }
  rewrite Hu.
  destruct Hp; cbn in He, Hn |- *.
  - rewrite H. by destruct b.
  - apply Z.eqb_eq in He as ->. destruct (typeKind t); try discriminate; done.
  - apply Z.eqb_eq in He as ->. destruct (typeKind t); try discriminate; done.
  - destruct f as [[|]| | |]; try discriminate.
    destruct (typeKind t); try discriminate; done.
  - rewrite H. by destruct s.
Qed.

Lemma zeroValue_primitive_value t :
  isPrimitiveKind (typeKind t) = true -> primitiveValue t (zeroValue t).
Proof.
  intros Hp. unfold zeroValue. rewrite zeroAs_underlying.
  rewrite (primitive_underlying t Hp).
  destruct (typeKind t) eqn:K; try discriminate; cbn;
    constructor; by rewrite K.
Qed.

(** ** Claim C1: the encoder on a struct of primitive bin fields *)

Lemma binNameOf_Some fd n :
  binNameOf fd = Some n ->
  exists tag, String.eqb (Tag fd) "" = false /\ parseTag (Tag fd) = Ok tag
    /\ meta tag = false /\ omit tag = false
    /\ String.eqb (name tag) "" = false /\ name tag = n.
Proof.
  unfold binNameOf. destruct (String.eqb (Tag fd) ""); [done|].
  destruct (parseTag (Tag fd)) as [tag| |]; try done.
  destruct (meta tag) eqn:E1, (omit tag) eqn:E2, (String.eqb (name tag) "") eqn:E3;
    cbn; try done.
  intros ?; simplify_eq. by exists tag.
Qed.

Lemma roundTrips_tagged fd x :
  roundTrips fd x = true -> String.eqb (Tag fd) "" = false ->
  exists n, binNameOf fd = Some n /\ IsExported (Name fd) = true
    /\ primitiveValue (Typ fd) x /\ isNegativeZero x = false.
Proof.
  unfold roundTrips. intros H E. rewrite E in H.
  destruct (binNameOf fd) as [n|]; [|done].
  apply andb_true_iff in H as [H Hn]. apply andb_true_iff in H as [He Hp].
  exists n. repeat split; try done.
  - by apply isPrimitiveOf_cases.
  - by apply negb_true_iff.
Qed.

Lemma roundTrips_untagged fd x :
  roundTrips fd x = true -> String.eqb (Tag fd) "" = true ->
  isLeaf x = true /\ isLeaf (zeroValue (Typ fd)) = true.
Proof. unfold roundTrips. intros H E. rewrite E in H. by apply andb_true_iff in H. Qed.

Lemma roundTrips_leaf fd x : roundTrips fd x = true -> isLeaf x = true.
Proof.
  intros H. destruct (String.eqb (Tag fd) "") eqn:E.
  - by apply roundTrips_untagged in H as [? ?].
  - apply roundTrips_tagged in H as (n & _ & _ & Hp & _); [|done].
    by apply primitive_kind in Hp as (_ & _ & _ & _ & _ & ? & _).
Qed.

Lemma fieldFlag_exported fl fd :
  IsExported (Name fd) = true -> flagRO fl = false ->
  flagRO (fieldFlag fl fd) = false.
Proof.
  unfold fieldFlag, flagRO. intros -> H. cbn.
  apply orb_false_iff in H as [-> _]. done.
Qed.

(** The turn of the loop of [encode] for a tagged field of the round
    trip: the bin is written with the value of the field, or, for an
    empty field under [omitempty], nothing is written. *)
Lemma encode_turn_tagged fd x n fl record :
  binNameOf fd = Some n -> IsExported (Name fd) = true -> flagRO fl = false ->
  primitiveValue (Typ fd) x -> isNegativeZero x = false ->
  encodeField fd (fieldValueOf fl fd x) record = Ok (setBin record n x)
  \/ (encodeField fd (fieldValueOf fl fd x) record = Ok record
      /\ x = zeroValue (Typ fd)).
Proof.
  intros Hn Hexp Hro Hp Hnz.
  destruct (binNameOf_Some fd n Hn) as (tag & Htag & Hparse & Hmeta & Homit & Hname & <-).
  pose proof (primitive_kind _ _ Hp) as (Hk & Ht & Hv & Hu & _ & _ & Hd).
  unfold fieldValueOf. rewrite Hd.
  destruct (encodeField_bin fd (mkValue x (fieldFlag fl fd)) tag record
              Htag Hparse Hmeta Homit Hname) as (H1 & H2 & H3).
  rewrite (isEmptyValue_primitive _ _ _ Hp) in H1, H2, H3.
  destruct (primEmpty x) eqn:He.
  - assert (Hz : x = zeroValue (Typ fd)) by by apply zeroValue_primitive.
    destruct (omitempty tag) eqn:Ho.
    + right. split; [by apply H1|done].
    + left. rewrite H3; [|done|done|by rewrite <- Hz]. by rewrite <- Hz, Hu.
  - left. rewrite H2 by done.
    rewrite Interface_readable; cbn; [by rewrite Hu| |by apply fieldFlag_exported].
    unfold IsValid. cbn. by destruct x.
Qed.

Lemma encode_turn_untagged fd x fl record :
  String.eqb (Tag fd) "" = true ->
  encodeField fd (fieldValueOf fl fd x) record = Ok record.
Proof. unfold encodeField. by intros ->. Qed.

Lemma encodeLeaf_Ok fd fieldValue record r :
  encodeField fd fieldValue record = Ok r ->
  encodeLeaf fd fieldValue record = (val fieldValue, r, Done).
Proof. unfold encodeLeaf. by intros ->. Qed.

Lemma encode_flat_ok fl fds vals record :
  allRoundTrip fds vals = true -> flagRO fl = false ->
  exists r', walkFields encodeLeaf (walkStruct encodeLeaf) fl fds vals record
             = (vals, r', Done).
Proof.
  intros H Hro. revert vals record H.
  induction fds as [|fd fds IH]; intros [|x vals] record H; try done; [by eexists|].
  cbn in H. apply andb_true_iff in H as [Hx Hrest].
  cbn [walkFields]. rewrite walkField_leaf by by eapply roundTrips_leaf.
  assert (exists r1, encodeField fd (fieldValueOf fl fd x) record = Ok r1) as [r1 E].
  { destruct (String.eqb (Tag fd) "") eqn:Et.
    - rewrite encode_turn_untagged by done. eauto.
    - apply roundTrips_tagged in Hx as (n & Hn & He & Hp & Hz); [|done].
      destruct (encode_turn_tagged fd x n fl record Hn He Hro Hp Hz) as [->|[-> _]]; eauto. }
  rewrite (encodeLeaf_Ok _ _ _ _ E). rewrite rewrap_same by by eapply roundTrips_leaf.
  destruct (IH vals r1 Hrest) as [r' ->]. eauto.
Qed.

Lemma allRoundTrip_lookup fds vals i fd x :
  allRoundTrip fds vals = true ->
  fds !! i = Some fd -> vals !! i = Some x -> roundTrips fd x = true.
Proof.
  revert vals i. induction fds as [|f fds IH]; intros [|y vals] [|i] H Hfd Hx;
    try done; cbn in *; apply andb_true_iff in H as [? ?]; simplify_eq; eauto.
Qed.

Lemma allRoundTrip_length fds vals :
  allRoundTrip fds vals = true -> length fds = length vals.
Proof.
  revert vals. induction fds as [|f fds IH]; intros [|y vals] H; try done.
  cbn in *. apply andb_true_iff in H as [? ?]. f_equal. eauto.
Qed.

Lemma allRoundTrip_leaves fds vals :
  allRoundTrip fds vals = true -> Forall (fun y => isLeaf y = true) vals.
Proof.
  revert vals. induction fds as [|f fds IH]; intros [|y vals] H; try done.
  cbn in *. apply andb_true_iff in H as [? ?]. constructor; eauto using roundTrips_leaf.
Qed.

Lemma binNames_others fds1 fd fds2 n :
  NoDup (binNames (fds1 ++ fd :: fds2)) -> binNameOf fd = Some n ->
  Forall (fun fd' => mayWriteBin n fd' = false) (fds1 ++ fds2).
Proof.
  unfold binNames. rewrite omap_app. cbn. intros Hnd Hn. rewrite Hn in Hnd.
  apply NoDup_app in Hnd as (_ & Hdisj & Hnd2).
  apply NoDup_cons in Hnd2 as [Hnotin _].
  apply Forall_app. split; apply Forall_forall; intros fd' Hin;
    unfold mayWriteBin; destruct (binNameOf fd') as [m|] eqn:Em; try done;
    apply String.eqb_neq; intros ->.
  - apply (Hdisj n); [|left]. apply list_elem_of_omap. eauto.
  - apply Hnotin. apply list_elem_of_omap. eauto.
Qed.

(** ** Claim C1: the decoder on the encoded record *)

Lemma zeroValue_struct t fds :
  structFields t = Some fds ->
  zeroValue t = VStruct t (map (fun fd => zeroValue (Typ fd)) fds).
Proof.
  unfold structFields, zeroValue. rewrite zeroAs_underlying.
  destruct (underlying t); try done. intros ?; simplify_eq. reflexivity.
Qed.

Lemma convertElementType_same_type env y t fl :
  primitiveValue t y ->
  convertElementType env (ArgValue (mkValue (anyValue y) fl)) t =
    Ok (mkValue y (ifaceElemFlag fl)).
Proof.
  intros Hp. pose proof (primitive_kind _ _ Hp) as (Hk & Ht & Hv & _).
  unfold convertElementType. rewrite convertElementTypeAt_unfold.
  unfold convertSource, sourceValueOf, rKind, anyValue.
  cbn [val valueKind]. rewrite kindEqb_refl.
  assert (He : Elem (mkValue (VInterface tAny y) fl) = Ok (mkValue y (ifaceElemFlag fl)))
    by (unfold Elem; cbn; by destruct y).
  rewrite He. cbn [mbind Result_bind].
  assert (Hvalid : IsValid (mkValue y (ifaceElemFlag fl)) = true)
    by (unfold IsValid; cbn; by destruct y).
  rewrite Hvalid. cbn [negb val].
  assert (Hnp : kindEqb (valueKind y) reflect.Ptr = false).
  { rewrite Hk. destruct Hp; rewrite ?H; try done;
      destruct (typeKind t); try discriminate; done. }
  rewrite Hnp. cbn [mbind Result_bind].
  unfold convertKind, TypeOfValue. cbn [val]. rewrite Ht. cbn [mbind Result_bind].
  by rewrite typeEqb_refl.
Qed.

Lemma decodeKey_turn_noop env recordValue fd fieldValue :
  (String.eqb (Tag fd) "" = true \/ exists n, binNameOf fd = Some n) ->
  decodeKeyField env recordValue fd fieldValue = Ok (val fieldValue).
Proof.
  intros [H|[n Hn]].
  - unfold decodeKeyField. by rewrite H.
  - destruct (binNameOf_Some fd n Hn) as (tag & _ & Hparse & Hmeta & _).
    by eapply decodeKeyField_not_meta.
Qed.

(** The turn of the loop of [decodeBins] for a fresh exported field of
    a primitive type: the field receives the value stored under its
    bin name, and keeps its zero value when the bin is absent. *)
Lemma decodeBins_turn_fresh env record fd n :
  binNameOf fd = Some n -> IsExported (Name fd) = true ->
  isPrimitiveKind (typeKind (Typ fd)) = true ->
  (forall y, Bins record !! n = Some y -> primitiveValue (Typ fd) y) ->
  decodeBinsField env (binsOf record) fd
                  (fieldValueOf targetFlag fd (zeroValue (Typ fd))) =
    Ok (decodedField (Bins record) fd).
Proof.
  intros Hn Hexp Hprim Hy.
  destruct (binNameOf_Some fd n Hn) as (tag & Htag & Hparse & Hmeta & Homit & Hname & <-).
  pose proof (zeroValue_primitive_value _ Hprim) as Hz.
  pose proof (primitive_kind _ _ Hz) as (_ & Hzt & Hzv & _ & _ & _ & Hd).
  unfold fieldValueOf. rewrite Hd.
  unfold decodedField. rewrite Hn.
  unfold decodeBinsField. rewrite Htag, Hparse. cbn [mbind Result_bind].
  rewrite Hname. unfold binsOf. rewrite MapIndex_binsValue. cbn [mbind Result_bind].
  destruct (Bins record !! name tag) as [y|] eqn:El; [|reflexivity].
  specialize (Hy y eq_refl).
  pose proof (primitive_kind _ _ Hy) as (_ & Hyt & Hyv & _ & Hyr & _).
  cbn [IsValid val anyValue negb default].
  assert (Hset : CanSet (mkValue (zeroValue (Typ fd)) (fieldFlag targetFlag fd)) = true).
  { unfold CanSet. cbn [flags]. rewrite fieldFlag_exported by done.
    unfold fieldFlag. by rewrite Hexp. }
  rewrite Hset. cbn [negb].
  fold (anyValue y). rewrite convertElementType_same_type by done.
  cbn [wrapErr mbind Result_bind].
  unfold CanSet in Hset. apply andb_true_iff in Hset as [Ha Hr].
  apply negb_true_iff in Hr. cbn [flags] in Ha, Hr.
  assert (Hassign : assignTo "reflect.Value.Set" y (Typ fd) = Ok y).
  { unfold assignTo. rewrite Hyt. unfold directlyAssignable.
    rewrite typeEqb_refl. cbn. by rewrite Hyr. }
  unfold SetValue. cbn [val flags]. rewrite Hr, Ha.
  destruct Hz; cbn; exact Hassign.
Qed.

Lemma binNameOf_untagged fd : String.eqb (Tag fd) "" = true -> binNameOf fd = None.
Proof. unfold binNameOf. by intros ->. Qed.

Lemma freshField_leaf record fd :
  freshFieldOk record fd -> isLeaf (zeroValue (Typ fd)) = true.
Proof.
  intros [[_ H]|(n & _ & _ & Hp & _)]; [done|].
  by apply zeroValue_primitive_value, primitive_kind in Hp as (_ & _ & _ & _ & _ & ? & _).
Qed.

Lemma decodeKey_fresh env record recordValue fds :
  Forall (freshFieldOk record) fds ->
  walkFields (leafOf (decodeKeyField env recordValue))
             (walkStruct (leafOf (decodeKeyField env recordValue)))
             targetFlag fds (map (fun fd => zeroValue (Typ fd)) fds) tt =
    (map (fun fd => zeroValue (Typ fd)) fds, tt, Done).
Proof.
  induction 1 as [|fd fds Hfd Hfds IH]; [done|].
  cbn [map walkFields].
  rewrite walkField_body_unchanged; [by rewrite IH|by eapply freshField_leaf|].
  apply decodeKey_turn_noop. destruct Hfd as [[? _]|(n & ? & _)]; eauto.
Qed.

Lemma decodeBins_fresh env record fds :
  Forall (freshFieldOk record) fds ->
  walkFields (leafOf (decodeBinsField env (binsOf record)))
             (walkStruct (leafOf (decodeBinsField env (binsOf record))))
             targetFlag fds (map (fun fd => zeroValue (Typ fd)) fds) tt =
    (map (decodedField (Bins record)) fds, tt, Done).
Proof.
  induction 1 as [|fd fds Hfd Hfds IH]; [done|].
  cbn [map walkFields].
  destruct Hfd as [[Ht Hl]|(n & Hn & Hexp & Hp & Hy)].
  - rewrite walkField_body_unchanged; [|done|].
    + rewrite IH. f_equal. f_equal. f_equal.
      unfold decodedField. by rewrite binNameOf_untagged.
    + unfold decodeBinsField. by rewrite Ht.
  - pose proof (zeroValue_primitive_value _ Hp) as Hz.
    rewrite walkField_leaf
      by by apply primitive_kind in Hz as (_ & _ & _ & _ & _ & ? & _).
    unfold leafOf at 1. rewrite (decodeBins_turn_fresh env record fd n) by done.
    cbn [Outcome_of]. rewrite IH. f_equal. f_equal. f_equal.
    unfold rewrap. by destruct Hz.
Qed.

Lemma primitiveValue_kind t x :
  primitiveValue t x -> isPrimitiveKind (typeKind t) = true.
Proof.
  intros []; rewrite ?H; try done; destruct (typeKind t); try discriminate; done.
Qed.

(** What [Encode] stores for a tagged field of the round trip: the
    value of the field, or nothing when the field is empty under
    [omitempty] (and then the field holds the zero value). *)
Lemma encode_round_trip_lookup t fds vals r i fd x n :
  structFields t = Some fds ->
  allRoundTrip fds vals = true ->
  NoDup (binNames fds) ->
  Encode (VStruct t vals) = Ok r ->
  fds !! i = Some fd -> vals !! i = Some x ->
  binNameOf fd = Some n ->
  primitiveValue (Typ fd) x /\ IsExported (Name fd) = true
  /\ (Bins r !! n = Some x
      \/ (Bins r !! n = None /\ x = zeroValue (Typ fd))).
Proof.
  intros Ht Hall Hnd HE Hfd Hx Hn.
  pose proof (allRoundTrip_lookup _ _ _ _ _ Hall Hfd Hx) as Hrt.
  destruct (binNameOf_Some fd n Hn) as (tag & Htag & Hparse & Hmeta & Homit & Hname & <-).
  apply roundTrips_tagged in Hrt as (n' & Hn' & Hexp & Hp & Hnz); [|done].
  split; [done|]. split; [done|].
  pose proof (primitive_kind _ _ Hp) as (_ & _ & Hv & Hu & _ & _ & Hd).
  rewrite <- (take_drop_middle fds i fd Hfd) in Ht, Hnd.
  pose proof (allRoundTrip_leaves _ _ Hall) as Hleaves.
  pose proof (allRoundTrip_length _ _ Hall) as Hlen.
  rewrite <- (take_drop_middle vals i x Hx) in HE, Hleaves.
  assert (Hlen' : length (take i fds) = length (take i vals))
    by (rewrite !length_take, Hlen; reflexivity).
  pose proof (encode_flat_bin_lookup fd x tag t (take i fds) (drop (S i) fds)
                (take i vals) (drop (S i) vals) _ noFlag r
                Htag Hparse Hmeta Homit Hname (structValue_struct _ _) Ht
                Hlen' Hleaves
                (binNames_others _ _ _ _ Hnd Hn) HE) as (H1 & H2 & H3).
  unfold fieldValueOf in H1, H2, H3. rewrite Hd in H1, H2, H3.
  rewrite (isEmptyValue_primitive _ _ _ Hp) in H1, H2, H3. cbn [val] in H2.
  destruct (primEmpty x) eqn:He.
  - assert (Hz : x = zeroValue (Typ fd)) by by apply zeroValue_primitive.
    destruct (omitempty tag) eqn:Ho.
    + right. split; [by apply H1|done].
    + left. rewrite H3; [|done|done|by rewrite <- Hz]. by rewrite <- Hz, Hu.
  - left. rewrite H2 by done. by rewrite Hu.
Qed.

Lemma decodedField_round_trip bins fd n x :
  binNameOf fd = Some n ->
  (bins !! n = Some x \/ (bins !! n = None /\ x = zeroValue (Typ fd))) ->
  decodedField bins fd = x.
Proof.
  unfold decodedField. intros -> [->|[-> ->]]; reflexivity.
Qed.

(** C1, for distinct bin names.  For a struct whose tagged fields are
    exported
    plain bin fields (a bin name, no [meta], no [omit]) of primitive
    types with pairwise distinct bin names, none holding a negative
    zero, and whose other fields are untagged leaves: [Encode] returns
    a record, [Decode] of that record into a fresh struct of the same
    type returns no error, and every tagged field of the result holds
    the value it holds in the source. *)
Theorem encode_decode_round_trip
    (env : GoEnv) (t : GoType) (fds : list Field) (vals : list GoValue) :
  structFields t = Some fds ->
  allRoundTrip fds vals = true ->
  NoDup (binNames fds) ->
  exists r vals',
    Encode (VStruct t vals) = Ok r
    /\ Decode env (ArgAny (recordPointer r)) (freshPointer t) =
         (VPtr (TPtr t) (Some (VStruct t vals')), Done)
    /\ forall i fd x,
         fds !! i = Some fd -> vals !! i = Some x ->
         String.eqb (Tag fd) "" = false ->
         vals' !! i = Some x.
Proof.
  intros Ht Hall Hnd.
  assert (exists r, Encode (VStruct t vals) = Ok r) as [r HE].
  { unfold Encode, encode. rewrite structValue_struct.
    cbn [mbind Result_bind val flags ValueOf].
    rewrite (walkStruct_unfold _ _ _ _ _ _ Ht).
    destruct (encode_flat_ok noFlag fds vals newRecord Hall eq_refl) as [r' ->].
    by exists r'. }
  pose proof (allRoundTrip_length _ _ Hall) as Hlen.
  assert (Hfresh : Forall (freshFieldOk r) fds).
  { apply Forall_lookup. intros i fd Hfd.
    destruct (lookup_lt_is_Some_2 vals i) as [x Hx];
      [rewrite <- Hlen; by eapply lookup_lt_Some|].
    pose proof (allRoundTrip_lookup _ _ _ _ _ Hall Hfd Hx) as Hrt.
    destruct (String.eqb (Tag fd) "") eqn:Et.
    - left. split; [done|]. by apply roundTrips_untagged in Hrt as [_ ?].
    - right. apply roundTrips_tagged in Hrt as (n & Hn & Hexp & Hp & Hnz); [|done].
      exists n. split; [done|]. split; [done|].
      split; [by eapply primitiveValue_kind|].
      intros y Hy.
      destruct (encode_round_trip_lookup t fds vals r i fd x n Ht Hall Hnd HE Hfd Hx Hn)
        as (_ & _ & [Hs|[Hnone _]]); congruence. }
  exists r, (map (decodedField (Bins r)) fds). split; [exact HE|]. split.
  - rewrite Decode_record. unfold decodeKey, freshPointer.
    rewrite (zeroValue_struct _ _ Ht).
    rewrite (walkTarget_pointer _ _ _ _ _ Ht), (decodeKey_fresh env r) by done.
    unfold decodeBins.
    change (kindEqb (rKind (binsOf r)) reflect.Map) with true. cbn [negb].
    by rewrite (walkTarget_pointer _ _ _ _ _ Ht), decodeBins_fresh.
  - intros i fd x Hfd Hx Et.
    change (map (decodedField (Bins r)) fds) with (decodedField (Bins r) <$> fds).
    rewrite list_lookup_fmap. unfold Field in *. rewrite Hfd. cbn. f_equal.
    pose proof (allRoundTrip_lookup _ _ _ _ _ Hall Hfd Hx) as Hrt.
    apply roundTrips_tagged in Hrt as (n & Hn & _); [|done].
    eapply decodedField_round_trip; [done|].
    by destruct (encode_round_trip_lookup t fds vals r i fd x n Ht Hall Hnd HE Hfd Hx Hn)
      as (_ & _ & ?).
Qed.

(** ** parseTag *)

(** With no name recorded so far and only reserved or empty tokens left,
    [parseParts] succeeds, switches on the flags it meets and keeps the
    name empty. *)
Lemma parseParts_no_name tagString parts parsed :
  name parsed = "" ->
  forallb (fun part => isReserved part || String.eqb part "") (map TrimSpace parts) = true ->
  parseParts tagString parts parsed =
    Ok (mkTag (meta parsed || existsb (fun part => String.eqb part tagValueMeta) (map TrimSpace parts))
              (omit parsed || existsb (fun part => String.eqb part tagValueOmit) (map TrimSpace parts))
              (omitempty parsed || existsb (fun part => String.eqb part tagValueOmitempty) (map TrimSpace parts))
              "").
Proof.
  revert parsed. induction parts as [|p rest IH]; intros parsed Hn Hall.
  - simpl. rewrite !orb_false_r. destruct parsed; simpl in *; by subst.
  - cbn [map forallb] in Hall. apply andb_true_iff in Hall as [Hp Hrest].
    cbn [parseParts existsb map]. unfold isReserved in Hp.
    set (tp := TrimSpace p) in *. clearbody tp.
    destruct (String.eqb_spec tp tagValueMeta) as [E1|E1].
    { subst tp. rewrite IH by done. cbn. by rewrite !orb_true_r. }
    destruct (String.eqb_spec tp tagValueOmitempty) as [E2|E2].
    { subst tp. rewrite IH by done. cbn. by rewrite !orb_true_r. }
    destruct (String.eqb_spec tp tagValueOmit) as [E3|E3].
    { subst tp. rewrite IH by done. cbn. by rewrite !orb_true_r. }
    apply String.eqb_neq in E1, E2, E3. rewrite ?E1, ?E2, ?E3 in Hp.
    simpl in Hp. apply String.eqb_eq in Hp. subst tp.
    rewrite Hn. cbn [String.eqb]. rewrite IH by done. done.
Qed.

(** C4. For every tag string whose trimmed tokens are all reserved words
    (or empty) and include [meta], [parseTag] returns a directive with the
    metadata flag cleared and the name set to the literal string "meta":
    the field is an ordinary bin named "meta".  The [omit] and [omitempty]
    flags are set exactly when the respective token occurs. *)
Theorem parseTag_lone_meta (tagString : string) :
  forallb (fun part => isReserved part || String.eqb part "") (tokens tagString) = true ->
  existsb (fun part => String.eqb part tagValueMeta) (tokens tagString) = true ->
  parseTag tagString =
    Ok (mkTag false
              (existsb (fun part => String.eqb part tagValueOmit) (tokens tagString))
              (existsb (fun part => String.eqb part tagValueOmitempty) (tokens tagString))
              "meta").
Proof.
  unfold tokens. intros Hall Hmeta.
  unfold parseTag. rewrite parseParts_no_name by done.
  cbn. rewrite Hmeta. done.
Qed.

(** ** The depth of convertElementType *)

Lemma typeDepth_underlying t : typeDepth (underlying t) = typeDepth t.
Proof. induction t; cbn; auto. Qed.

Lemma noEmbedded_underlying t : noEmbedded (underlying t) = noEmbedded t.
Proof. induction t; cbn; auto. Qed.

Lemma typeElem_depth t e :
  typeElem t = Some e ->
  (typeDepth e < typeDepth t)%nat /\ (noEmbedded t = true -> noEmbedded e = true).
Proof.
  unfold typeElem. rewrite <- (typeDepth_underlying t), <- (noEmbedded_underlying t).
  destruct (underlying t); intros ?; simplify_eq; cbn; split; try lia; auto.
  intros H. by apply andb_true_iff in H as [_ ?].
Qed.

Lemma typeKey_depth t k :
  typeKey t = Some k ->
  (typeDepth k < typeDepth t)%nat /\ (noEmbedded t = true -> noEmbedded k = true).
Proof.
  unfold typeKey. rewrite <- (typeDepth_underlying t), <- (noEmbedded_underlying t).
  destruct (underlying t); intros ?; simplify_eq; cbn; split; try lia.
  intros H. by apply andb_true_iff in H as [? _].
Qed.

Lemma structFields_depth t fds :
  structFields t = Some fds ->
  noEmbedded t = true ->
  existsb Anonymous fds = false
  /\ forall fd, In fd fds ->
       (typeDepth (Typ fd) < typeDepth t)%nat /\ noEmbedded (Typ fd) = true.
Proof.
  unfold structFields.
  rewrite <- (typeDepth_underlying t), <- (noEmbedded_underlying t).
  destruct (underlying t); intros ?; simplify_eq. cbn. clear t.
  induction fds as [|f r IH]; cbn; intros H; [split; [done|intros ? []]|].
  apply andb_true_iff in H as [H Hr]. apply andb_true_iff in H as [Ha Hf].
  destruct (IH Hr) as [IH1 IH2]. apply negb_true_iff in Ha. rewrite Ha, IH1.
  split; [done|]. intros fd [<-|Hin]; [split; [lia|done]|].
  destruct (IH2 fd Hin). split; [lia|done].
Qed.

Lemma assignTo_typeOf method x dst y :
  assignTo method x dst = Ok y -> typeOf y = Some dst.
Proof.
  unfold assignTo. destruct (typeOf x) as [V|] eqn:E; [|done].
  destruct (directlyAssignable dst V).
  - intros ?; simplify_eq. by destruct x.
  - destruct (kindEqb _ _); intros ?; by simplify_eq.
Qed.

Lemma SetValue_typeOf v x y :
  SetValue v x = Ok y -> typeOf y = typeOf (val v).
Proof.
  unfold SetValue.
  destruct (val v) eqn:E; try done;
    repeat (case_match; try done); simplify_eq; cbn;
    intros Hset; by apply assignTo_typeOf in Hset.
Qed.

Lemma directField_lookup fds n k i :
  directField fds n k = Some i ->
  exists j, i = (k + j)%nat /\ is_Some (fds !! j).
Proof.
  revert k. induction fds as [|fd r IH]; intros k; cbn; [done|].
  destruct (String.eqb (Name fd) n).
  - intros ?; simplify_eq. exists 0%nat. split; [lia|]. by eexists.
  - intros H. apply IH in H as (j & -> & Hj). exists (S j). split; [lia|done].
Qed.

Lemma FieldIndexByName_direct env t fds n index :
  structFields t = Some fds ->
  existsb Anonymous fds = false ->
  FieldIndexByName env t n = Some index ->
  exists i, index = [i] /\ is_Some (fds !! i).
Proof.
  unfold FieldIndexByName. intros -> Ha.
  destruct (String.eqb n ""); [done|].
  destruct (directField fds n 0) as [i|] eqn:E.
  - intros ?; simplify_eq. apply directField_lookup in E as (j & -> & Hj).
    by exists j.
  - by rewrite Ha.
Qed.

Lemma fieldsTyped_insert fds vs i fd x :
  fieldsTyped fds vs ->
  fds !! i = Some fd ->
  typeOf x = Some (Typ fd) ->
  fieldsTyped fds (<[i := x]> vs).
Proof.
  unfold fieldsTyped. intros H. revert i.
  induction H as [|fd' y fds vs Hy H IH]; intros [|i] Hfd Hx; cbn in *;
    simplify_eq; constructor; auto.
Qed.

Lemma fieldsTyped_lookup fds vs i fd x :
  fieldsTyped fds vs ->
  fds !! i = Some fd -> vs !! i = Some x ->
  typeOf x = Some (Typ fd) \/ x = VInvalid.
Proof.
  unfold fieldsTyped. intros H. revert i.
  induction H as [|fd' y fds vs Hy H IH]; intros [|i] Hfd Hx; cbn in *;
    simplify_eq; eauto.
Qed.

Lemma zeroAs_typeOf orig t :
  typeOf (zeroAs orig t) = Some orig \/ zeroAs orig t = VInvalid.
Proof.
  induction t; cbn; auto. destruct k; cbn; auto.
Qed.

Lemma zeroValue_fieldsTyped t fds :
  structFields t = Some fds ->
  exists vs, zeroValue t = VStruct t vs /\ fieldsTyped fds vs.
Proof.
  unfold zeroValue, structFields. generalize t at 2 4 as orig.
  induction t; intros orig ?; cbn in *; simplify_eq; eauto.
  eexists. split; [reflexivity|].
  unfold fieldsTyped. clear. induction fds as [|f r IH]; constructor; [|exact IH].
  apply zeroAs_typeOf.
Qed.

(** The loop of [copyStruct] asks for conversions to the types of the
    fields of the target struct, and to those only. *)
Lemma copyFields_ext env conv1 conv2 targetType tfds fl fds vs tvs :
  structFields targetType = Some tfds ->
  existsb Anonymous tfds = false ->
  (forall a i fd, tfds !! i = Some fd -> conv1 a (Typ fd) = conv2 a (Typ fd)) ->
  fieldsTyped tfds tvs ->
  copyFields env conv1 targetType fl fds vs (VStruct targetType tvs) =
    copyFields env conv2 targetType fl fds vs (VStruct targetType tvs).
Proof.
  intros Ht Ha Hconv. revert vs tvs.
  induction fds as [|sf fds IH]; intros [|x vs] tvs Hty; cbn [copyFields]; try done.
  destruct (parseTag (Tag sf)) as [tag|e|p]; cbn [mbind Result_bind]; try done.
  destruct (FieldIndexByName env targetType _) as [index|] eqn:E; [|by apply IH].
  apply (FieldIndexByName_direct _ _ _ _ _ Ht Ha) in E as (i & -> & [tfd Hi]).
  cbn [FieldByIndex mbind Result_bind]. unfold FieldAt. cbn [val flags].
  rewrite Ht, Hi.
  destruct (tvs !! i) as [old|] eqn:Eo; cbn [mbind Result_bind]; [|done].
  destruct (fieldsTyped_lookup _ _ _ _ _ Hty Hi Eo) as [Hold| ->];
    [|cbn; by apply IH].
  destruct (negb (IsValid _) || negb (CanSet _)); [by apply IH|].
  destruct (Interface _) as [src|e|p]; cbn [mbind Result_bind]; try done.
  unfold TypeOfValue. cbn [val]. rewrite Hold. cbn [mbind Result_bind].
  rewrite (Hconv _ _ _ Hi).
  destruct (conv2 _ _) as [cv|e|p]; cbn [wrapErr mbind Result_bind]; try done.
  destruct (SetValue _ cv) as [x'|e|p] eqn:ES; cbn [mbind Result_bind]; try done.
  cbn [updateAt]. rewrite Eo. apply IH.
  apply (fieldsTyped_insert _ _ _ tfd); [done|done|].
  apply SetValue_typeOf in ES. by rewrite ES.
Qed.

Lemma copyFields_no_fields env conv1 conv2 targetType fl fds vs target :
  structFields targetType = None ->
  copyFields env conv1 targetType fl fds vs target =
    copyFields env conv2 targetType fl fds vs target.
Proof.
  intros Ht. revert vs target.
  induction fds as [|sf fds IH]; intros [|x vs] target; cbn [copyFields]; try done.
  destruct (parseTag (Tag sf)) as [tag|e|p]; cbn [mbind Result_bind]; try done.
  unfold FieldIndexByName. rewrite Ht. apply IH.
Qed.

Lemma copyStructWith_ext env conv1 conv2 source targetType :
  (forall fds, structFields targetType = Some fds ->
     existsb Anonymous fds = false
     /\ forall a i fd, fds !! i = Some fd -> conv1 a (Typ fd) = conv2 a (Typ fd)) ->
  copyStructWith env conv1 source targetType =
    copyStructWith env conv2 source targetType.
Proof.
  intros H. unfold copyStructWith.
  destruct (if kindEqb _ _ then _ else _) as [sv|e|p]; cbn [mbind Result_bind]; try done.
  destruct (if kindEqb _ _ then _ else _) as [sv'|e|p]; cbn [mbind Result_bind]; try done.
  destruct (TypeOfValue sv') as [st|e|p]; cbn [mbind Result_bind]; try done.
  destruct (_ || _); [done|].
  destruct (val sv'); try done. destruct (structFields st) as [sfds|]; [|done].
  destruct (structFields targetType) as [tfds|] eqn:Ht.
  - destruct (H _ eq_refl) as [Ha Hconv].
    destruct (zeroValue_fieldsTyped _ _ Ht) as (tvs & -> & Hty).
    by eapply copyFields_ext.
  - by apply copyFields_no_fields.
Qed.

Lemma convertEntries_ext conv1 conv2 keyType elementType roFlag entries newMap :
  (forall a, conv1 a keyType = conv2 a keyType) ->
  (forall a, conv1 a elementType = conv2 a elementType) ->
  convertEntries conv1 keyType elementType roFlag entries newMap =
    convertEntries conv2 keyType elementType roFlag entries newMap.
Proof.
  intros Hk He. revert newMap.
  induction entries as [|[k e] rest IH]; intros newMap; cbn [convertEntries]; [done|].
  destruct (Interface (mkValue k roFlag)) as [ksrc|?|?];
    cbn [mbind Result_bind]; try done.
  rewrite Hk. destruct (conv2 _ keyType) as [ck|?|?];
    cbn [wrapErr mbind Result_bind]; try done.
  destruct (Interface (mkValue e roFlag)) as [esrc|?|?];
    cbn [mbind Result_bind]; try done.
  rewrite He. destruct (conv2 _ elementType) as [ce|?|?];
    cbn [wrapErr mbind Result_bind]; try done.
  destruct (if flagRO (flags ck) then _ else _) as [k'|?|?];
    cbn [mbind Result_bind]; try done.
  destruct (if flagRO (flags ce) then _ else _) as [e'|?|?];
    cbn [mbind Result_bind]; try done.
Qed.

Lemma forEach_ext {A B} (f g : nat -> A -> Result B) i l :
  (forall i x, f i x = g i x) -> forEach f i l = forEach g i l.
Proof.
  intros H. revert i. induction l as [|x r IH]; intros i; cbn; [done|].
  by rewrite H, IH.
Qed.

(** The body of [convertElementType] asks for conversions to the
    components of its target type, and to those only. *)
Lemma convertKind_ext env conv1 conv2 source sourceValue targetType :
  (forall a e, typeElem targetType = Some e -> conv1 a e = conv2 a e) ->
  (forall a k, typeKey targetType = Some k -> conv1 a k = conv2 a k) ->
  (forall fds, structFields targetType = Some fds ->
     existsb Anonymous fds = false
     /\ forall a i fd, fds !! i = Some fd -> conv1 a (Typ fd) = conv2 a (Typ fd)) ->
  convertKind env conv1 source sourceValue targetType =
    convertKind env conv2 source sourceValue targetType.
Proof.
  intros He Hk Hs. unfold convertKind.
  destruct (TypeOfValue sourceValue) as [st|?|?]; cbn [mbind Result_bind]; try done.
  destruct (typeEqb st targetType); [done|].
  destruct (typeKind targetType); try reflexivity.
  - destruct (val sourceValue); try done.
    destruct (typeKey targetType) as [kt|] eqn:Ek; [|done].
    destruct (typeElem targetType) as [et|] eqn:Ee; [|done].
    rewrite (convertEntries_ext conv1 conv2); [done|intros; by apply Hk|intros; by apply He].
  - destruct (typeElem targetType) as [et|] eqn:Ee; [|done].
    rewrite (He source et) by done. done.
  - destruct (val sourceValue); try done.
    destruct (typeElem targetType) as [et|] eqn:Ee; [|done].
    f_equal. apply forEach_ext. intros i x.
    destruct (Interface _); cbn [mbind Result_bind]; try done.
    rewrite (He _ et) by done. done.
  - destruct (String.eqb (typeString targetType) timeType); [done|].
    by rewrite (copyStructWith_ext env conv1 conv2).
Qed.

(** The depth [convertElementType] starts from is enough: for a target
    type that embeds no field, any greater depth gives the same
    result, so the bound is never what ends a conversion. *)
Lemma convertElementTypeAt_stable env d1 :
  forall d2 source targetType,
    noEmbedded targetType = true ->
    (typeDepth targetType <= d1)%nat -> (typeDepth targetType <= d2)%nat ->
    convertElementTypeAt env d1 source targetType =
      convertElementTypeAt env d2 source targetType.
Proof.
  induction d1 as [|d1 IH]; intros d2 source t Hne H1 H2;
    rewrite !(convertElementTypeAt_unfold env _ source t);
    destruct (convertSource source t) as [[result|sourceValue]|?|?];
    cbn [mbind Result_bind]; try done;
    apply convertKind_ext.
  - intros a e He. apply typeElem_depth in He as [? _]. lia.
  - intros a k Hk. apply typeKey_depth in Hk as [? _]. lia.
  - intros fds Hs. destruct (structFields_depth _ _ Hs Hne) as [Ha Hd].
    split; [done|]. intros a i fd Hi.
    apply list_elem_of_lookup_2, list_elem_of_In, Hd in Hi as [? _]. lia.
  - intros a e He. apply typeElem_depth in He as [? Hn].
    destruct d2; [lia|]. apply IH; [by apply Hn|lia|lia].
  - intros a k Hk. apply typeKey_depth in Hk as [? Hn].
    destruct d2; [lia|]. apply IH; [by apply Hn|lia|lia].
  - intros fds Hs. destruct (structFields_depth _ _ Hs Hne) as [Ha Hd].
    split; [done|]. intros a i fd Hi.
    apply list_elem_of_lookup_2, list_elem_of_In, Hd in Hi as [? Hn].
    destruct d2; [lia|]. apply IH; [done|lia|lia].
Qed.

Lemma convertElementTypeAt_depth env depth source targetType :
  noEmbedded targetType = true ->
  (typeDepth targetType <= depth)%nat ->
  convertElementTypeAt env depth source targetType =
    convertElementType env source targetType.
Proof. intros Hne Hd. unfold convertElementType. by apply convertElementTypeAt_stable. Qed.

(** ** Instances and counterexamples *)

Lemma encode_decode_round_trip_witness :
  exists r vals',
    Encode (VStruct tItem2 item2Values) = Ok r
    /\ Decode plainEnv (ArgAny (recordPointer r)) (freshPointer tItem2) =
         (VPtr (TPtr tItem2) (Some (VStruct tItem2 vals')), Done)
    /\ forall i fd x,
         item2Fields !! i = Some fd -> item2Values !! i = Some x ->
         String.eqb (Tag fd) "" = false ->
         vals' !! i = Some x.
Proof.
  apply (encode_decode_round_trip plainEnv tItem2 item2Fields item2Values).
  - reflexivity.
  - vm_compute. reflexivity.
  - apply (bool_decide_unpack _). vm_compute. reflexivity.
Defined.

(** C1, as stated, fails when two fields share a bin name: both are
    exported plain bin fields of type [int], [Encode] and [Decode]
    succeed, and the first field comes back with the value of the
    second. *)
Lemma round_trip_fails_on_shared_bin_name :
  allRoundTrip sharedBinFields sharedBinValues = true
  /\ exists r,
       Encode (VStruct tSharedBin sharedBinValues) = Ok r
       /\ Decode plainEnv (ArgAny (recordPointer r)) (freshPointer tSharedBin) =
            (VPtr (TPtr tSharedBin)
                  (Some (VStruct tSharedBin [VInt tInt 2; VInt tInt 2])), Done)
       /\ sharedBinValues !! 0%nat = Some (VInt tInt 1).
Proof.
  split; [vm_compute; reflexivity|].
  eexists. split; [vm_compute; reflexivity|].
  split; [vm_compute; reflexivity|reflexivity].
Qed.

(** C5.  The generation and the expiration of a record are [uint32]
    values, and [setIntegerValue] reads them with [Value.Int]: for a
    destination of a signed kind it panics, whatever the value; for a
    destination of an unsigned kind too narrow for the value it panics
    as well, while the overflow error is built; only a destination of
    an unsigned kind the value fits in is assigned the value.  So
    [Decode] of a record with generation 3 into a field [Gen int8]
    panics, as does [Decode] of generation 300 into a field
    [Gen uint8], while generation 3 is assigned to a field
    [Gen uint8]. *)
Theorem decode_generation_into_signed_panics (env : GoEnv) :
  (forall fieldValue u fl,
     isIntKind (rKind fieldValue) = true ->
     setIntegerValue env fieldValue (mkValue (uint32Value u) fl) =
       Panic (ValueError "reflect.Value.Int" reflect.Uint32))
  /\ (forall fieldValue u fl,
        isUintKind (rKind fieldValue) = true ->
        rKind fieldValue <> reflect.Uintptr ->
        wrapUint (bitSize (rKind fieldValue)) u <> u ->
        setIntegerValue env fieldValue (mkValue (uint32Value u) fl) =
          Panic (ValueError "reflect.Value.Int" reflect.Uint32))
  /\ (forall fieldValue u fl t x,
        val fieldValue = VUint t x ->
        isUintKind (typeKind t) = true ->
        typeKind t <> reflect.Uintptr ->
        wrapUint (bitSize (typeKind t)) u = u ->
        CanSet fieldValue = true -> flagRO fl = false ->
        setIntegerValue env fieldValue (mkValue (uint32Value u) fl) =
          Ok (VUint t u))
  /\ Decode env (ArgAny (clientRecord 3)) (freshPointer tGenInt8) =
       (freshPointer tGenInt8,
        Panicked (ValueError "reflect.Value.Int" reflect.Uint32))
  /\ Decode env (ArgAny (clientRecord 300)) (freshPointer tGenUint8) =
       (freshPointer tGenUint8,
        Panicked (ValueError "reflect.Value.Int" reflect.Uint32))
  /\ Decode env (ArgAny (clientRecord 3)) (freshPointer tGenUint8) =
       (VPtr (TPtr tGenUint8) (Some (VStruct tGenUint8 [VUint tUint8 3])), Done).
Proof.
  split; [|split; [|split]].
  - intros fieldValue u fl.
    exact (proj1 (setIntegerValue_uint32_source env fieldValue u fl)).
  - intros fieldValue u fl.
    exact (proj1 (proj2 (setIntegerValue_uint32_source env fieldValue u fl))).
  - intros fieldValue u fl.
    exact (proj2 (proj2 (setIntegerValue_uint32_source env fieldValue u fl))).
  - repeat split; vm_compute; reflexivity.
Qed.

Lemma encode_omit_never_in_bins_witness :
  exists r r',
    encode (ArgAny (VStruct (TStruct [lengthField; labelField])
                            [VInt tInt 10; VString tString "label1"]))
           newRecord = Ok r
    /\ encode (ArgAny (VStruct (TStruct [lengthField]) [VInt tInt 10])) newRecord
         = Ok r'
    /\ Bins r' = Bins r /\ Bins r !! "label" = None.
Proof.
  eexists.
  assert (exists r',
            encode (ArgAny (VStruct (TStruct [lengthField]) [VInt tInt 10]))
                   newRecord = Ok r'
            /\ Bins r' = Bins (setBin newRecord "length" (VInt tInt 10)))
    as (r' & Hr' & HB).
  { apply (proj1 (proj2 (encode_omit_never_in_bins labelField
             (VString tString "label1") (mkTag false true false "label")
             (TStruct [lengthField; labelField]) (TStruct [lengthField])
             [lengthField] [] [VInt tInt 10] [] newRecord
             eq_refl eq_refl eq_refl eq_refl eq_refl eq_refl eq_refl)));
      vm_compute; reflexivity. }
  exists r'. split; [vm_compute; reflexivity|].
  split; [exact Hr'|]. split; [exact HB|]. vm_compute. reflexivity.
Defined.

Lemma Decode_invalid_source_errors_witness :
  Decode plainEnv (ArgAny (VInt tInt 1)) (freshPointer tItem2) =
    (freshPointer tItem2, Failed ErrInvalidSourceType)
  /\ Decode plainEnv (ArgAny (VStruct tItem2 item2Values)) (freshPointer tItem2) =
       (freshPointer tItem2, Failed ErrInvalidSource).
Proof.
  split.
  - apply (proj1 (Decode_invalid_source_errors plainEnv (VInt tInt 1)
                    (freshPointer tItem2))).
    reflexivity.
  - apply (proj2 (Decode_invalid_source_errors plainEnv
                    (VStruct tItem2 item2Values) (freshPointer tItem2))
                 [CaseNone; CaseNone; CaseNone]);
      reflexivity.
Defined.

(** C6, as stated, fails for a source that exposes a key and none of
    the four record components: [Decode] returns the error of key
    decoding, not [ErrInvalidSource]. *)
Lemma Decode_key_only_source_other_error :
  structShaped keyOnlySource = true
  /\ (exists cases, sourceCases keyOnlySource = Some cases
                    /\ existsb isRecordComponent cases = false)
  /\ Decode plainEnv (ArgAny keyOnlySource) (freshPointer tNamespaceOnly) =
       (freshPointer tNamespaceOnly,
        Failed (ErrOnType (TStruct [])
                  (ErrMethodNotFound "Namespace" (TStruct [])))).
Proof.
  split; [reflexivity|]. split; [by exists [CaseKey]|].
  vm_compute. reflexivity.
Qed.

Lemma convertElementType_absent_or_nil_source_witness :
  convertElementType plainEnv (ArgAny (VPtr (TPtr tInt) None)) (TPtr tString) =
    Ok (Zero (TPtr tString)).
Proof.
  refine (proj1 (proj2 (convertElementType_absent_or_nil_source plainEnv
            (ArgAny (VPtr (TPtr tInt) None)) (TPtr tString)
            (ValueOf (VPtr (TPtr tInt) None)) _)) (TPtr tInt) _);
    reflexivity.
Defined.

Lemma decode_absent_bin_leaves_field_witness :
  decodeBinsField plainEnv (binsOf newRecord) lengthField
    (fieldValueOf targetFlag lengthField (VInt tInt 7)) = Ok (VInt tInt 7).
Proof.
  apply (proj1 (decode_absent_bin_leaves_field plainEnv lengthField
                  (mkTag false false false "length") eq_refl eq_refl)
               (binsOf newRecord)
               (fieldValueOf targetFlag lengthField (VInt tInt 7))).
  vm_compute. reflexivity.
Defined.

Lemma encode_unknown_metadata_name_skipped_witness :
  encode (ArgAny (VStruct (TStruct [lengthField; extraField])
                          [VInt tInt 10; VString tString "e"])) newRecord =
    encode (ArgAny (VStruct (TStruct [lengthField]) [VInt tInt 10])) newRecord.
Proof.
  apply (encode_unknown_metadata_name_skipped extraField (VString tString "e")
           (mkTag true false false "extra")
           (TStruct [lengthField; extraField]) (TStruct [lengthField])
           [lengthField] [] [VInt tInt 10] [] newRecord);
    reflexivity.
Defined.

Lemma unsettable_field_decoding_witness :
  decodeKeyField plainEnv (keyOf newRecord) unexportedNamespace
    (fieldValueOf targetFlag unexportedNamespace (VString tString "")) =
    Err (ErrValueCannotBeChanged tString)
  /\ decodeKey plainEnv (keyOf newRecord)
       (VPtr (TPtr (TStruct [lengthField; unexportedNamespace]))
             (Some (VStruct (TStruct [lengthField; unexportedNamespace])
                            [VInt tInt 7; VString tString ""]))) =
       (VPtr (TPtr (TStruct [lengthField; unexportedNamespace]))
             (Some (VStruct (TStruct [lengthField; unexportedNamespace])
                            [VInt tInt 7; VString tString ""])),
        Failed (ErrValueCannotBeChanged tString)).
Proof.
  pose proof (unsettable_field_decoding plainEnv
                (keyOf newRecord) unexportedNamespace
                (fieldValueOf targetFlag unexportedNamespace (VString tString ""))
                (mkTag true false false "namespace") eq_refl eq_refl eq_refl)
    as (_ & _ & Hbody & _ & _ & _ & _ & Hwhole).
  split.
  - destruct (Hbody eq_refl eq_refl eq_refl) as (t & Ht & H & _).
    injection Ht as <-. exact H.
  - destruct (proj1 (Hwhole (TPtr (TStruct [lengthField; unexportedNamespace]))
                       (TStruct [lengthField; unexportedNamespace])
                       [lengthField] [] [VInt tInt 7] [VInt tInt 7] []
                       (VString tString "")
                       eq_refl eq_refl eq_refl eq_refl eq_refl)
                    eq_refl eq_refl eq_refl) as (ty & Hty & H).
    injection Hty as <-. exact H.
Defined.

(** C10, as stated, fails for an unsettable field tagged [meta] with a
    name no decoder handles: key decoding, bin decoding and record
    decoding all pass over it and [Decode] returns no error.  It also
    fails for a namespace field that is a nil pointer: the field cannot
    be set, and key decoding panics in [Value.Type] while it builds the
    error. *)
Lemma Decode_unsettable_unknown_metadata_no_error :
  CanSet (fieldValueOf targetFlag (mkField "extra" "meta,extra" false tString)
                       (VString tString "")) = false
  /\ (exists tag, parseTag "meta,extra" = Ok tag /\ meta tag = true)
  /\ Decode plainEnv (ArgAny (clientRecord 3)) (freshPointer tUnexportedExtra) =
       (freshPointer tUnexportedExtra, Done)
  /\ CanSet (fieldValueOf targetFlag
               (mkField "NS" "meta,namespace" false (TPtr tString))
               (VPtr (TPtr tString) None)) = false
  /\ Decode plainEnv (ArgAny (clientRecord 3)) (freshPointer tNilNamespace) =
       (freshPointer tNilNamespace, Panicked PanicTypeOnZeroValue).
Proof.
  split; [reflexivity|]. split; [by eexists|].
  repeat split; vm_compute; reflexivity.
Qed.

(** C4 at the tag [ meta ,omitempty]. *)
Lemma parseTag_lone_meta_witness :
  parseTag " meta ,omitempty" = Ok (mkTag false false true "meta").
Proof. apply (parseTag_lone_meta " meta ,omitempty"); reflexivity. Defined.

(** * Further properties of the mapper *)

(** ** parseTag *)

Lemma parseParts_named tagString parts parsed :
  String.eqb (name parsed) "" = false ->
  parseParts tagString parts parsed =
    match List.filter (fun part => negb (isReserved part)) (map TrimSpace parts) with
    | [] =>
        Ok (mkTag
              (meta parsed || existsb (fun part => String.eqb part tagValueMeta)
                                      (map TrimSpace parts))
              (omit parsed || existsb (fun part => String.eqb part tagValueOmit)
                                      (map TrimSpace parts))
              (omitempty parsed
               || existsb (fun part => String.eqb part tagValueOmitempty)
                          (map TrimSpace parts))
              (name parsed))
    | _ :: _ => Err (ErrInvalidTag tagString)
    end.
Proof.
  revert parsed. induction parts as [|p rest IH]; intros parsed Hn.
  - cbn. rewrite !orb_false_r. by destruct parsed.
  - cbn [parseParts map List.filter existsb]. unfold isReserved at 1.
    set (tp := TrimSpace p). clearbody tp.
    destruct (String.eqb_spec tp tagValueMeta) as [E1|E1].
    { subst tp. rewrite IH by done. cbn.
      destruct (List.filter _ _); [|done]. by rewrite !orb_true_r. }
    destruct (String.eqb_spec tp tagValueOmitempty) as [E2|E2].
    { subst tp. rewrite IH by done. cbn.
      destruct (List.filter _ _); [|done]. by rewrite !orb_true_r. }
    destruct (String.eqb_spec tp tagValueOmit) as [E3|E3].
    { subst tp. rewrite IH by done. cbn.
      destruct (List.filter _ _); [|done]. by rewrite !orb_true_r. }
    cbn. by rewrite Hn.
Qed.

Lemma parseParts_unnamed tagString parts parsed :
  String.eqb (name parsed) "" = true ->
  parseParts tagString parts parsed =
    match dropEmpty (List.filter (fun part => negb (isReserved part))
                                 (map TrimSpace parts)) with
    | [] =>
        Ok (mkTag
              (meta parsed || existsb (fun part => String.eqb part tagValueMeta)
                                      (map TrimSpace parts))
              (omit parsed || existsb (fun part => String.eqb part tagValueOmit)
                                      (map TrimSpace parts))
              (omitempty parsed
               || existsb (fun part => String.eqb part tagValueOmitempty)
                          (map TrimSpace parts))
              "")
    | [n] =>
        Ok (mkTag
              (meta parsed || existsb (fun part => String.eqb part tagValueMeta)
                                      (map TrimSpace parts))
              (omit parsed || existsb (fun part => String.eqb part tagValueOmit)
                                      (map TrimSpace parts))
              (omitempty parsed
               || existsb (fun part => String.eqb part tagValueOmitempty)
                          (map TrimSpace parts))
              n)
    | _ :: _ :: _ => Err (ErrInvalidTag tagString)
    end.
Proof.
  revert parsed. induction parts as [|p rest IH]; intros parsed Hn.
  - cbn. rewrite !orb_false_r. apply String.eqb_eq in Hn.
    destruct parsed; cbn in *; by subst.
  - cbn [parseParts map List.filter existsb]. unfold isReserved at 1.
    set (tp := TrimSpace p). clearbody tp.
    destruct (String.eqb_spec tp tagValueMeta) as [E1|E1].
    { subst tp. rewrite IH by done. cbn.
      destruct (dropEmpty _) as [|? [|? ?]]; try done; by rewrite !orb_true_r. }
    destruct (String.eqb_spec tp tagValueOmitempty) as [E2|E2].
    { subst tp. rewrite IH by done. cbn.
      destruct (dropEmpty _) as [|? [|? ?]]; try done; by rewrite !orb_true_r. }
    destruct (String.eqb_spec tp tagValueOmit) as [E3|E3].
    { subst tp. rewrite IH by done. cbn.
      destruct (dropEmpty _) as [|? [|? ?]]; try done; by rewrite !orb_true_r. }
    rewrite Hn. cbn [negb orb dropEmpty].
    destruct (String.eqb tp "") eqn:Et.
    + apply String.eqb_eq in Et. subst tp. rewrite IH by done. cbn. done.
    + rewrite parseParts_named by done. cbn [meta omit omitempty name].
      destruct (List.filter _ _); done.
Qed.

(** X1.  What [parseTag] returns, for every tag string.  The flags are
    set by the reserved tokens wherever they stand.  The tokens that are
    not reserved give the name: none, or empty ones only, leave it
    empty; empty tokens before it apart, a single one is the name; any
    token after the name that is not reserved, be it empty (a trailing
    comma), makes the tag invalid.  [meta] without a name is the bin
    name [meta]. *)
Theorem parseTag_by_tokens (tagString : string) :
  parseTag tagString =
    match nameTokens tagString with
    | [] =>
        Ok (if hasToken tagValueMeta tagString
            then mkTag false (hasToken tagValueOmit tagString)
                       (hasToken tagValueOmitempty tagString) tagValueMeta
            else mkTag false (hasToken tagValueOmit tagString)
                       (hasToken tagValueOmitempty tagString) "")
    | [n] =>
        Ok (mkTag (hasToken tagValueMeta tagString)
                  (hasToken tagValueOmit tagString)
                  (hasToken tagValueOmitempty tagString) n)
    | _ :: _ :: _ => Err (ErrInvalidTag tagString)
    end.
Proof.
  unfold parseTag, nameTokens, hasToken, tokens.
  rewrite parseParts_unnamed by done. cbn [meta omit omitempty emptyTag orb].
  destruct (dropEmpty _) as [|n [|m rest]] eqn:E; cbn [mbind Result_bind]; try done.
  - cbn [meta name]. rewrite andb_true_r.
    by destruct (existsb _ _).
  - cbn [meta name].
    assert (Hn : String.eqb n "" = false).
    { clear -E. induction (List.filter _ _) as [|a l IH]; cbn in E; [done|].
      destruct (String.eqb a "") eqn:Ea; [by apply IH|]. by simplify_eq. }
    rewrite Hn, andb_false_r. done.
Qed.

(** ** Encode: the argument *)

Lemma encodeLeaf_access fd x fl1 fl2 r :
  flagRO fl1 = flagRO fl2 ->
  encodeLeaf fd (mkValue x fl1) r = encodeLeaf fd (mkValue x fl2) r.
Proof.
  destruct fl1 as [a1 s1 e1], fl2 as [a2 s2 e2]. unfold flagRO. cbn.
  intros H. destruct s1, e1, s2, e2; try discriminate; reflexivity.
Qed.

Lemma sameAccess_fieldFlag fl1 fl2 fd :
  sameAccess fl1 fl2 -> sameAccess (fieldFlag fl1 fd) (fieldFlag fl2 fd).
Proof.
  intros [H1 H2]. unfold fieldFlag, sameAccess.
  destruct (IsExported _), (Anonymous fd); cbn; auto.
Qed.

Lemma sameAccess_ptrElemFlag fl1 fl2 :
  sameAccess fl1 fl2 -> sameAccess (ptrElemFlag fl1) (ptrElemFlag fl2).
Proof. intros [H1 H2]. by split. Qed.

Lemma sameAccess_flagRO fl1 fl2 : sameAccess fl1 fl2 -> flagRO fl1 = flagRO fl2.
Proof. intros [H1 H2]. unfold flagRO. by rewrite H1, H2. Qed.

Lemma walkFields_access fl1 fl2 fds vs r :
  Forall (fun x => forall fl1 fl2 fd r, sameAccess fl1 fl2 ->
            walkField encodeLeaf (walkStruct encodeLeaf) fl1 fd x r =
              walkField encodeLeaf (walkStruct encodeLeaf) fl2 fd x r) vs ->
  sameAccess fl1 fl2 ->
  walkFields encodeLeaf (walkStruct encodeLeaf) fl1 fds vs r =
    walkFields encodeLeaf (walkStruct encodeLeaf) fl2 fds vs r.
Proof.
  intros Hall Hfl. revert fds r.
  induction Hall as [|x vs Hx Hvs IH]; intros [|fd fds] r; try done.
  cbn [walkFields]. rewrite (Hx fl1 fl2 fd r Hfl).
  destruct (walkField _ _ fl2 fd x r) as [[x' s1] o1].
  destruct o1; try done. by rewrite IH.
Qed.

Lemma walk_access v :
  (forall fl1 fl2 r, sameAccess fl1 fl2 ->
     walkStruct encodeLeaf v fl1 r = walkStruct encodeLeaf v fl2 r)
  /\ (forall fl1 fl2 fd r, sameAccess fl1 fl2 ->
        walkField encodeLeaf (walkStruct encodeLeaf) fl1 fd v r =
          walkField encodeLeaf (walkStruct encodeLeaf) fl2 fd v r).
Proof.
  induction v as [v Hs Hp|t|t p [IH1 IH2]|t vs IH] using GoValue_nested_ind.
  - split; [intros; by destruct v|].
    intros fl1 fl2 fd r Hfl. unfold walkField.
    assert (Hk : kindEqb (valueKind v) reflect.Struct = false).
    { destruct (kindEqb _ _) eqn:E; [|done]. by apply kindEqb_eq in E. }
    rewrite Hk.
    assert (Hleaf : encodeLeaf fd (mkValue v (fieldFlag fl1 fd)) r =
                    encodeLeaf fd (mkValue v (fieldFlag fl2 fd)) r)
      by (by apply encodeLeaf_access, sameAccess_flagRO, sameAccess_fieldFlag).
    destruct v; done.
  - split; [done|]. intros fl1 fl2 fd r Hfl. reflexivity.
  - split; [done|].
    intros fl1 fl2 fd r Hfl. unfold walkField.
    pose proof (sameAccess_ptrElemFlag _ _ (sameAccess_fieldFlag _ _ fd Hfl)) as Hp.
    destruct (kindEqb (valueKind p) reflect.Struct).
    + by rewrite (IH1 _ _ r Hp).
    + by rewrite (encodeLeaf_access fd p _ _ r (sameAccess_flagRO _ _ Hp)).
  - assert (Hw : forall fl1 fl2 r, sameAccess fl1 fl2 ->
        walkStruct encodeLeaf (VStruct t vs) fl1 r =
          walkStruct encodeLeaf (VStruct t vs) fl2 r).
    { intros fl1 fl2 r Hfl. cbn [walkStruct].
      destruct (structFields t) as [fds|]; [|done].
      rewrite (walkFields_access fl1 fl2 fds vs r); [done| |done].
      eapply Forall_impl; [exact IH|]. by intros ? [? ?]. }
    split; [exact Hw|].
    intros fl1 fl2 fd r Hfl. unfold walkField. cbn.
    by apply Hw, sameAccess_fieldFlag.
Qed.

(** X2.  [Encode] takes a struct or a pointer to a struct, and encodes
    both alike: a pointer to a struct gives the result the struct
    itself gives, whatever the struct holds.  Every other argument (nil,
    a scalar, a nil pointer, a pointer to a pointer) gives
    [ErrInvalidSourceType]. *)
Theorem Encode_struct_or_pointer :
  (forall pt t vs,
     Encode (VPtr pt (Some (VStruct t vs))) = Encode (VStruct t vs))
  /\ (forall x, structShaped x = false -> Encode x = Err ErrInvalidSourceType).
Proof.
  split.
  - intros pt t vs. unfold Encode, encode.
    rewrite structValue_pointer, structValue_struct.
    cbn [mbind Result_bind val flags ValueOf].
    by rewrite (proj1 (walk_access (VStruct t vs)) targetFlag noFlag newRecord).
  - intros x Hx. unfold Encode, encode.
    by rewrite structValue_not_struct.
Qed.

(** ** Encode: the bins *)

Lemma nameLeaf_turn fl fd x names :
  isLeaf x = true ->
  (walkField nameLeaf (walkStruct nameLeaf) fl fd x names).1.2 =
    match binNameOf fd with
    | Some n => n :: names
    | None => names
    end
  /\ (walkField nameLeaf (walkStruct nameLeaf) fl fd x names).2 = Done.
Proof.
  intros Hleaf. rewrite walkField_leaf by done. cbn. done.
Qed.

Lemma encodeLeaf_turn_names fl fd x r names :
  isLeaf x = true ->
  (forall n, is_Some (Bins r !! n) -> n ∈ names) ->
  forall n,
    is_Some (Bins (walkField encodeLeaf (walkStruct encodeLeaf) fl fd x r).1.2 !! n) ->
    n ∈ (walkField nameLeaf (walkStruct nameLeaf) fl fd x names).1.2.
Proof.
  intros Hleaf HR n.
  rewrite (proj1 (nameLeaf_turn fl fd x names Hleaf)).
  rewrite walkField_leaf by done. unfold encodeLeaf.
  destruct (encodeField fd _ r) as [r'|e|p] eqn:E; cbn.
  - destruct (mayWriteBin n fd) eqn:Hw.
    + unfold mayWriteBin in Hw. destruct (binNameOf fd) as [m|]; [|done].
      apply String.eqb_eq in Hw as ->. intros _. by left.
    + rewrite (encodeField_lookup_frame n fd _ r r' Hw E). intros H.
      apply HR in H. destruct (binNameOf fd); [by right|done].
  - intros H. apply HR in H. destruct (binNameOf fd); [by right|done].
  - intros H. apply HR in H. destruct (binNameOf fd); [by right|done].
Qed.

Lemma coverW_leaf fl fd x r names :
  isLeaf x = true -> binsNamed r names ->
  coverW (walkField encodeLeaf (walkStruct encodeLeaf) fl fd x r)
         (walkField nameLeaf (walkStruct nameLeaf) fl fd x names) names.
Proof.
  intros Hleaf HR. split; [|split].
  - intros n. by apply encodeLeaf_turn_names.
  - by rewrite (proj2 (nameLeaf_turn fl fd x names Hleaf)).
  - rewrite (proj1 (nameLeaf_turn fl fd x names Hleaf)).
    destruct (binNameOf fd); set_solver.
Qed.

Lemma coverW_fields fl fds vs r names :
  Forall (fun x => forall fl fd r names, binsNamed r names ->
            coverW (walkField encodeLeaf (walkStruct encodeLeaf) fl fd x r)
                   (walkField nameLeaf (walkStruct nameLeaf) fl fd x names) names) vs ->
  binsNamed r names ->
  coverW (walkFields encodeLeaf (walkStruct encodeLeaf) fl fds vs r)
         (walkFields nameLeaf (walkStruct nameLeaf) fl fds vs names) names.
Proof.
  intros Hall. revert fds r names.
  induction Hall as [|x vs Hx Hvs IH]; intros [|fd fds] r names HR;
    try (split; [done|split; [done|set_solver]]).
  cbn [walkFields]. destruct (Hx fl fd r names HR) as (H1 & H2 & H3).
  destruct (walkField encodeLeaf _ fl fd x r) as [[x1 r1] o1].
  destruct (walkField nameLeaf _ fl fd x names) as [[x2 n1] o2].
  cbn in H1, H2, H3.
  destruct o2 as [|e2|p2].
  - pose proof (IH fds r1 n1 H1) as IH1.
    assert (Hmono : forall r0, binsNamed r0 n1 ->
              n1 ⊆ (walkFields nameLeaf (walkStruct nameLeaf) fl fds vs n1).1.2).
    { intros _ _. destruct IH1 as (_ & _ & ?). done. }
    destruct (walkFields nameLeaf _ fl fds vs n1) as [[? n2] o3].
    destruct o1.
    + destruct (walkFields encodeLeaf _ fl fds vs r1) as [[? r2] o4].
      destruct IH1 as (? & ? & ?). cbn in *. split; [done|split; [done|set_solver]].
    + destruct IH1 as (? & ? & ?). cbn in *.
      split; [intros n Hn; apply H1 in Hn; set_solver|split; [done|set_solver]].
    + destruct IH1 as (? & ? & ?). cbn in *.
      split; [intros n Hn; apply H1 in Hn; set_solver|split; [done|set_solver]].
  - destruct o1; [by destruct H2| |]; cbn; (split; [done|split; [done|done]]).
  - destruct o1; [by destruct H2| |]; cbn; (split; [done|split; [done|done]]).
Qed.

Lemma coverW_walk v :
  (forall fl r names, binsNamed r names ->
     coverW (walkStruct encodeLeaf v fl r) (walkStruct nameLeaf v fl names) names)
  /\ (forall fl fd r names, binsNamed r names ->
        coverW (walkField encodeLeaf (walkStruct encodeLeaf) fl fd v r)
               (walkField nameLeaf (walkStruct nameLeaf) fl fd v names) names).
Proof.
  induction v as [v Hs Hp|t|t p [IH1 IH2]|t vs IH] using GoValue_nested_ind.
  - split.
    + intros fl r names HR. destruct v; try done;
        (split; [done|split; [done|set_solver]]).
    + intros fl fd r names HR. apply coverW_leaf; [|done].
      unfold isLeaf, derefKind, fieldValueDeref. cbn.
      destruct v; try done; cbn; apply negb_true_iff;
        destruct (kindEqb _ _) eqn:E; try done; by apply kindEqb_eq in E.
  - split.
    + intros fl r names HR. split; [done|split; [done|set_solver]].
    + intros fl fd r names HR. by apply coverW_leaf.
  - split.
    + intros fl r names HR. split; [done|split; [done|set_solver]].
    + intros fl fd r names HR.
      destruct (kindEqb (valueKind p) reflect.Struct) eqn:Ek.
      * unfold walkField. rewrite Ek.
        specialize (IH1 (ptrElemFlag (fieldFlag fl fd)) r names HR).
        destruct (walkStruct encodeLeaf p _ r) as [[? ?] ?].
        destruct (walkStruct nameLeaf p _ names) as [[? ?] ?]. exact IH1.
      * apply coverW_leaf; [|done].
        unfold isLeaf, derefKind, fieldValueDeref, rKind. cbn. by rewrite Ek.
  - assert (Hw : forall fl r names, binsNamed r names ->
        coverW (walkStruct encodeLeaf (VStruct t vs) fl r)
               (walkStruct nameLeaf (VStruct t vs) fl names) names).
    { intros fl r names HR. cbn [walkStruct].
      destruct (structFields t) as [fds|];
        [|split; [done|split; [done|set_solver]]].
      assert (Hall : Forall (fun x => forall fl fd r names, binsNamed r names ->
            coverW (walkField encodeLeaf (walkStruct encodeLeaf) fl fd x r)
                   (walkField nameLeaf (walkStruct nameLeaf) fl fd x names) names) vs)
        by (eapply Forall_impl; [exact IH|by intros ? [? ?]]).
      pose proof (coverW_fields fl fds vs r names Hall HR) as H.
      destruct (walkFields encodeLeaf _ fl fds vs r) as [[? ?] ?].
      destruct (walkFields nameLeaf _ fl fds vs names) as [[? ?] ?]. exact H. }
    split; [exact Hw|].
    intros fl fd r names HR. unfold walkField. cbn. by apply Hw.
Qed.

(** X3.  Every bin of the record [Encode] returns is named by the tag
    of a field: a bin name is in the bin mapping only if a leaf field
    reached by the walk (through struct fields and non-nil pointers to
    structs) is annotated as a plain bin of that name. *)
Theorem Encode_bins_are_tagged (v : GoValue) (r : Record) (n : string) (y : GoValue) :
  Encode v = Ok r ->
  Bins r !! n = Some y ->
  n ∈ taggedNames v.
Proof.
  unfold Encode, encode, taggedNames.
  destruct (structValue (ArgAny v)) as [sv|e|p]; cbn [mbind Result_bind]; try done.
  assert (HR : binsNamed newRecord []).
  { intros m [z Hz]. cbn in Hz. by rewrite lookup_empty in Hz. }
  destruct (proj1 (coverW_walk (val sv)) (flags sv) newRecord [] HR) as (H & _ & _).
  destruct (walkStruct encodeLeaf _ _ newRecord) as [[? r'] o].
  destruct o; cbn; try done. intros ? Hn; simplify_eq.
  apply H. cbn. by eexists.
Qed.

(** ** Encode: errors *)

Lemma parseParts_error tagString parts parsed e :
  parseParts tagString parts parsed = Err e -> e = ErrInvalidTag tagString.
Proof.
  revert parsed. induction parts as [|p rest IH]; intros parsed; cbn; [done|].
  repeat case_match; try apply IH. intros ?; by simplify_eq.
Qed.

Lemma parseTag_error tagString e :
  parseTag tagString = Err e -> e = ErrInvalidTag tagString.
Proof.
  unfold parseTag.
  destruct (parseParts tagString (Split tagString) emptyTag) as [t|e'|p] eqn:E;
    cbn [mbind Result_bind].
  - by destruct (_ && _).
  - intros ?; simplify_eq. by apply parseParts_error in E.
  - done.
Qed.

Lemma parseTag_no_panic tagString p : parseTag tagString <> Panic p.
Proof.
  unfold parseTag.
  assert (H : forall parts parsed, parseParts tagString parts parsed <> Panic p).
  { induction parts as [|q rest IH]; intros parsed; cbn; [done|].
    repeat case_match; try apply IH; done. }
  destruct (parseParts tagString (Split tagString) emptyTag) as [t|e'|p'] eqn:E;
    cbn [mbind Result_bind]; try done.
  - by destruct (_ && _).
  - intros ?; simplify_eq. by apply H in E.
Qed.

(** X4.  A tag that does not parse is an error wherever it is read: on
    a leaf field with such a tag the loop bodies of [encode],
    [decodeBins], [decodeKey] and [decodeRecord] all return the
    invalid-tag error naming the tag, whatever the field holds and
    whether it can be set or not; and [Encode] returns that error when
    the fields before it are encoded without error. *)
Theorem invalid_tag_is_an_error (env : GoEnv) (fd : Field) (e : error) :
  parseTag (Tag fd) = Err e ->
  String.eqb (Tag fd) "" = false ->
  (forall fieldValue record recordValue,
     encodeField fd fieldValue record = Err (ErrInvalidTag (Tag fd))
     /\ decodeBinsField env recordValue fd fieldValue = Err (ErrInvalidTag (Tag fd))
     /\ decodeKeyField env recordValue fd fieldValue = Err (ErrInvalidTag (Tag fd))
     /\ decodeRecordField env recordValue fd fieldValue =
          Err (ErrInvalidTag (Tag fd)))
  /\ (forall v t fl fds1 fds2 vs1 x vs2,
        structValue (ArgAny v) = Ok (mkValue (VStruct t (vs1 ++ x :: vs2)) fl) ->
        structFields t = Some (fds1 ++ fd :: fds2) ->
        length fds1 = length vs1 ->
        isLeaf x = true ->
        (walkFields encodeLeaf (walkStruct encodeLeaf) fl fds1 vs1 newRecord).2 = Done ->
        Encode v = Err (ErrInvalidTag (Tag fd))).
Proof.
  intros Hparse Htag. pose proof (parseTag_error _ _ Hparse) as ->.
  assert (Hbody : forall fieldValue record,
            encodeField fd fieldValue record = Err (ErrInvalidTag (Tag fd))).
  { intros. unfold encodeField. by rewrite Htag, Hparse. }
  split.
  - intros fieldValue record recordValue. split; [apply Hbody|].
    unfold decodeBinsField, decodeKeyField, decodeRecordField.
    by rewrite Htag, Hparse.
  - intros v t fl fds1 fds2 vs1 x vs2 Hsv Ht Hlen Hleaf Hpre.
    unfold Encode, encode. rewrite Hsv. cbn [mbind Result_bind val flags].
    rewrite (walkStruct_unfold _ _ _ _ _ _ Ht).
    rewrite walkFields_app by done.
    destruct (walkFields _ _ fl fds1 vs1 newRecord) as [[a s1] o1].
    cbn in Hpre. subst o1. cbn [walkFields].
    rewrite walkField_leaf by done. unfold encodeLeaf. rewrite Hbody. done.
Qed.

(** ** Encode: key and metadata *)

Lemma digestOfValue_digestValue d : digestOfValue (digestValue d) = d.
Proof.
  unfold digestOfValue, digestValue. induction d as [|b d IH]; cbn; [done|].
  by rewrite IH.
Qed.

Lemma setMetadata_empty field recordField tagName :
  isEmptyValue field = Ok true ->
  setMetadata field recordField tagName = Ok (val recordField).
Proof. intros H. unfold setMetadata. by rewrite H. Qed.

Lemma setMetadata_mismatch field slot tagName ft st :
  isEmptyValue field = Ok false ->
  typeOf (val field) = Some ft -> typeOf slot = Some st -> ft <> st ->
  setMetadata field (mkValue slot slotFlag) tagName =
    Err (ErrTypeMismatch tagName ft st).
Proof.
  intros He Hf Hs Hne. unfold setMetadata, TypeOfValue. rewrite He. cbn.
  rewrite Hf, Hs. cbn.
  destruct (typeEqb ft st) eqn:E; [|done]. by apply typeEqb_eq in E.
Qed.

Lemma setMetadata_assign field slot tagName t :
  isEmptyValue field = Ok false ->
  typeOf (val field) = Some t -> typeOf slot = Some t ->
  flagRO (flags field) = false ->
  setMetadata field (mkValue slot slotFlag) tagName = Ok (retype t (val field)).
Proof.
  intros He Hf Hs Hro. unfold setMetadata, TypeOfValue. rewrite He. cbn.
  rewrite Hf, Hs. cbn. rewrite typeEqb_refl. cbn.
  unfold SetValue. cbn. rewrite Hro.
  destruct slot; try done; cbn in Hs; simplify_eq; cbn;
    unfold assignTo; rewrite Hf; unfold directlyAssignable;
    by rewrite typeEqb_refl.
Qed.

(** X5.  A metadata field must have exactly the type of the record
    slot its name is routed to ([uint32] for the generation and the
    expiration, [string] for the namespace and the set name, [[20]byte]
    for the digest, [any] for the user key): a non-empty field of
    another type makes the loop body of [encode] return the
    type-mismatch error.  An empty field is passed over whatever its
    type. *)
Theorem encode_metadata_field_type
    (fd : Field) (tag : tag) (st : GoType) (fieldValue : RValue) (record : Record) :
  String.eqb (Tag fd) "" = false ->
  parseTag (Tag fd) = Ok tag ->
  meta tag = true ->
  slotType (name tag) = Some st ->
  (isEmptyValue fieldValue = Ok true ->
   encodeField fd fieldValue record = Ok record)
  /\ (forall ft, isEmptyValue fieldValue = Ok false ->
        typeOf (val fieldValue) = Some ft -> ft <> st ->
        encodeField fd fieldValue record = Err (ErrTypeMismatch (name tag) ft st)).
Proof.
  intros Htag Hparse Hmeta Hslot. unfold encodeField. rewrite Htag, Hparse.
  cbn [mbind Result_bind]. rewrite Hmeta. unfold slotType in Hslot. split.
  - intros He. rewrite !(setMetadata_empty _ _ _ He). cbn [mbind Result_bind val].
    rewrite digestOfValue_digestValue. destruct record.
    repeat (destruct (String.eqb (name tag) _); [reflexivity|]). reflexivity.
  - intros ft He Hf Hne.
    destruct (String.eqb (name tag) metaTagGeneration) eqn:E1.
    { cbn in Hslot. simplify_eq.
      by rewrite (setMetadata_mismatch _ _ _ ft tUint32). }
    destruct (String.eqb (name tag) metaTagExpiration) eqn:E2.
    { cbn in Hslot. simplify_eq.
      by rewrite (setMetadata_mismatch _ _ _ ft tUint32). }
    destruct (String.eqb (name tag) metaTagNamespace) eqn:E3.
    { cbn in Hslot. simplify_eq.
      by rewrite (setMetadata_mismatch _ _ _ ft tString). }
    destruct (String.eqb (name tag) metaTagSetName) eqn:E4.
    { cbn in Hslot. simplify_eq.
      by rewrite (setMetadata_mismatch _ _ _ ft tString). }
    destruct (String.eqb (name tag) metaTagDigest) eqn:E5.
    { cbn in Hslot. simplify_eq.
      by rewrite (setMetadata_mismatch _ _ _ ft tDigest). }
    destruct (String.eqb (name tag) metaTagUserKey) eqn:E6; [|done].
    cbn in Hslot. simplify_eq.
    by rewrite (setMetadata_mismatch _ _ _ ft tAny).
Qed.

Lemma walk_Key a e r ns set d :
  d <> [] ->
  walkStruct encodeLeaf
    (VStruct tKey [stringValue ns; stringValue set; digestValue d])
    (mkFlag a false e) r =
  (VStruct tKey [stringValue ns; stringValue set; digestValue d],
   mkRecord (if String.eqb ns "" then Namespace r else ns)
            (if String.eqb set "" then SetName r else set)
            (digestOfValue (digestValue d))
            (UserKey r) (Generation r) (Expiration r) (Bins r),
   Done).
Proof.
  intros Hd. destruct d as [|b d]; [done|].
  destruct r, ns, set; reflexivity.
Qed.

Lemma walk_KeyValue a e r k :
  walkStruct encodeLeaf (VStruct tKeyValue [anyValue k]) (mkFlag a false e) r =
  (VStruct tKeyValue [anyValue k],
   mkRecord (Namespace r) (SetName r) (Digest r)
            (match k with VInvalid => UserKey r | _ => k end)
            (Generation r) (Expiration r) (Bins r),
   Done).
Proof. destruct r, k; reflexivity. Qed.

Lemma walk_Metadata a e r g x :
  walkStruct encodeLeaf (VStruct tMetadata [uint32Value g; uint32Value x])
             (mkFlag a false e) r =
  (VStruct tMetadata [uint32Value g; uint32Value x],
   mkRecord (Namespace r) (SetName r) (Digest r) (UserKey r)
            (if g =? 0 then Generation r else g)
            (if x =? 0 then Expiration r else x) (Bins r),
   Done).
Proof. destruct r, g, x; reflexivity. Qed.

Lemma walk_record fl r :
  flagStickyRO fl = false ->
  Digest r <> [] ->
  walkStruct encodeLeaf (recordValueOf r) fl newRecord =
    (recordValueOf r, withoutBins r, Done).
Proof.
  intros Hfl Hd. destruct fl as [a s e]. cbn in Hfl. subst s.
  unfold recordValueOf.
  rewrite (walkStruct_unfold encodeLeaf tRecord _ _ _ _ eq_refl).
  cbn [walkFields].
  unfold walkField at 1. cbn [valueKind]. rewrite kindEqb_refl.
  change (fieldFlag _ _) with (mkFlag a false false).
  rewrite (walk_Key a false newRecord) by done.
  unfold walkField at 1. cbn [valueKind]. rewrite kindEqb_refl.
  change (fieldFlag _ _) with (mkFlag a false false).
  rewrite walk_KeyValue.
  unfold walkField at 1. cbn [valueKind]. rewrite kindEqb_refl.
  change (fieldFlag _ _) with (mkFlag a false false).
  rewrite walk_Metadata.
  rewrite walkField_leaf by reflexivity.
  change (encodeLeaf _ _ ?s) with (binsValue (Bins r), s, Done).
  rewrite digestOfValue_digestValue. unfold withoutBins.
  destruct r as [ns set d k g x bins].
  destruct ns, set, k, g, x; reflexivity.
Qed.

(** X6.  The library's own [Key], [KeyValue] and [Metadata] are encoded
    slot by slot: [Encode] applied to a record (to the struct or to a
    pointer to it) returns its namespace, set name, digest, user key,
    generation and expiration as they are, and no bins.  An empty
    string, a nil user key and a zero counter are passed over, which
    leaves the slot at that same value. *)
Theorem Encode_record_header (r : Record) :
  Digest r <> [] ->
  Encode (recordValueOf r) = Ok (withoutBins r)
  /\ Encode (recordPointer r) = Ok (withoutBins r).
Proof.
  intros Hd. unfold Encode, encode, recordPointer.
  change (structValue (ArgAny (recordValueOf r)))
    with (Ok (ValueOf (recordValueOf r))).
  change (structValue (ArgAny (VPtr (TPtr tRecord) (Some (recordValueOf r)))))
    with (Ok (mkValue (recordValueOf r) targetFlag)).
  cbn [mbind Result_bind val flags ValueOf].
  rewrite !walk_record by done. done.
Qed.

(** ** Decode: the source and the destination *)

Lemma decodeLoop_isRecord env recurse inner recordValue fds vals v b v' b' o :
  decodeLoop env recurse inner recordValue fds vals v b = (v', b', o) ->
  b' = true ->
  b = true
  \/ existsb setsIsRecord (decodeCases inner (flags recordValue) fds vals) = true.
Proof.
  revert vals v b. induction fds as [|fd fds IH]; intros [|x vals] v b; cbn;
    try (intros ?; simplify_eq; by left).
  unfold decodeTurn. fold (fieldValueOf (flags recordValue) fd x).
  destruct (decodeCaseOf inner (Name fd) (fieldValueOf (flags recordValue) fd x));
    cbn [setsIsRecord orb]; try (intros; by right).
  - destruct (decodeKey env _ v) as [v1 o1].
    destruct o1; [apply IH|intros ?; simplify_eq; by left..].
  - destruct (decodeRecord env recordValue v) as [v1 o1].
    destruct o1; [apply IH|intros ?; simplify_eq; by left..].
  - apply IH.
Qed.

(** X7.  [Decode] returns no error only for a source that has, among
    its fields, a batch record, a record or a bin mapping: a key or the
    generation and the expiration alone do not make a source valid,
    although they are decoded into the destination before the error is
    returned. *)
Theorem Decode_needs_record (env : GoEnv) (x v v' : GoValue) :
  Decode env (ArgAny x) v = (v', Done) ->
  exists cases,
    sourceCases x = Some cases /\ existsb setsIsRecord cases = true.
Proof.
  unfold Decode, sourceCases.
  destruct (structValue (ArgAny x)) as [sv|e|p]; try done.
  destruct (val sv) as [| | | | | | | | | | | | | | |t vals]; try done.
  cbn [decodeFrom]. destruct (structFields t) as [fds|]; [|done].
  destruct (decodeLoop env _ false _ fds vals v false) as [[v1 b] o] eqn:E.
  intros H. exists (decodeCases false (flags sv) fds vals). split; [done|].
  destruct o; try done. destruct b; [|done].
  by destruct (decodeLoop_isRecord _ _ _ _ _ _ _ _ _ _ _ E eq_refl).
Qed.

Lemma walkTarget_bad_destination body v :
  structShaped v = false ->
  walkTarget body v = (v, Failed ErrInvalidSourceType).
Proof.
  intros H. unfold walkTarget, walkArg. by rewrite structValue_not_struct.
Qed.

Lemma decodeCaseOf_bins inner n fieldValue :
  decodeCaseOf inner n fieldValue = CaseBins ->
  kindEqb (rKind fieldValue) reflect.Map = true.
Proof.
  unfold decodeCaseOf. repeat case_match; try discriminate.
  intros _. match goal with H : _ && _ = true |- _ => by apply andb_true_iff in H as [? _] end.
Qed.

Lemma decodeLoop_bad_destination env recurse inner recordValue fds vals v b :
  structShaped v = false ->
  runsDecoder (firstCase (decodeCases inner (flags recordValue) fds vals)) = true ->
  exists b',
    decodeLoop env recurse inner recordValue fds vals v b =
      (v, b', Failed ErrInvalidSourceType).
Proof.
  intros Hv. revert vals b.
  induction fds as [|fd fds IH]; intros [|x vals] b; cbn; try done.
  unfold decodeTurn. fold (fieldValueOf (flags recordValue) fd x).
  destruct (decodeCaseOf inner (Name fd) (fieldValueOf (flags recordValue) fd x))
    eqn:Ec; cbn [runsDecoder firstCase]; try done; intros H.
  - unfold decodeRecord. rewrite walkTarget_bad_destination by done. eauto.
  - unfold decodeKey. rewrite walkTarget_bad_destination by done. eauto.
  - unfold decodeBins. rewrite (decodeCaseOf_bins _ _ _ Ec). cbn [negb].
    rewrite walkTarget_bad_destination by done. eauto.
  - unfold decodeRecord. rewrite walkTarget_bad_destination by done. eauto.
  - by apply IH.
Qed.

(** X8.  A destination that is neither a struct nor a non-nil pointer
    to a struct is reported with the error of the source: when the
    first field of the source [Decode] acts on is a record, a key, a
    bin mapping or the generation or expiration, [Decode] returns
    [ErrInvalidSourceType] and leaves the destination as it was. *)
Theorem Decode_bad_destination (env : GoEnv) (x v : GoValue)
    (cases : list decodeCase) :
  structShaped v = false ->
  sourceCases x = Some cases ->
  runsDecoder (firstCase cases) = true ->
  Decode env (ArgAny x) v = (v, Failed ErrInvalidSourceType).
Proof.
  intros Hv. unfold Decode, sourceCases.
  destruct (structValue (ArgAny x)) as [sv|e|p]; try done.
  destruct (val sv) as [| | | | | | | | | | | | | | |t vals] eqn:Esv; try done.
  cbn [decodeFrom]. destruct (structFields t) as [fds|]; [|done].
  cbn [mbind option_bind]. intros ? Hc; simplify_eq.
  destruct (decodeLoop_bad_destination env (decodeFrom env true) false
              (mkValue (VStruct t vals) (flags sv)) fds vals v false Hv Hc)
    as [b' ->]. done.
Qed.

(** ** Decode of an encoded record *)

Lemma decodeKeyField_neutral env recordValue fd fieldValue :
  keyNeutral fd = true ->
  decodeKeyField env recordValue fd fieldValue = Ok (val fieldValue).
Proof.
  unfold keyNeutral, decodeKeyField, isKeyName.
  destruct (String.eqb (Tag fd) ""); [done|]. cbn [orb].
  destruct (parseTag (Tag fd)) as [t|?|?]; [|done..]. cbn [mbind Result_bind].
  destruct (meta t); [|done]. cbn [negb orb].
  intros H. apply negb_true_iff in H.
  repeat (apply orb_false_iff in H as [H ?]).
  by repeat match goal with E : String.eqb _ _ = false |- _ => rewrite E; clear E end.
Qed.

Lemma walkFields_unchanged body recurse fl fds vs :
  Forall (fun x => isLeaf x = true) vs ->
  Forall2 (fun fd x => body fd (fieldValueOf fl fd x) = Ok (val (fieldValueOf fl fd x)))
          fds vs ->
  walkFields (leafOf body) recurse fl fds vs tt = (vs, tt, Done).
Proof.
  intros Hl H. induction H as [|fd x fds vs Hx Hrest IH]; [done|].
  apply Forall_cons in Hl as [Hlx Hlr]. cbn [walkFields].
  rewrite walkField_body_unchanged by done. by rewrite IH.
Qed.

Lemma getMethod_key_missing env r m :
  keyHasNoMethods env ->
  getMethod env (keyOf r) m = Err (ErrMethodNotFound m tKey).
Proof.
  intros H. destruct (H m) as [H1 H2].
  unfold getMethod, MethodByName, keyOf. cbn. rewrite H1. cbn. by rewrite H2.
Qed.

Lemma decodeKeyField_no_method env r fd fieldValue tag m :
  keyHasNoMethods env ->
  String.eqb (Tag fd) "" = false ->
  parseTag (Tag fd) = Ok tag -> meta tag = true ->
  keyMethod (name tag) = Some m ->
  CanSet fieldValue = true ->
  decodeKeyField env (keyOf r) fd fieldValue = Err (keyError tKey (name tag) m).
Proof.
  intros Henv Htag Hparse Hmeta Hm Hset.
  unfold decodeKeyField, keyMethod, keyError in *.
  rewrite Htag, Hparse. cbn [mbind Result_bind]. rewrite Hmeta, Hset. cbn [negb].
  destruct (String.eqb (name tag) metaTagNamespace); simplify_eq.
  { by rewrite getMethod_key_missing. }
  destruct (String.eqb (name tag) metaTagSetName); simplify_eq.
  { by rewrite getMethod_key_missing. }
  destruct (String.eqb (name tag) metaTagUserKey); simplify_eq.
  { by rewrite getMethod_key_missing. }
  destruct (String.eqb (name tag) metaTagDigest); simplify_eq.
  by rewrite getMethod_key_missing.
Qed.

(** X9.  A record [Encode] returned cannot be decoded into a struct
    that asks for the key: [mapper.Key] has no accessor methods, so the
    first field tagged [meta] with [namespace], [set_name], [user_key]
    or [digest] that can be set makes [Decode] return the
    method-not-found error, and nothing is written. *)
Theorem Decode_encoded_record_key_fails
    (env : GoEnv) (r : Record) (pt t : GoType) (fd : Field) (tag : tag)
    (m : string) (fds1 fds2 : list Field) (x : GoValue) (vs1 vs2 : list GoValue) :
  keyHasNoMethods env ->
  structFields t = Some (fds1 ++ fd :: fds2) ->
  length fds1 = length vs1 ->
  Forall (fun y => isLeaf y = true) vs1 ->
  Forall (fun fd' => keyNeutral fd' = true) fds1 ->
  isLeaf x = true ->
  String.eqb (Tag fd) "" = false ->
  parseTag (Tag fd) = Ok tag -> meta tag = true ->
  keyMethod (name tag) = Some m ->
  CanSet (fieldValueOf targetFlag fd x) = true ->
  Decode env (ArgAny (recordPointer r)) (VPtr pt (Some (VStruct t (vs1 ++ x :: vs2)))) =
    (VPtr pt (Some (VStruct t (vs1 ++ x :: vs2))),
     Failed (keyError tKey (name tag) m)).
Proof.
  intros Henv Ht Hlen Hl1 Hn1 Hleaf Htag Hparse Hmeta Hm Hset.
  rewrite Decode_record. unfold decodeKey.
  rewrite (walkTarget_pointer _ _ _ _ _ Ht), walkFields_app by done.
  rewrite walkFields_unchanged; [|done|].
  - cbn [walkFields]. rewrite walkField_leaf by done.
    unfold leafOf.
    rewrite (decodeKeyField_no_method env r fd _ tag m) by done.
    cbn. by rewrite rewrap_same.
  - clear -Hlen Hn1. revert vs1 Hlen.
    induction Hn1 as [|f fds Hf Hfds IH]; intros [|y ys] Hlen; try done;
      constructor; [by apply decodeKeyField_neutral|apply IH; by simplify_eq].
Qed.

Lemma decodeKeyField_header env recordValue fd fieldValue tag :
  parseTag (Tag fd) = Ok tag -> isHeaderName (name tag) = true ->
  decodeKeyField env recordValue fd fieldValue = Ok (val fieldValue).
Proof.
  intros Hparse Hh. apply decodeKeyField_neutral. unfold keyNeutral.
  rewrite Hparse. unfold isHeaderName, isKeyName in *.
  apply orb_true_iff in Hh as [Hh|Hh]; apply String.eqb_eq in Hh; rewrite Hh;
    by rewrite !orb_true_r.
Qed.

(** X10.  The generation and the expiration do not come back from an
    encoded record: the loop of [Decode] has no case for the embedded
    [Metadata] of the record, so a destination field tagged [meta] with
    [generation] or [expiration] keeps the value it had (unless a bin
    happens to carry that name).  In particular [Encode] stores the
    counters of a [Metadata] in the record, and [Decode] of that record
    into a fresh [Metadata] returns no error and leaves both at zero. *)
Theorem Decode_encoded_record_drops_header (env : GoEnv) :
  (forall record pt t fds vals i fd x tag v' o,
     parseTag (Tag fd) = Ok tag ->
     isHeaderName (name tag) = true ->
     Bins record !! name tag = None ->
     structFields t = Some fds ->
     fds !! i = Some fd -> vals !! i = Some x -> isLeaf x = true ->
     Decode env (ArgAny (recordPointer record))
            (VPtr pt (Some (VStruct t vals))) = (v', o) ->
     exists vals', v' = VPtr pt (Some (VStruct t vals')) /\ vals' !! i = Some x)
  /\ (forall g e, exists r,
        Encode (VStruct tMetadata [uint32Value g; uint32Value e]) = Ok r
        /\ Generation r = g /\ Expiration r = e
        /\ Decode env (ArgAny (recordPointer r)) (freshPointer tMetadata) =
             (freshPointer tMetadata, Done)).
Proof.
  split.
  - intros record pt t fds vals i fd x tag v' o Hparse Hh Hnone Ht Hfd Hx Hleaf.
    rewrite Decode_record.
    destruct (decodeKey env (keyOf record) _) as [v1 o1] eqn:E1.
    unfold decodeKey in E1.
    eapply walkTarget_frame in E1 as (vals1 & -> & Hx1); eauto;
      [|by eapply decodeKeyField_header].
    destruct o1.
    + eapply decodeBins_frame; eauto. by apply binAbsent_binsOf.
    + intros ?; simplify_eq. eauto.
    + intros ?; simplify_eq. eauto.
  - intros g e.
    exists (mkRecord "" "" (repeat 0 20) VInvalid g e ∅).
    split; [|split; [done|split; [done|]]].
    + unfold Encode, encode. rewrite structValue_struct.
      cbn [mbind Result_bind val flags ValueOf].
      change noFlag with (mkFlag false false false). rewrite walk_Metadata.
      cbn. by destruct g, e.
    + rewrite Decode_record. unfold decodeKey, freshPointer.
      change (zeroValue tMetadata)
        with (VStruct tMetadata [uint32Value 0; uint32Value 0]).
      rewrite (walkTarget_pointer _ _ tMetadata _ _ eq_refl).
      rewrite walkFields_unchanged;
        [|by repeat constructor
         |repeat constructor;
          by eapply decodeKeyField_header; [reflexivity|reflexivity]].
      unfold decodeBins.
      change (negb (kindEqb (rKind _) reflect.Map)) with false. cbn [negb].
      rewrite (walkTarget_pointer _ _ tMetadata _ _ eq_refl).
      rewrite walkFields_unchanged; [done|by repeat constructor|].
      repeat constructor;
        (eapply decodeBinsField_absent; [reflexivity|]);
        apply binAbsent_binsOf; cbn; apply lookup_empty.
Qed.

(** ** Decode of a client record *)

Lemma MapIndex_clientBins (bins : gmap string GoValue) fl n :
  MapIndex (mkValue (clientBins bins) fl) n =
    Ok (match bins !! n with
        | Some y => mkValue (anyValue y) (mkFlag false (flagRO fl) false)
        | None => reflectZeroValue
        end).
Proof.
  unfold MapIndex, clientBins. cbn.
  rewrite lookupString_entries, list_to_map_to_list.
  by destruct (bins !! n).
Qed.

(** The key as [Decode] hands it to [decodeKey]: reached through the
    pointer in the record. *)
Lemma getMethod_clientKey env ns set dg uk m f :
  (forall m', MethodSet env tClientKey m' = None) ->
  MethodSet env (TPtr tClientKey) m = Some f ->
  getMethod env (mkValue (VStruct tClientKey [ns; set; dg; uk])
                         (mkFlag true false false)) m =
    Ok (map ValueOf (f (keyPointer ns set dg uk))).
Proof.
  intros H0 H1. unfold getMethod, MethodByName. cbn. rewrite H0. cbn.
  by rewrite H1.
Qed.

Lemma Decode_clientRecord env ns set dg uk bins g e v :
  Decode env (ArgAny (clientRecordOf (keyPointer ns set dg uk) bins g e)) v =
    let recordValue :=
      mkValue (VStruct tClientRecord
                 [keyPointer ns set dg uk; clientBins bins;
                  uint32Value g; uint32Value e]) targetFlag in
    let '(v1, o1) :=
      decodeKey env (mkValue (VStruct tClientKey [ns; set; dg; uk])
                             (mkFlag true false false)) v in
    match o1 with
    | Done =>
        let '(v2, o2) :=
          decodeBins env (mkValue (clientBins bins) targetFlag) v1 in
        match o2 with
        | Done =>
            let '(v3, o3) := decodeRecord env recordValue v2 in
            match o3 with
            | Done => decodeRecord env recordValue v3
            | _ => (v3, o3)
            end
        | _ => (v2, o2)
        end
    | _ => (v1, o1)
    end.
Proof.
  unfold Decode, clientRecordOf, keyPointer.
  rewrite structValue_pointer.
  cbn [val flags decodeFrom]. cbn [structFields tClientRecord underlying].
  cbn [decodeLoop]. unfold decodeTurn. cbn [Name val flags].
  repeat match goal with
    | |- context [decodeCaseOf ?i ?n ?fv] =>
        let c := eval vm_compute in (decodeCaseOf i n fv) in
        change (decodeCaseOf i n fv) with c
    end.
  cbn [fieldValueDeref val flags].
  change (fieldFlag targetFlag _) with (mkFlag true false false).
  change (ptrElemFlag _) with (mkFlag true false false).
  destruct (decodeKey env _ v) as [v1 [| |]]; try done.
  change (mkFlag true false false) with targetFlag.
  destruct (decodeBins env _ v1) as [v2 [| |]]; try done.
  destruct (decodeRecord env _ v2) as [v3 [| |]]; try done.
  destruct (decodeRecord env _ v3) as [v4 [| |]]; done.
Qed.

Lemma parseTag_namespace : parseTag "meta,namespace" = Ok (mkTag true false false "namespace").
Proof. reflexivity. Qed.
Lemma parseTag_set_name : parseTag "meta,set_name" = Ok (mkTag true false false "set_name").
Proof. reflexivity. Qed.
Lemma parseTag_digest : parseTag "meta,digest" = Ok (mkTag true false false "digest").
Proof. reflexivity. Qed.
Lemma parseTag_user_key : parseTag "meta,user_key" = Ok (mkTag true false false "user_key").
Proof. reflexivity. Qed.
Lemma parseTag_generation : parseTag "meta,generation" = Ok (mkTag true false false "generation").
Proof. reflexivity. Qed.
Lemma parseTag_expiration : parseTag "meta,expiration" = Ok (mkTag true false false "expiration").
Proof. reflexivity. Qed.

Ltac eqb_eval :=
  repeat match goal with
    | |- context [String.eqb ?a ?b] =>
        let c := eval vm_compute in (String.eqb a b) in
        lazymatch c with
        | true => change (String.eqb a b) with true
        | false => change (String.eqb a b) with false
        end
    end.

Section ClientKey.
Context (env : GoEnv) (Henv : declaresClientKey env).
Context (ns set : string) (d : list Z) (dyn obj : GoValue).
Context (Hobj : GetObject dyn = Some obj).

Let kv : RValue :=
  mkValue (VStruct tClientKey
             [stringValue ns; stringValue set; digestValue d; VInterface tValue dyn])
          (mkFlag true false false).

Lemma decodeKeyField_namespace s0 :
  decodeKeyField env kv (mkField "Namespace" "meta,namespace" false tString)
                 (mkValue (stringValue s0) targetFlag) = Ok (stringValue ns).
Proof.
  destruct Henv as (H0 & H1 & H2 & H3 & H4 & H5).
  unfold decodeKeyField. cbn [Tag]. rewrite parseTag_namespace.
  cbn [mbind Result_bind meta name negb]. eqb_eval. cbv iota.
  change (CanSet _) with true. cbn [negb].
  unfold kv. rewrite (getMethod_clientKey _ _ _ _ _ _ _ H0 H1).
  reflexivity.
Qed.

Lemma decodeKeyField_set_name s0 :
  decodeKeyField env kv (mkField "SetName" "meta,set_name" false tString)
                 (mkValue (stringValue s0) targetFlag) = Ok (stringValue set).
Proof.
  destruct Henv as (H0 & H1 & H2 & H3 & H4 & H5).
  unfold decodeKeyField. cbn [Tag]. rewrite parseTag_set_name.
  cbn [mbind Result_bind meta name negb]. eqb_eval. cbv iota.
  change (CanSet _) with true. cbn [negb].
  unfold kv. rewrite (getMethod_clientKey _ _ _ _ _ _ _ H0 H2).
  reflexivity.
Qed.

Lemma decodeKeyField_user_key k0 :
  decodeKeyField env kv (mkField "UserKey" "meta,user_key" false tAny)
                 (mkValue (anyValue k0) targetFlag) = Ok (anyValue obj).
Proof.
  destruct Henv as (H0 & H1 & H2 & H3 & H4 & H5).
  unfold decodeKeyField. cbn [Tag]. rewrite parseTag_user_key.
  cbn [mbind Result_bind meta name negb]. eqb_eval. cbv iota.
  change (CanSet _) with true. cbn [negb].
  unfold kv. rewrite (getMethod_clientKey _ _ _ _ _ _ _ H0 H3).
  cbn [keyValue keyPointer map mbind Result_bind].
  unfold MethodByName. cbn [val ValueOf typeOf]. fold tValue. rewrite H5.
  cbn [flags flagRO noFlag flagStickyRO flagEmbedRO orb valueGetObject].
  rewrite Hobj. reflexivity.
Qed.

Lemma SetValue_byte fl a b :
  flagAddr fl = true -> flagRO fl = false ->
  SetValue (mkValue (VUint tUint8 a) fl) (ValueOf (VUint tUint8 b)) =
    Ok (VUint tUint8 b).
Proof.
  intros Ha Hro. unfold SetValue. cbn [val flags ValueOf noFlag].
  rewrite Ha, Hro. reflexivity.
Qed.

Lemma forEach_set_bytes fl (olds news : list Z) i :
  flagAddr fl = true -> flagRO fl = false ->
  length olds = length news ->
  forEach (fun (_ : nat) (ob : GoValue * GoValue) =>
             SetValue (mkValue ob.1 fl) (ValueOf ob.2)) i
          (zip (map (VUint tUint8) olds) (map (VUint tUint8) news)) =
    Ok (map (VUint tUint8) news).
Proof.
  intros Ha Hro. revert news i.
  induction olds as [|a olds IH]; intros [|b news] i Hlen; try done.
  cbn [map zip zip_with forEach fst snd].
  rewrite SetValue_byte by done. cbn [mbind Result_bind].
  change (zip_with pair (map (VUint tUint8) olds) (map (VUint tUint8) news))
    with (zip (map (VUint tUint8) olds) (map (VUint tUint8) news)).
  rewrite IH by (by simplify_eq). done.
Qed.

Lemma decodeKeyField_digest d0 :
  length d = 20%nat -> length d0 = 20%nat ->
  decodeKeyField env kv (mkField "Digest" "meta,digest" false tDigest)
                 (mkValue (digestValue d0) targetFlag) = Ok (digestValue d).
Proof.
  intros Hd Hd0. destruct Henv as (H0 & H1 & H2 & H3 & H4 & H5).
  unfold decodeKeyField. cbn [Tag]. rewrite parseTag_digest.
  cbn [mbind Result_bind meta name negb]. eqb_eval. cbv iota.
  change (CanSet _) with true. cbn [negb].
  unfold kv. rewrite (getMethod_clientKey _ _ _ _ _ _ _ H0 H4).
  cbn [keyDigest keyPointer digestValue map mbind Result_bind].
  change (BytesOf (ValueOf (VSlice tBytes (Some (map (VUint tUint8) d)))))
    with (Ok (map (VUint tUint8) d)).
  cbn [mbind Result_bind].
  change (TypeOfValue (mkValue (digestValue d0) targetFlag)) with (Ok tDigest).
  cbn [mbind Result_bind].
  change (kindEqb (typeKind tDigest) reflect.Array
          && kindEqb (from_option typeKind reflect.Invalid (typeElem tDigest))
                     reflect.Uint8) with true.
  cbv iota. change (default 0%nat (typeLen tDigest)) with 20%nat.
  rewrite !length_map, Hd. cbn [Nat.eqb negb].
  rewrite map_map. cbn [uintOfValue val digestValue flags].
  change (mkFlag (flagAddr targetFlag) (flagRO targetFlag) false) with targetFlag.
  change (map (fun x : Z => VUint tUint8 x) d) with (map (VUint tUint8) d).
  rewrite forEach_set_bytes; [done|done|done|by rewrite Hd, Hd0].
Qed.
End ClientKey.

Lemma decodeRecordField_not_header env recordValue fd fieldValue tag :
  parseTag (Tag fd) = Ok tag -> isHeaderName (name tag) = false ->
  decodeRecordField env recordValue fd fieldValue = Ok (val fieldValue).
Proof.
  intros Hparse Hh. unfold decodeRecordField, isHeaderName in *.
  destruct (String.eqb (Tag fd) ""); [done|]. rewrite Hparse.
  cbn [mbind Result_bind]. destruct (meta tag); [|done]. cbn [negb].
  apply orb_false_iff in Hh as [H1 H2].
  unfold metaTagGeneration, metaTagExpiration in *. by rewrite H1, H2.
Qed.

Lemma getField_clientRecord env key bins g e :
  getField env (mkValue (VStruct tClientRecord
                           [key; clientBins bins; uint32Value g; uint32Value e])
                        targetFlag) "Generation" =
    Ok (mkValue (uint32Value g) targetFlag)
  /\ getField env (mkValue (VStruct tClientRecord
                              [key; clientBins bins; uint32Value g; uint32Value e])
                           targetFlag) "Expiration" =
       Ok (mkValue (uint32Value e) targetFlag).
Proof. split; reflexivity. Qed.

Lemma decodeRecordField_header env key bins g e fd n x0 :
  0 <= g < 2 ^ 32 -> 0 <= e < 2 ^ 32 ->
  (fd = mkField "Generation" "meta,generation" false tUint32 /\ n = g
   \/ fd = mkField "Expiration" "meta,expiration" false tUint32 /\ n = e) ->
  decodeRecordField env
    (mkValue (VStruct tClientRecord
                [key; clientBins bins; uint32Value g; uint32Value e]) targetFlag)
    fd (mkValue (uint32Value x0) targetFlag) = Ok (uint32Value n).
Proof.
  intros Hg He Hfd.
  destruct (getField_clientRecord env key bins g e) as [HG HE].
  assert (Hset : forall u, 0 <= u < 2 ^ 32 ->
            setIntegerValue env (mkValue (uint32Value x0) targetFlag)
                            (mkValue (uint32Value u) targetFlag) =
              Ok (uint32Value u)).
  { intros u Hu.
    apply (proj2 (proj2 (setIntegerValue_uint32_source env
             (mkValue (uint32Value x0) targetFlag) u targetFlag)) tUint32 x0);
      try done.
    change (bitSize (typeKind tUint32)) with 32. unfold wrapUint.
    apply Z.mod_small. lia. }
  destruct Hfd as [[-> ->]|[-> ->]]; unfold decodeRecordField; cbn [Tag].
  - rewrite parseTag_generation.
    cbn [mbind Result_bind meta name negb]. eqb_eval. cbv iota.
    change (CanSet _) with true. cbn [negb].
    rewrite HG. cbn [mbind Result_bind]. by rewrite Hset.
  - rewrite parseTag_expiration.
    cbn [mbind Result_bind meta name negb]. eqb_eval. cbv iota.
    change (CanSet _) with true. cbn [negb].
    rewrite HE. cbn [mbind Result_bind]. by rewrite Hset.
Qed.

Lemma walkField_struct {S} (leaf : Field -> RValue -> S -> GoValue * S * Outcome)
    recurse fl fd t vs s :
  walkField leaf recurse fl fd (VStruct t vs) s =
    recurse (VStruct t vs) (fieldFlag fl fd) s.
Proof. unfold walkField. cbn [valueKind]. by rewrite kindEqb_refl. Qed.

Lemma walkField_plain body recurse fl fd x x' fl' :
  body fd (mkValue x fl') = Ok x' ->
  fieldFlag fl fd = fl' ->
  isLeaf x = true -> valueKind x <> reflect.Ptr ->
  walkField (leafOf body) recurse fl fd x tt = (x', tt, Done).
Proof.
  intros Hb <- Hleaf Hp. rewrite walkField_leaf by done.
  unfold leafOf, fieldValueOf, fieldValueDeref, rewrap.
  destruct x; try done; cbn [val]; by rewrite Hb.
Qed.

Lemma walkTarget_header body pt ns set d k g e ns' set' d' k' g' e' :
  body (mkField "Namespace" "meta,namespace" false tString)
       (mkValue (stringValue ns) targetFlag) = Ok (stringValue ns') ->
  body (mkField "SetName" "meta,set_name" false tString)
       (mkValue (stringValue set) targetFlag) = Ok (stringValue set') ->
  body (mkField "Digest" "meta,digest" false tDigest)
       (mkValue (digestValue d) targetFlag) = Ok (digestValue d') ->
  body (mkField "UserKey" "meta,user_key" false tAny)
       (mkValue (anyValue k) targetFlag) = Ok (anyValue k') ->
  body (mkField "Generation" "meta,generation" false tUint32)
       (mkValue (uint32Value g) targetFlag) = Ok (uint32Value g') ->
  body (mkField "Expiration" "meta,expiration" false tUint32)
       (mkValue (uint32Value e) targetFlag) = Ok (uint32Value e') ->
  walkTarget body (VPtr pt (Some (headerValue ns set d k g e))) =
    (VPtr pt (Some (headerValue ns' set' d' k' g' e')), Done).
Proof.
  intros H1 H2 H3 H4 H5 H6. unfold headerValue.
  rewrite (walkTarget_pointer body pt tHeader _ _ eq_refl).
  cbn [walkFields].
  rewrite walkField_struct, (walkStruct_unfold _ tKey _ _ _ _ eq_refl).
  cbn [walkFields].
  rewrite (walkField_plain _ _ _ _ _ _ _ H1) by done.
  rewrite (walkField_plain _ _ _ _ _ _ _ H2) by done.
  rewrite (walkField_plain _ _ _ _ _ _ _ H3) by done.
  rewrite walkField_struct, (walkStruct_unfold _ tKeyValue _ _ _ _ eq_refl).
  cbn [walkFields].
  rewrite (walkField_plain _ _ _ _ _ _ _ H4) by done.
  rewrite walkField_struct, (walkStruct_unfold _ tMetadata _ _ _ _ eq_refl).
  cbn [walkFields].
  rewrite (walkField_plain _ _ _ _ _ _ _ H5) by done.
  rewrite (walkField_plain _ _ _ _ _ _ _ H6) by done.
  reflexivity.
Qed.

Lemma binAbsent_clientBins bins n :
  bins !! n = None -> binAbsent (mkValue (clientBins bins) targetFlag) n = true.
Proof.
  intros H. unfold binAbsent. rewrite MapIndex_clientBins, H. reflexivity.
Qed.

(** X11.  [Decode] of a record of the client into the three types of
    the package: the namespace, the set name, the digest and the user
    key are read through the accessors of the key ([GetObject] for the
    user key), the generation and the expiration from the fields of
    the record, and each arrives in its field unchanged, for every
    key, every pair of [uint32] counters and every bin mapping that has
    no bin called like one of the six metadata names. *)
Theorem Decode_client_record_header
    (env : GoEnv) (ns set : string) (d : list Z) (dyn obj : GoValue)
    (bins : gmap string GoValue) (g e : Z) :
  declaresClientKey env ->
  GetObject dyn = Some obj ->
  length d = 20%nat ->
  0 <= g < 2 ^ 32 -> 0 <= e < 2 ^ 32 ->
  (forall n, isMetadataName n = true -> bins !! n = None) ->
  Decode env
    (ArgAny (clientRecordOf
               (keyPointer (stringValue ns) (stringValue set) (digestValue d)
                           (VInterface tValue dyn))
               bins g e))
    (freshPointer tHeader) =
  (VPtr (TPtr tHeader) (Some (headerValue ns set d obj g e)), Done).
Proof.
  intros Henv Hobj Hd Hg He Hbins.
  rewrite Decode_clientRecord. cbv zeta.
  change (freshPointer tHeader)
    with (VPtr (TPtr tHeader) (Some (headerValue "" "" (repeat 0 20) VInvalid 0 0))).
  unfold decodeKey.
  rewrite (walkTarget_header _ _ _ _ _ _ _ _ ns set d obj 0 0).
  2: by apply decodeKeyField_namespace.
  2: by apply decodeKeyField_set_name.
  2: by apply (decodeKeyField_digest env Henv).
  2: by apply (decodeKeyField_user_key env Henv _ _ _ dyn).
  2-3: by (eapply decodeKeyField_header; [reflexivity|reflexivity]).
  unfold decodeBins.
  change (negb (kindEqb (rKind _) reflect.Map)) with false. cbv iota.
  rewrite (walkTarget_header _ _ _ _ _ _ _ _ ns set d obj 0 0).
  2-7: (eapply decodeBinsField_absent; [reflexivity|]);
       apply binAbsent_clientBins, Hbins; reflexivity.
  unfold decodeRecord.
  rewrite (walkTarget_header _ _ _ _ _ _ _ _ ns set d obj g e).
  2-5: by (eapply decodeRecordField_not_header; [reflexivity|reflexivity]).
  2: by apply decodeRecordField_header; [..|left].
  2: by apply decodeRecordField_header; [..|right].
  rewrite (walkTarget_header _ _ _ _ _ _ _ _ ns set d obj g e).
  2-5: by (eapply decodeRecordField_not_header; [reflexivity|reflexivity]).
  2: by apply decodeRecordField_header; [..|left].
  2: by apply decodeRecordField_header; [..|right].
  reflexivity.
Qed.

(** ** convertElementType *)

Lemma convertSource_plain source targetType sourceValue :
  sourceValueOf source = Ok sourceValue ->
  IsValid sourceValue = true ->
  rKind sourceValue <> reflect.Ptr ->
  convertSource source targetType = Ok (inr sourceValue).
Proof.
  intros Hs Hv Hp. unfold convertSource. rewrite Hs. cbn [mbind Result_bind].
  rewrite Hv. cbn [negb].
  destruct (kindEqb (rKind sourceValue) reflect.Ptr) eqn:E; [|done].
  by apply kindEqb_eq in E.
Qed.

Lemma typeEqb_neq a b : a <> b -> typeEqb a b = false.
Proof.
  intros H. destruct (typeEqb a b) eqn:E; [|done]. by apply typeEqb_eq in E.
Qed.

(** X12.  [convertElementType] has no case for a target of an unsigned
    integer, complex, array, channel, function, interface or unsafe
    pointer type: a valid source of any other type than the target
    gives the unsupported-target-type error.  A bin is therefore
    decoded into a field of type [uint64] or [any] only when it holds a
    value of exactly that type. *)
Theorem convertElementType_unsupported_target
    (env : GoEnv) (source : anyArg) (targetType st : GoType) (sourceValue : RValue) :
  sourceValueOf source = Ok sourceValue ->
  rKind sourceValue <> reflect.Ptr ->
  typeOf (val sourceValue) = Some st ->
  st <> targetType ->
  unsupportedKind (typeKind targetType) = true ->
  convertElementType env source targetType =
    Err (ErrUnsupportedTargetType (typeKind targetType)).
Proof.
  intros Hs Hp Ht Hne Hk.
  assert (Hv : IsValid sourceValue = true)
    by (unfold IsValid; by destruct (val sourceValue)).
  unfold convertElementType. rewrite convertElementTypeAt_unfold.
  rewrite (convertSource_plain _ _ _ Hs Hv Hp). cbn [mbind Result_bind].
  unfold convertKind, TypeOfValue. rewrite Ht. cbn [mbind Result_bind].
  rewrite typeEqb_neq by done.
  destruct (typeKind targetType); try discriminate; reflexivity.
Qed.

Lemma convertElementType_int_to_int env source sourceValue st i targetType :
  sourceValueOf source = Ok sourceValue ->
  val sourceValue = VInt st i ->
  isIntKind (typeKind st) = true ->
  isIntKind (typeKind targetType) = true ->
  st <> targetType ->
  convertElementType env source targetType =
    Ok (mkValue (VInt targetType (wrapInt (bitSize (typeKind targetType)) i))
                (mkFlag false (flagRO (flags sourceValue)) false)).
Proof.
  intros Hs Hval Hsk Htk Hne.
  assert (Hv : IsValid sourceValue = true) by (unfold IsValid; by rewrite Hval).
  assert (Hp : rKind sourceValue <> reflect.Ptr).
  { unfold rKind. rewrite Hval. cbn. rewrite Hsk. intros E.
    rewrite E in Hsk. discriminate. }
  unfold convertElementType. rewrite convertElementTypeAt_unfold.
  rewrite (convertSource_plain _ _ _ Hs Hv Hp). cbn [mbind Result_bind].
  unfold convertKind, TypeOfValue. rewrite Hval. cbn [typeOf mbind Result_bind].
  rewrite typeEqb_neq by done. rewrite Hsk.
  unfold Convert. rewrite Hval, Htk.
  destruct (typeKind targetType); try discriminate; reflexivity.
Qed.

(** X13.  Bin decoding narrows integers without any check: a bin that
    holds a signed integer, decoded into a field of another signed
    integer type, is truncated to the width of the field ([int64] 300
    arrives in an [int8] as 44), and no error is returned.  The check
    [setIntegerValue] makes for the generation and the expiration has
    no counterpart here. *)
Theorem decodeBins_narrows_integers
    (env : GoEnv) (record : Record) (fd : Field) (n : string)
    (st : GoType) (i : Z) (fieldValue : RValue) :
  binNameOf fd = Some n ->
  Bins record !! n = Some (VInt st i) ->
  isIntKind (typeKind st) = true ->
  isIntKind (typeKind (Typ fd)) = true ->
  st <> Typ fd ->
  CanSet fieldValue = true ->
  typeOf (val fieldValue) = Some (Typ fd) ->
  convertElementType env (ArgAny (VInt st i)) (Typ fd) =
    Ok (ValueOf (VInt (Typ fd) (wrapInt (bitSize (typeKind (Typ fd))) i)))
  /\ decodeBinsField env (binsOf record) fd fieldValue =
       Ok (VInt (Typ fd) (wrapInt (bitSize (typeKind (Typ fd))) i)).
Proof.
  intros Hn Hbin Hsk Htk Hne Hset Hty. split.
  - rewrite (convertElementType_int_to_int env _ (ValueOf (VInt st i)) st i);
      try done.
    unfold sourceValueOf, rKind. cbn. rewrite Hsk.
    destruct (kindEqb (typeKind st) reflect.Interface) eqn:E; [|done].
    apply kindEqb_eq in E. rewrite E in Hsk. discriminate.
  - destruct (binNameOf_Some fd n Hn) as (tag & Htag & Hparse & Hmeta & Homit & Hname & Hnm).
    subst n. unfold decodeBinsField. rewrite Htag, Hparse. cbn [mbind Result_bind].
    rewrite Hname. unfold binsOf. rewrite MapIndex_binsValue, Hbin.
    cbn [mbind Result_bind]. change (IsValid _) with true. cbn [negb].
    rewrite Hset. cbn [negb].
    rewrite (convertElementType_int_to_int env _
               (mkValue (VInt st i) (ifaceElemFlag (mkFlag false (flagRO targetFlag) false)))
               st i) by done.
    cbn [wrapErr mbind Result_bind].
    unfold CanSet in Hset. apply andb_true_iff in Hset as [Ha Hro].
    apply negb_true_iff in Hro.
    unfold SetValue. cbn [val flags]. rewrite Ha, Hro. cbn [negb].
    destruct (val fieldValue) eqn:Ev; try done; cbn in Hty; simplify_eq;
      cbn; unfold assignTo; cbn [typeOf]; unfold directlyAssignable;
      by rewrite typeEqb_refl.
Qed.

Lemma Interface_no_error v e : Interface v <> Err e.
Proof. unfold Interface. by repeat case_match. Qed.

Lemma SetValue_no_error v x e : SetValue v x <> Err e.
Proof. unfold SetValue, assignTo. by repeat case_match. Qed.

Lemma forEach_length {A B} (f : nat -> A -> Result B) i l ys :
  forEach f i l = Ok ys -> length ys = length l.
Proof.
  revert i ys. induction l as [|x r IH]; intros i ys; cbn.
  - intros ?; by simplify_eq.
  - destruct (f i x); cbn; try done.
    destruct (forEach f (S i) r) eqn:E; cbn; try done.
    intros ?; simplify_eq. cbn. f_equal. by eapply IH.
Qed.

Lemma forEach_slice_error convert elementType fl i0 l e :
  forEach (fun i x =>
             src ← Interface (mkValue x fl);
             convertedElement ←
               wrapErr (ErrSliceElement i) (convert (ArgAny src) elementType);
             SetValue (newVar elementType) convertedElement) i0 l = Err e ->
  exists i e', e = ErrSliceElement i e' /\ (i0 <= i < i0 + length l)%nat.
Proof.
  revert i0. induction l as [|x r IH]; intros i0; cbn; [done|].
  destruct (Interface (mkValue x fl)) as [src|e0|p] eqn:Ei; cbn [mbind Result_bind].
  - destruct (convert (ArgAny src) elementType) as [c|e1|p1];
      cbn [wrapErr mbind Result_bind].
    + destruct (SetValue (newVar elementType) c) as [y|e2|p2] eqn:Es;
        cbn [mbind Result_bind].
      * destruct (forEach _ (S i0) r) as [ys|e3|p3] eqn:Er;
          cbn [mbind Result_bind]; try done.
        intros ?; simplify_eq. apply IH in Er as (i & e' & -> & Hi).
        exists i, e'. split; [done|lia].
      * by apply SetValue_no_error in Es.
      * done.
    + intros ?; simplify_eq. exists i0, e1. split; [done|lia].
    + done.
  - by apply Interface_no_error in Ei.
  - done.
Qed.

(** X14.  A slice is converted element by element into a new slice of
    the target type: the result has as many elements as the source, a
    nil slice gives an empty slice that is not nil, and the only error
    is that of an element, wrapped with its index. *)
Theorem convertElementType_slice
    (env : GoEnv) (source : anyArg) (sourceValue : RValue)
    (st : GoType) (l : option (list GoValue)) (targetType et : GoType) :
  sourceValueOf source = Ok sourceValue ->
  val sourceValue = VSlice st l ->
  typeKind targetType = reflect.Slice ->
  typeElem targetType = Some et ->
  st <> targetType ->
  match convertElementType env source targetType with
  | Ok r =>
      exists elems, val r = VSlice targetType (Some elems)
                    /\ length elems = length (default [] l)
  | Err e =>
      exists i e', e = ErrSliceElement i e' /\ (i < length (default [] l))%nat
  | Panic _ => True
  end.
Proof.
  intros Hs Hval Hk He Hne.
  assert (Hv : IsValid sourceValue = true) by (unfold IsValid; by rewrite Hval).
  assert (Hp : rKind sourceValue <> reflect.Ptr)
    by (unfold rKind; by rewrite Hval).
  unfold convertElementType. rewrite convertElementTypeAt_unfold.
  rewrite (convertSource_plain _ _ _ Hs Hv Hp). cbn [mbind Result_bind].
  unfold convertKind, TypeOfValue. rewrite Hval. cbn [typeOf mbind Result_bind].
  rewrite typeEqb_neq by done. rewrite Hk, He.
  destruct (forEach _ 0%nat (default [] l)) as [ys|e|p] eqn:E;
    cbn [mbind Result_bind]; [| |done].
  - exists ys. split; [done|]. by apply forEach_length in E.
  - apply forEach_slice_error in E as (i & e' & -> & Hi). exists i, e'.
    split; [done|lia].
Qed.

(** ** decodeBins: pointer fields *)

Lemma primitiveValue_primitiveKind t x :
  primitiveValue t x -> isPrimitiveKind (typeKind t) = true.
Proof.
  intros [b H|i H|u H|f H|s H]; unfold isPrimitiveKind; rewrite ?H; try done;
    destruct (typeKind t); try done.
Qed.

Lemma typeEqb_pointer e :
  isPrimitiveKind (typeKind e) = true -> typeEqb e (TPtr e) = false.
Proof.
  intros H. apply typeEqb_neq. intros E.
  apply (f_equal typeKind) in E. cbn in E. rewrite E in H. done.
Qed.

Lemma SetValue_same_type v x t :
  typeOf (val v) = Some t -> typeOf (val x) = Some t ->
  CanSet v = true -> flagRO (flags x) = false ->
  SetValue v x = Ok (retype t (val x)).
Proof.
  intros Hv Hx Hset Hro.
  unfold CanSet in Hset. apply andb_true_iff in Hset as [Ha Hr].
  apply negb_true_iff in Hr.
  unfold SetValue. rewrite Hr, Ha, Hro. cbn [negb].
  destruct (val v); cbn in Hv; simplify_eq; cbn [typeOf];
    unfold assignTo; rewrite Hx; unfold directlyAssignable;
    by rewrite typeEqb_refl.
Qed.

(** X15.  [decodeBins] never fills a field of pointer type.  A nil
    pointer is not dereferenced into a settable value, so the field is
    passed over and stays nil although the bin is there.  For a pointer
    that is not nil the value is converted to the declared pointer
    type and then set on the pointee, whose type is not a pointer:
    [Value.Set] panics. *)
Theorem decodeBins_pointer_field
    (env : GoEnv) (record : Record) (fd : Field) (n : string)
    (e : GoType) (y : GoValue) :
  binNameOf fd = Some n ->
  IsExported (Name fd) = true ->
  Typ fd = TPtr e ->
  Bins record !! n = Some y ->
  primitiveValue e y ->
  (forall recurse,
     walkField (leafOf (decodeBinsField env (binsOf record))) recurse
               targetFlag fd (VPtr (TPtr e) None) tt =
       (VPtr (TPtr e) None, tt, Done))
  /\ (forall p, primitiveValue e p ->
        decodeBinsField env (binsOf record) fd
          (fieldValueOf targetFlag fd (VPtr (TPtr e) (Some p))) =
          Panic (PanicNotAssignable (TPtr e) e)).
Proof.
  intros Hn Hexp Ht Hbin Hy.
  destruct (binNameOf_Some fd n Hn) as (tag & Htag & Hparse & Hmeta & Homit & Hname & Hnm).
  subst n.
  pose proof (primitiveValue_primitiveKind _ _ Hy) as Hk.
  pose proof (primitive_kind _ _ Hy) as (Hyk & Hyt & Hyv & Hyu & Hyr & _).
  split.
  - intros recurse. apply walkField_body_unchanged; [done|].
    unfold decodeBinsField. rewrite Htag, Hparse. cbn [mbind Result_bind].
    rewrite Hname. unfold binsOf. rewrite MapIndex_binsValue, Hbin.
    cbn [mbind Result_bind]. change (IsValid _) with true. cbn [negb].
    reflexivity.
  - intros p Hp.
    pose proof (primitive_kind _ _ Hp) as (Hpk & Hpt & Hpv & _).
    unfold decodeBinsField. rewrite Htag, Hparse. cbn [mbind Result_bind].
    rewrite Hname. unfold binsOf. rewrite MapIndex_binsValue, Hbin.
    cbn [mbind Result_bind]. change (IsValid _) with true. cbn [negb].
    unfold fieldValueOf, fieldValueDeref. cbn [val flags].
    unfold fieldFlag. rewrite Hexp.
    change (CanSet _) with true. cbn [negb].
    rewrite Ht. unfold convertElementType. cbn [typeDepth].
    rewrite convertElementTypeAt_unfold.
    set (fl0 := mkFlag false (flagRO targetFlag) false).
    assert (Hsv : sourceValueOf (ArgValue (mkValue (anyValue y) fl0)) =
                  Ok (mkValue y (ifaceElemFlag fl0))).
    { unfold sourceValueOf, rKind, anyValue, Elem. cbn. by destruct y. }
    rewrite (convertSource_plain _ _ _ Hsv).
    2: { unfold IsValid. cbn. by destruct y. }
    2: { unfold rKind. cbn. rewrite Hyk. intros E. rewrite E in Hk. done. }
    cbn [mbind Result_bind]. unfold convertKind, TypeOfValue.
    cbn [val]. rewrite Hyt. cbn [mbind Result_bind].
    rewrite typeEqb_pointer by done.
    change (typeKind (TPtr e)) with reflect.Ptr.
    change (typeElem (TPtr e)) with (Some e). cbv iota.
    fold (convertElementType env (ArgValue (mkValue (anyValue y) fl0)) e).
    rewrite convertElementType_same_type by done. cbn [mbind Result_bind].
    pose proof (zeroValue_primitive_value e Hk) as Hz.
    pose proof (primitive_kind _ _ Hz) as (_ & Hzt & _).
    rewrite (SetValue_same_type _ _ e) by done.
    cbn [mbind Result_bind wrapErr val]. rewrite Hyr.
    unfold SetValue. cbn [val flags ValueOf noFlag flagRO flagStickyRO flagEmbedRO
                          flagAddr ptrElemFlag orb negb].
    destruct p; try done; cbn in Hpt; simplify_eq; cbn [typeOf];
      unfold assignTo; cbn [typeOf]; unfold directlyAssignable;
      rewrite typeEqb_pointer by done; cbn [hasName andb negb];
      rewrite ?andb_false_r; cbn [negb andb];
      rewrite (primitive_underlying _ Hk); cbn [underlying typeEqb orb];
      (destruct (kindEqb (typeKind e) reflect.Interface) eqn:E;
       [apply kindEqb_eq in E; rewrite E in Hk; done|done]).
Qed.

(** ** isEmptyValue *)

Lemma isEmptyValue_func ft isNil fl :
  isEmptyValue (mkValue (VFunc ft isNil) fl) =
    Panic (ValueError "reflect.Value.Len" reflect.Func).
Proof. reflexivity. Qed.

(** X16.  [isEmptyValue] asks a value of function kind for its length,
    which [reflect] does not give: a field of function type whose tag
    names a bin or one of the six metadata names makes the loop body of
    [encode] panic, and [Encode] with it when the fields before are
    encoded without error. *)
Theorem encode_func_field_panics
    (fd : Field) (tag : tag) (ft : GoType) (isNil : bool) :
  String.eqb (Tag fd) "" = false ->
  parseTag (Tag fd) = Ok tag ->
  meta tag = false \/ isMetadataName (name tag) = true ->
  (forall fl record,
     encodeField fd (mkValue (VFunc ft isNil) fl) record =
       Panic (ValueError "reflect.Value.Len" reflect.Func))
  /\ (forall v t fl fds1 fds2 vs1 vs2,
        structValue (ArgAny v) =
          Ok (mkValue (VStruct t (vs1 ++ VFunc ft isNil :: vs2)) fl) ->
        structFields t = Some (fds1 ++ fd :: fds2) ->
        length fds1 = length vs1 ->
        (walkFields encodeLeaf (walkStruct encodeLeaf) fl fds1 vs1 newRecord).2 = Done ->
        Encode v = Panic (ValueError "reflect.Value.Len" reflect.Func)).
Proof.
  intros Htag Hparse Hcase.
  assert (Hbody : forall fl record,
     encodeField fd (mkValue (VFunc ft isNil) fl) record =
       Panic (ValueError "reflect.Value.Len" reflect.Func)).
  { intros fl record. unfold encodeField. rewrite Htag, Hparse.
    cbn [mbind Result_bind].
    assert (He : forall fl', isEmptyValue (mkValue (VFunc ft isNil) fl') =
                   Panic (ValueError "reflect.Value.Len" reflect.Func))
      by (intros; apply isEmptyValue_func).
    destruct Hcase as [Hm|Hm].
    - rewrite Hm. by rewrite He.
    - destruct (meta tag); [|by rewrite He].
      unfold isMetadataName in Hm. unfold setMetadata. rewrite He.
      cbn [mbind Result_bind].
      repeat (destruct (String.eqb (name tag) _); [reflexivity|]).
      done. }
  split; [exact Hbody|].
  intros v t fl fds1 fds2 vs1 vs2 Hsv Ht Hlen Hpre.
  unfold Encode, encode. rewrite Hsv. cbn [mbind Result_bind val flags].
  rewrite (walkStruct_unfold _ _ _ _ _ _ Ht).
  rewrite walkFields_app by done.
  destruct (walkFields _ _ fl fds1 vs1 newRecord) as [[a s1] o1].
  cbn in Hpre. subst o1. cbn [walkFields].
  rewrite walkField_leaf by done. unfold encodeLeaf.
  unfold fieldValueOf, fieldValueDeref. cbn [val]. rewrite Hbody. done.
Qed.

(** ** The client's values *)

(** X17.  What [concreteNewValueReflect] wraps, [GetObject] hands back
    under a predeclared type: a string of any string type as [string],
    a signed integer of any width as [int64], an unsigned one up to
    [uint32] as [int64], an array or slice as a list.  For every other
    kind but maps ([uint64], booleans, floats, structs, pointers, nil)
    the result is nil.  It never panics. *)
Theorem concreteNewValueReflect_GetObject (v : GoValue) :
  match valueKind v with
  | reflect.String =>
      exists s w, StringOf (ValueOf v) = Ok s
        /\ concreteNewValueReflect v = Ok (Some w)
        /\ GetObject w = Some (VString tString s)
  | reflect.Int | reflect.Int8 | reflect.Int16 | reflect.Int32
  | reflect.Int64 =>
      exists i w, IntOf (ValueOf v) = Ok i
        /\ concreteNewValueReflect v = Ok (Some w)
        /\ GetObject w = Some (VInt tInt64 i)
  | reflect.Uint | reflect.Uint8 | reflect.Uint16 | reflect.Uint32 =>
      exists u w, UintOf (ValueOf v) = Ok u
        /\ concreteNewValueReflect v = Ok (Some w)
        /\ GetObject w = Some (VInt tInt64 (wrapInt 64 u))
  | reflect.Array | reflect.Slice =>
      exists w l, concreteNewValueReflect v = Ok (Some w)
        /\ GetObject w = Some (VSlice (TSlice tAny) (Some l))
        /\ Len (ValueOf v) = Ok (length l)
  | reflect.Map =>
      exists w m, concreteNewValueReflect v = Ok (Some w)
        /\ GetObject w = Some (VMap (TMap tAny tAny) (Some m))
  | _ => concreteNewValueReflect v = Ok None
  end.
Proof.
  destruct v as [|t b|t i|t u|t f|t re im|t s|t a|t p|t e|t l|t l|t m|t n|t b|t fs];
    cbn [valueKind]; try reflexivity.
  - unfold concreteNewValueReflect, rKind, ValueOf. cbn [val valueKind].
    destruct (isIntKind (typeKind t)) eqn:Hk.
    + destruct (typeKind t); try discriminate;
        (exists i, (VInt tLongValue i); done).
    + exists i, (VInt tLongValue i); done.
  - unfold concreteNewValueReflect, rKind, ValueOf. cbn [val valueKind].
    destruct (isUintKind (typeKind t)) eqn:Hk.
    + destruct (typeKind t); try discriminate; try reflexivity;
        (exists u, (VInt tLongValue (wrapInt 64 u)); done).
    + exists u, (VInt tLongValue (wrapInt 64 u)); done.
  - unfold concreteNewValueReflect, rKind, ValueOf. cbn [val valueKind].
    destruct (isFloatKind (typeKind t)) eqn:Hk; [destruct (typeKind t)|]; done.
  - unfold concreteNewValueReflect, rKind, ValueOf. cbn [val valueKind].
    destruct (isComplexKind (typeKind t)) eqn:Hk; [destruct (typeKind t)|]; done.
  - exists s, (VString tStringValue s). done.
  - destruct l as [l|].
    + eexists _, _. split; [reflexivity|]. split; [reflexivity|].
      cbn. by rewrite length_map.
    + eexists _, _. split; [reflexivity|]. done.
  - eexists _, _. split; [reflexivity|]. split; [reflexivity|].
    cbn. by rewrite length_map.
  - destruct m as [m|]; eexists _, _; split; reflexivity.
Qed.

(** ** copyStruct *)

Lemma directField_name fds n k i :
  directField fds n k = Some i ->
  exists fd, fds !! (i - k)%nat = Some fd /\ Name fd = n /\ (k <= i)%nat.
Proof.
  revert k. induction fds as [|fd r IH]; intros k; cbn; [done|].
  destruct (String.eqb (Name fd) n) eqn:E.
  - intros ?; simplify_eq. exists fd. rewrite Nat.sub_diag.
    apply String.eqb_eq in E. done.
  - intros H. apply IH in H as (fd' & Hfd & Hn & Hle).
    exists fd'. replace (i - k)%nat with (S (i - S k)) by lia. split; [done|].
    split; [done|lia].
Qed.

Lemma copyFields_unexported env convert targetType tfds zs fl fds vs :
  structFields targetType = Some tfds ->
  existsb Anonymous tfds = false ->
  length zs = length tfds ->
  Forall (fun sourceField =>
            exists tag, parseTag (Tag sourceField) = Ok tag
              /\ IsExported (copyName sourceField tag) = false) fds ->
  copyFields env convert targetType fl fds vs (VStruct targetType zs) =
    Ok (VStruct targetType zs).
Proof.
  intros Ht Ha Hlen Hall. revert vs.
  induction Hall as [|sf fds (tag & Hp & Hx) _ IH]; intros [|x vs];
    cbn [copyFields]; try done.
  rewrite Hp. cbn [mbind Result_bind]. fold (copyName sf tag).
  destruct (FieldIndexByName env targetType (copyName sf tag)) as [index|] eqn:Hi;
    [|apply IH].
  pose proof Hi as Hi'. unfold FieldIndexByName in Hi'. rewrite Ht, Ha in Hi'.
  destruct (String.eqb (copyName sf tag) ""); [done|].
  destruct (directField tfds (copyName sf tag) 0) as [i|] eqn:Hd; [|done].
  simplify_eq. apply directField_name in Hd as (fd & Hfd & Hn & _).
  rewrite Nat.sub_0_r in Hfd.
  destruct (lookup_lt_is_Some_2 zs i) as [z Hz].
  { rewrite Hlen. by eapply lookup_lt_Some. }
  cbn [FieldByIndex mbind Result_bind]. unfold FieldAt. cbn [val flags].
  rewrite Ht. unfold Field in *. rewrite Hfd, Hz. cbn [mbind Result_bind].
  unfold CanSet, fieldFlag. cbn [flags]. rewrite Hn, Hx.
  destruct (Anonymous fd); cbn; rewrite orb_true_r; apply IH.
Qed.

(** X18.  [copyStruct] looks a field of the source up in the target by
    the name in its tag (by its own name when the tag gives none), used
    as a Go field name, and skips it when the target has no such field
    or the field is not settable.  A name that does not start with an
    upper-case letter can match unexported fields only: when the tags
    of the source are such names, nothing is copied, and the conversion
    of the struct to another struct type gives the zero value of that
    type, without an error. *)
Theorem copyStruct_lowercase_names_copy_nothing
    (env : GoEnv) (sourceType targetType : GoType)
    (fds tfds : list Field) (vs : list GoValue) :
  structFields sourceType = Some fds ->
  structFields targetType = Some tfds ->
  existsb Anonymous tfds = false ->
  typeEqb sourceType targetType = false ->
  String.eqb (typeString targetType) timeType = false ->
  Forall (fun sourceField =>
            exists tag, parseTag (Tag sourceField) = Ok tag
              /\ IsExported (copyName sourceField tag) = false) fds ->
  copyStruct env (ArgAny (VStruct sourceType vs)) targetType =
    Ok (zeroValue targetType)
  /\ convertElementType env (ArgAny (VStruct sourceType vs)) targetType =
       Ok (mkValue (zeroValue targetType) slotFlag).
Proof.
  intros Hs Ht Ha Hne Htime Hall.
  assert (Hks : typeKind sourceType = reflect.Struct).
  { unfold structFields in Hs. unfold typeKind.
    destruct (underlying sourceType); done. }
  assert (Hkt : typeKind targetType = reflect.Struct).
  { unfold structFields in Ht. unfold typeKind.
    destruct (underlying targetType); done. }
  destruct (zeroValue_fieldsTyped _ _ Ht) as (zs & Hz & Hty).
  assert (Hcopy : forall convert,
    copyStructWith env convert (ArgAny (VStruct sourceType vs)) targetType =
      Ok (zeroValue targetType)).
  { intros convert. unfold copyStructWith. cbn [valueOfArg].
    unfold rKind, ValueOf, TypeOfValue. cbn [val valueKind].
    change (kindEqb reflect.Struct reflect.Interface) with false.
    cbn [mbind Result_bind val valueKind].
    change (kindEqb reflect.Struct reflect.Ptr) with false.
    cbn [mbind Result_bind val typeOf flags].
    rewrite Hks, Hkt.
    change (kindEqb reflect.Struct reflect.Struct) with true.
    cbn [negb orb]. rewrite Hs, Hz.
    eapply copyFields_unexported; try done.
    symmetry. by eapply Forall2_length. }
  split; [apply Hcopy|].
  unfold convertElementType.
  destruct (typeDepth targetType);
    cbn [convertElementTypeAt]; unfold convertSource, sourceValueOf;
    unfold rKind, ValueOf, IsValid; cbn [val valueKind];
    change (kindEqb reflect.Struct reflect.Interface) with false;
    cbn [mbind Result_bind val valueKind negb];
    change (kindEqb reflect.Struct reflect.Ptr) with false;
    cbn [mbind Result_bind];
    unfold convertKind, TypeOfValue; cbn [val typeOf mbind Result_bind];
    rewrite Hne, Hkt, Htime, Hcopy; done.
Qed.

(** ** decodeKey: the types of the key fields *)

(** X19.  [decodeKey] compares the type of what an accessor of the key
    returns with the type of the field, and accepts identity only: a
    settable field tagged [meta,user_key] of any type but [any] is
    refused, whatever the user key is (even a string for a field of
    type [string]), since [GetObject] returns an [any]; a field tagged
    [meta,namespace] or [meta,set_name] of any type but [string] is
    refused as well.  [Decode] of a record of the client into
    [struct { UserKey string `aero:"meta,user_key"` }] fails so. *)
Theorem decodeKey_field_types
    (env : GoEnv) (ns set dg dyn obj : GoValue) :
  declaresClientKey env ->
  GetObject dyn = Some obj ->
  typeOf ns = Some tString -> typeOf set = Some tString ->
  let key := keyPointer ns set dg (VInterface tValue dyn) in
  let recordValue :=
    mkValue (VStruct tClientKey [ns; set; dg; VInterface tValue dyn])
            (mkFlag true false false) in
  (forall fd tag fieldValue ft,
     String.eqb (Tag fd) "" = false ->
     parseTag (Tag fd) = Ok tag -> meta tag = true ->
     CanSet fieldValue = true ->
     typeOf (val fieldValue) = Some ft ->
     (name tag = "user_key" -> typeEqb tAny ft = false ->
      decodeKeyField env recordValue fd fieldValue =
        Err (ErrMethodWrongType "Value" ft tAny))
     /\ (name tag = "namespace" -> typeEqb tString ft = false ->
         decodeKeyField env recordValue fd fieldValue =
           Err (ErrMethodWrongType "Namespace" ft tString))
     /\ (name tag = "set_name" -> typeEqb tString ft = false ->
         decodeKeyField env recordValue fd fieldValue =
           Err (ErrMethodWrongType "SetName" ft tString)))
  /\ (forall bins g e,
        Decode env (ArgAny (clientRecordOf key bins g e))
               (freshPointer tUserKeyString) =
          (freshPointer tUserKeyString,
           Failed (ErrMethodWrongType "Value" tString tAny))).
Proof.
  intros Henv Hobj Hns Hset key recordValue.
  destruct Henv as (H0 & H1 & H2 & H3 & H4 & H5).
  assert (Hbody : forall fd tag fieldValue ft,
     String.eqb (Tag fd) "" = false ->
     parseTag (Tag fd) = Ok tag -> meta tag = true ->
     CanSet fieldValue = true ->
     typeOf (val fieldValue) = Some ft ->
     (name tag = "user_key" -> typeEqb tAny ft = false ->
      decodeKeyField env recordValue fd fieldValue =
        Err (ErrMethodWrongType "Value" ft tAny))
     /\ (name tag = "namespace" -> typeEqb tString ft = false ->
         decodeKeyField env recordValue fd fieldValue =
           Err (ErrMethodWrongType "Namespace" ft tString))
     /\ (name tag = "set_name" -> typeEqb tString ft = false ->
         decodeKeyField env recordValue fd fieldValue =
           Err (ErrMethodWrongType "SetName" ft tString))).
  { intros fd tag fieldValue ft Htag Hparse Hmeta Hcan Hft.
    split; [|split]; intros Hname Hne;
      unfold decodeKeyField; rewrite Htag, Hparse;
      cbn [mbind Result_bind]; rewrite Hmeta, Hname; cbn [negb];
      eqb_eval; cbv iota; rewrite Hcan; cbn [negb]; unfold recordValue.
    - rewrite (getMethod_clientKey _ _ _ _ _ _ _ H0 H3).
      cbn [keyValue keyPointer map mbind Result_bind].
      unfold MethodByName. cbn [val ValueOf typeOf]. fold tValue. rewrite H5.
      cbn [flags flagRO noFlag flagStickyRO flagEmbedRO orb valueGetObject].
      rewrite Hobj. cbn [map]. unfold TypeOfValue. rewrite Hft.
      change (flagRO (flags (ValueOf (VInterface tValue dyn)))) with false.
      cbn [val ValueOf anyValue typeOf mbind Result_bind]. by rewrite Hne.
    - rewrite (getMethod_clientKey _ _ _ _ _ _ _ H0 H1).
      cbn [keyNamespace keyPointer map mbind Result_bind setFromMethod].
      unfold TypeOfValue. cbn [val ValueOf]. rewrite Hns, Hft.
      cbn [mbind Result_bind]. by rewrite Hne.
    - rewrite (getMethod_clientKey _ _ _ _ _ _ _ H0 H2).
      cbn [keySetName keyPointer map mbind Result_bind setFromMethod].
      unfold TypeOfValue. cbn [val ValueOf]. rewrite Hset, Hft.
      cbn [mbind Result_bind]. by rewrite Hne. }
  split; [exact Hbody|].
  intros bins g e. unfold key. rewrite Decode_clientRecord. cbv zeta.
  unfold decodeKey.
  change (freshPointer tUserKeyString)
    with (VPtr (TPtr tUserKeyString) (Some (VStruct tUserKeyString [VString tString ""]))).
  rewrite (walkTarget_pointer _ _ tUserKeyString _ _ eq_refl).
  cbn [walkFields]. rewrite walkField_leaf by done.
  unfold leafOf, fieldValueOf, fieldValueDeref. cbn [val valueKind].
  change (kindEqb reflect.String reflect.Ptr) with false. cbv iota.
  destruct (Hbody (mkField "UserKey" "meta,user_key" false tString)
              (mkTag true false false "user_key")
              (mkValue (VString tString "") (mkFlag true false false)) tString)
    as [Hk _]; try reflexivity.
  change (fieldFlag targetFlag _) with (mkFlag true false false).
  unfold recordValue in Hk. rewrite Hk by done.
  reflexivity.
Qed.

(** ** Instances of the further properties *)

Lemma clientEnv_declares : declaresClientKey clientEnv.
Proof. repeat split. Qed.

Lemma plainEnv_no_key_methods : keyHasNoMethods plainEnv.
Proof. intros m. split; reflexivity. Qed.

Lemma Encode_bins_are_tagged_witness :
  "title" ∈ taggedNames (VStruct tItem1 [VString tString "title1"]).
Proof.
  eapply (Encode_bins_are_tagged (VStruct tItem1 [VString tString "title1"]) _
            "title" (VString tString "title1")).
  - vm_compute. reflexivity.
  - vm_compute. reflexivity.
Defined.

Lemma invalid_tag_is_an_error_witness :
  encodeField twoNamesField (ValueOf (VInt tInt 1)) newRecord =
    Err (ErrInvalidTag "a,b")
  /\ Encode (VStruct (TStruct [lengthField; twoNamesField])
                     [VInt tInt 10; VInt tInt 1]) = Err (ErrInvalidTag "a,b").
Proof.
  destruct (invalid_tag_is_an_error plainEnv twoNamesField (ErrInvalidTag "a,b")
              eq_refl eq_refl) as [Hbody Hencode].
  split.
  - exact (proj1 (Hbody (ValueOf (VInt tInt 1)) newRecord (binsOf newRecord))).
  - apply (Hencode _ (TStruct [lengthField; twoNamesField]) noFlag
             [lengthField] [] [VInt tInt 10] (VInt tInt 1) []);
      vm_compute; reflexivity.
Defined.

Lemma encode_metadata_field_type_witness :
  encodeField (mkField "Gen" "meta,generation" false tInt)
              (ValueOf (VInt tInt 3)) newRecord =
    Err (ErrTypeMismatch "generation" tInt tUint32).
Proof.
  apply (proj2 (encode_metadata_field_type
                  (mkField "Gen" "meta,generation" false tInt)
                  (mkTag true false false "generation") tUint32
                  (ValueOf (VInt tInt 3)) newRecord
                  eq_refl eq_refl eq_refl eq_refl) tInt);
    [reflexivity|reflexivity|discriminate].
Defined.

Lemma Encode_record_header_witness :
  Encode (recordValueOf (setBin newRecord "length" (VInt tInt 10))) =
    Ok newRecord.
Proof.
  apply (proj1 (Encode_record_header (setBin newRecord "length" (VInt tInt 10))
                  ltac:(discriminate))).
Defined.

Lemma Decode_needs_record_witness :
  exists cases,
    sourceCases (clientRecord 3) = Some cases
    /\ existsb setsIsRecord cases = true.
Proof.
  eapply (Decode_needs_record plainEnv (clientRecord 3) (freshPointer tGenUint8)).
  vm_compute. reflexivity.
Defined.

Lemma Decode_bad_destination_witness :
  Decode plainEnv (ArgAny (recordPointer newRecord)) (VInt tInt 1) =
    (VInt tInt 1, Failed ErrInvalidSourceType).
Proof.
  eapply (Decode_bad_destination plainEnv (recordPointer newRecord) (VInt tInt 1));
    vm_compute; reflexivity.
Defined.

Lemma Decode_encoded_record_key_fails_witness :
  Decode plainEnv (ArgAny (recordPointer newRecord)) (freshPointer tNamespaceOnly) =
    (freshPointer tNamespaceOnly,
     Failed (ErrOnType tKey (ErrMethodNotFound "Namespace" tKey))).
Proof.
  apply (Decode_encoded_record_key_fails plainEnv newRecord (TPtr tNamespaceOnly)
           tNamespaceOnly (mkField "NS" "meta,namespace" false tString)
           (mkTag true false false "namespace") "Namespace"
           [] [] (VString tString "") [] []
           plainEnv_no_key_methods);
    try reflexivity; constructor.
Defined.

Lemma Decode_client_record_header_witness :
  Decode clientEnv
    (ArgAny (clientRecordOf
               (keyPointer (stringValue "ns1") (stringValue "set1")
                           (digestValue (repeat 7 20))
                           (VInterface tValue (VString tStringValue "key1")))
               (<["length" := VInt tInt 10]> ∅) 3 1000))
    (freshPointer tHeader) =
  (VPtr (TPtr tHeader)
        (Some (headerValue "ns1" "set1" (repeat 7 20) (VString tString "key1")
                           3 1000)), Done).
Proof.
  apply (Decode_client_record_header clientEnv "ns1" "set1" (repeat 7 20)
           (VString tStringValue "key1") (VString tString "key1")
           (<["length" := VInt tInt 10]> ∅) 3 1000 clientEnv_declares);
    try reflexivity; try lia.
  intros n Hn. apply lookup_insert_None. split; [apply lookup_empty|].
  intros <-. discriminate.
Defined.

Lemma convertElementType_unsupported_target_witness :
  convertElementType plainEnv (ArgAny (VInt tInt 1)) tUint64 =
    Err (ErrUnsupportedTargetType reflect.Uint64).
Proof.
  apply (convertElementType_unsupported_target plainEnv (ArgAny (VInt tInt 1))
           tUint64 tInt (ValueOf (VInt tInt 1)));
    try reflexivity; discriminate.
Defined.

Lemma decodeBins_narrows_integers_witness :
  decodeBinsField plainEnv
    (binsOf (setBin newRecord "length" (VInt tInt64 300)))
    (mkField "Length" "length" false tInt8)
    (mkValue (VInt tInt8 0) targetFlag) = Ok (VInt tInt8 44).
Proof.
  apply (proj2 (decodeBins_narrows_integers plainEnv
                  (setBin newRecord "length" (VInt tInt64 300))
                  (mkField "Length" "length" false tInt8) "length"
                  tInt64 300 (mkValue (VInt tInt8 0) targetFlag)
                  eq_refl ltac:(vm_compute; reflexivity) eq_refl eq_refl
                  ltac:(discriminate) eq_refl eq_refl)).
Defined.

Lemma convertElementType_slice_witness :
  match convertElementType plainEnv
          (ArgAny (VSlice (TSlice tInt) (Some [VInt tInt 1; VInt tInt 2])))
          (TSlice tInt64) with
  | Ok r =>
      exists elems, val r = VSlice (TSlice tInt64) (Some elems)
                    /\ length elems = 2%nat
  | Err e => exists i e', e = ErrSliceElement i e' /\ (i < 2)%nat
  | Panic _ => True
  end.
Proof.
  apply (convertElementType_slice plainEnv
           (ArgAny (VSlice (TSlice tInt) (Some [VInt tInt 1; VInt tInt 2])))
           (ValueOf (VSlice (TSlice tInt) (Some [VInt tInt 1; VInt tInt 2])))
           (TSlice tInt) (Some [VInt tInt 1; VInt tInt 2]) (TSlice tInt64) tInt64);
    try reflexivity; discriminate.
Defined.

Lemma decodeBins_pointer_field_witness :
  decodeBinsField plainEnv (binsOf (setBin newRecord "offset" (VInt tInt 5)))
    offsetField (fieldValueOf targetFlag offsetField
                   (VPtr (TPtr tInt) (Some (VInt tInt 0)))) =
    Panic (PanicNotAssignable (TPtr tInt) tInt).
Proof.
  apply (proj2 (decodeBins_pointer_field plainEnv
                  (setBin newRecord "offset" (VInt tInt 5)) offsetField "offset"
                  tInt (VInt tInt 5) eq_refl eq_refl eq_refl
                  ltac:(vm_compute; reflexivity)
                  (PrimInt tInt 5 eq_refl))
               (VInt tInt 0) (PrimInt tInt 0 eq_refl)).
Defined.

Lemma encode_func_field_panics_witness :
  Encode (VStruct (TStruct [lengthField; funcField])
                  [VInt tInt 10; VFunc (TFunc "func()") true]) =
    Panic (ValueError "reflect.Value.Len" reflect.Func).
Proof.
  apply (proj2 (encode_func_field_panics funcField (mkTag false false false "f")
                  (TFunc "func()") true eq_refl eq_refl (or_introl eq_refl))
               _ (TStruct [lengthField; funcField]) noFlag
               [lengthField] [] [VInt tInt 10] []);
    vm_compute; reflexivity.
Defined.

Lemma copyStruct_lowercase_names_copy_nothing_witness :
  copyStruct plainEnv (ArgAny (VStruct tItem1 [VString tString "title1"]))
             tOtherItem1 = Ok (VStruct tOtherItem1 [VString tString ""])
  /\ convertElementType plainEnv
       (ArgAny (VStruct tItem1 [VString tString "title1"])) tOtherItem1 =
       Ok (mkValue (VStruct tOtherItem1 [VString tString ""]) slotFlag).
Proof.
  apply (copyStruct_lowercase_names_copy_nothing plainEnv tItem1 tOtherItem1
           item1Fields item1Fields [VString tString "title1"]);
    try reflexivity.
  constructor; [|constructor].
  exists (mkTag false false false "title"). split; reflexivity.
Defined.

Lemma decodeKey_field_types_witness :
  Decode clientEnv
    (ArgAny (clientRecordOf
               (keyPointer (stringValue "ns1") (stringValue "set1")
                           (digestValue (repeat 7 20))
                           (VInterface tValue (VString tStringValue "key1")))
               ∅ 3 1000))
    (freshPointer tUserKeyString) =
  (freshPointer tUserKeyString,
   Failed (ErrMethodWrongType "Value" tString tAny)).
Proof.
  apply (proj2 (decodeKey_field_types clientEnv (stringValue "ns1")
                  (stringValue "set1") (digestValue (repeat 7 20))
                  (VString tStringValue "key1") (VString tString "key1")
                  clientEnv_declares eq_refl eq_refl eq_refl)).
Defined.
